(** * GatewayMgr: the connection manager of the push server

    A shallow embedding of [GatewayMgr.py]: the length-prefixed frame codec
    ([Packet.Pack] / [Packet.UnPack]), the tracked enqueue ([_queued_send],
    [send_push]), the send and receive loops ([_send], [_recv]) and the
    response dispatcher ([_resp_handler]).

    Python 2 [str] values that travel on the wire are [list byte]; identifiers
    and bodies are [string]; integers are [Z].  Exceptions are values of
    [exn]; a computation that may raise returns a [result].  Calls that leave
    the module (socket, logger, callbacks, presence store) are recorded in a
    history together with their outcome, and the outcome is chosen by an
    environment that sees the whole history so far.

    What the model leaves out: an outside call does not call back into the
    manager (a callback does not enqueue or register anything while it
    runs); the logger always returns; the three greenlets do not interleave
    inside one turn of a loop, only between turns. *)

From Stdlib Require Import ZArith Lia List String Ascii.
From Stdlib Require Import Strings.Byte.
From stdpp Require Import base option list strings gmap.

Import ListNotations.
Local Open Scope string_scope.
Local Open Scope list_scope.

Abbreviation bytes := (list byte).

(** ** Exceptions *)

(** The exception classes the module defines or meets.  [SystemExit] stands
    for the [BaseException] classes that are not [Exception]s (with
    [KeyboardInterrupt]); [OtherException] for any further subclass of
    [Exception]. *)
Inductive exn : Type :=
  | DataNeededError (value : string)
  | MaxLengthError (value : string)
  | KeyboardInterrupt
  | SystemExit
  | socket_error
  | InconsistentError
  | KeyError (key : string)
  | TypeError
  | ValueError
  | AttributeError
  | struct_error
  | DecodeError
  | OtherException (name : string).

(** [isinstance(e, Exception)] *)
Definition is_Exception (e : exn) : bool :=
  match e with
  | KeyboardInterrupt | SystemExit => false
  | _ => true
  end.

Inductive result (A : Type) : Type :=
  | Ok (a : A)
  | Raise (e : exn).
Arguments Ok {A} a.
Arguments Raise {A} e.

(** ** Constants *)

Definition MSG_SERVER : Z := 0x0.
Definition MSG_CLIENT : Z := 0x1.
Definition MSG_AUTH : Z := 0x2.
Definition MSG_HEARTBEAT : Z := 0x4.
Definition MSG_RECEIPT : Z := 0x8.
Definition MSG_NOT_TRANSIENT : Z := 0x10.
Definition MSG_GROUP : Z := 0x20.
Definition MSG_EVENT : Z := 0x40.
Definition MSG_ERROR : Z := 0x80000000.

Definition MAX_PACKET_LENGTH : Z := Z.shiftl 1 20.

(** ** The wire container *)

(** The fields [_queued_send] assigns and [_resp_handler] reads. *)
Record Container : Type := mkContainer {
  SID : string;
  RID : string;
  MID : string;
  STIME : Z;
  TYPE : Z;
  BODY : string
}.

(** Modelled from the spec: the generated schema module [gw_message_pb2] is
    not part of the sources; the codec only needs its two operations, so
    they are an interface.  [ParseFromString] may raise [DecodeError].
    [SerializeToString] is taken on messages that serialize: a [Container]
    has all six fields set, as [_queued_send] sets them, and the octets are
    a function of the fields.  A serialization that raises (a message the
    schema refuses) is not represented; the statements about [Pack] are
    about messages that have a serialized form, and none of them says that
    [Pack] fails in one way only. *)
Class ContainerSchema : Type := {
  SerializeToString : Container -> bytes;
  ParseFromString : bytes -> result Container
}.

(** ** [struct.pack('>I', n)] and [struct.unpack('>I', s)] *)

Definition byte_of_Z (z : Z) : byte :=
  match Byte.of_N (Z.to_N (Z.land z 0xff)) with
  | Some b => b
  | None => x00
  end.

Definition Z_of_byte (b : byte) : Z := Z.of_N (Byte.to_N b).

Definition struct_pack_I (n : Z) : result bytes :=
  if ((0 <=? n) && (n <? 2 ^ 32))%Z then
    Ok [ byte_of_Z (Z.shiftr n 24); byte_of_Z (Z.shiftr n 16);
         byte_of_Z (Z.shiftr n 8); byte_of_Z n ]
  else Raise struct_error.

Definition struct_unpack_I (s : bytes) : result Z :=
  match s with
  | [b0; b1; b2; b3] =>
      Ok (Z.lor (Z.shiftl (Z_of_byte b0) 24)
           (Z.lor (Z.shiftl (Z_of_byte b1) 16)
             (Z.lor (Z.shiftl (Z_of_byte b2) 8) (Z_of_byte b3))))
  | _ => Raise struct_error
  end.

(** [len(s)] as a Python integer. *)
Definition len {A : Type} (s : list A) : Z := Z.of_nat (length s).

(** The slice [s[lo:hi]] for non-negative bounds. *)
Definition slice {A : Type} (s : list A) (lo hi : Z) : list A :=
  take (Z.to_nat (hi - lo)) (drop (Z.to_nat lo) s).

(** ** Packet *)

Section Packet.
Context `{ContainerSchema}.

Definition Pack (message : Container) : result bytes :=
  let raw := SerializeToString message in
  let length := len raw in
  match struct_pack_I length with
  | Ok data => Ok (data ++ raw)
  | Raise e => Raise e
  end.

Definition UnPack (data : bytes) : result Container :=
  if (len data <? 4)%Z then Raise (DataNeededError "At least 4 octets")
  else
    match struct_unpack_I (slice data 0 4) with
    | Raise e => Raise e
    | Ok length =>
        if (length >? MAX_PACKET_LENGTH)%Z then Raise (MaxLengthError EmptyString)
        else if (len data <? 4 + length)%Z then
          Raise (DataNeededError "Need more data")
        else
          let data := slice data 4 (4 + length) in
          ParseFromString data
    end.

End Packet.


(** ** Python values produced by [json.loads] *)

#[local] Set Warnings "-register-all".
Inductive pyobj : Type :=
  | PyNone
  | PyBool (b : bool)
  | PyNum (literal : string)
  | PyStr (s : string)
  | PyList (l : list pyobj)
  | PyDict (d : list (string * pyobj)).

(** A decoded JSON object is an association list; the first binding of a
    key is the one the dict holds. *)
Fixpoint assoc (k : string) (d : list (string * pyobj)) : option pyobj :=
  match d with
  | [] => None
  | (k', v) :: d' => if String.eqb k' k then Some v else assoc k d'
  end.

(** [o[k]] for a string key: [KeyError] on a dict without the key,
    [TypeError] on anything that is not a dict. *)
Definition getitem (o : pyobj) (k : string) : result pyobj :=
  match o with
  | PyDict d =>
      match assoc k d with
      | Some v => Ok v
      | None => Raise (KeyError k)
      end
  | _ => Raise TypeError
  end.

(** [o == s] for a string literal [s]. *)
Definition py_eq_str (o : pyobj) (s : string) : bool :=
  match o with
  | PyStr s' => String.eqb s' s
  | _ => false
  end.

(** The key under which [o] is looked up in a dict whose keys are all
    strings: lists and dicts are unhashable ([TypeError]); other
    non-strings hash but equal no key. *)
Definition hash_key (o : pyobj) : result (option string) :=
  match o with
  | PyStr s => Ok (Some s)
  | PyList _ | PyDict _ => Raise TypeError
  | _ => Ok None
  end.

(** [mid in tbl] and the entry [tbl.pop(mid)] removes, for a hashed key. *)
Definition tbl_lookup {V} (key : option string) (tbl : gmap string V)
    : option (string * V) :=
  match key with
  | Some k =>
      match tbl !! k with
      | Some v => Some (k, v)
      | None => None
      end
  | None => None
  end.

(** Truth value of a [str] and of an [int]. *)
Definition str_true (s : string) : bool :=
  match s with
  | EmptyString => false
  | _ => true
  end.

Definition int_true (z : Z) : bool := negb (z =? 0)%Z.

(** Truth value of an attribute that holds an object or [None]. *)
Definition obj_true {A} (o : option A) : bool :=
  match o with
  | Some _ => true
  | None => false
  end.

(** ** [binascii.hexlify] and the ['%07s-%s'] format *)

Definition hexdigit (n : N) : ascii :=
  match n with
  | 0%N => "0" | 1%N => "1" | 2%N => "2" | 3%N => "3" | 4%N => "4"
  | 5%N => "5" | 6%N => "6" | 7%N => "7" | 8%N => "8" | 9%N => "9"
  | 10%N => "a" | 11%N => "b" | 12%N => "c" | 13%N => "d" | 14%N => "e"
  | _ => "f"
  end%char.

Fixpoint hexlify (s : bytes) : string :=
  match s with
  | [] => EmptyString
  | b :: s' =>
      String (hexdigit (Byte.to_N b / 16))
        (String (hexdigit (Byte.to_N b mod 16)) (hexlify s'))
  end.

Fixpoint spaces (n : nat) : string :=
  match n with
  | 0 => EmptyString
  | S n' => String " "%char (spaces n')
  end.

(** ['%07s' % s]: for the [s] conversion the [0] flag is ignored, the value
    is right-justified with blanks in a field of width 7. *)
Definition format_07s (s : string) : string :=
  spaces (7 - String.length s) +:+ s.

(** ['%07s-%s' % (msgid, guid)], both already rendered by [str]. *)
Definition format_mid (msgid guid : string) : string :=
  format_07s msgid +:+ "-" +:+ guid.

(** ** The world outside the module *)

(** A Python function object, known by its identity. *)
Abbreviation callback := nat.

Inductive logmethod : Type := log_debug | log_warn | log_warning | log_error.

Inductive logarg : Type :=
  | ArgStr (s : string)
  | ArgObj (o : pyobj)
  | ArgExn (e : exn).

(** The calls that leave the module. *)
Inductive call : Type :=
  | socket_socket                        (* socket.socket(AF_INET, SOCK_STREAM) *)
  | socket_connect                       (* _gw_fd_raw.connect((GATEWAY_HOST, GATEWAY_PORT)) *)
  | SSLSocket                            (* gevent.ssl.SSLSocket(_gw_fd_raw) *)
  | fd_write (b : bytes)                 (* gw_fd.write(b) *)
  | raw_close                            (* _gw_fd_raw.close() *)
  | wait_read                            (* socket.wait_read(gw_fd.fileno()) *)
  | fd_read                              (* gw_fd.read() *)
  | logger (m : logmethod) (fmt : string) (args : list logarg)
  | print_exc                            (* traceback.print_exc() *)
  | invoke (f : callback) (status : Z)   (* _func(status) *)
  | online_callback (sid : string)
  | offline_callback (sid : string)
  | mysql                                (* db_helper.mysql() *)
  | delToOnlineTable (sid : string)
  | os_urandom (n : nat).

(** What a call did: it returned (the value matters for [fd_read] and
    [os_urandom] only) or it raised. *)
Inductive outcome : Type :=
  | Returns (v : bytes)
  | Raises (e : exn).

Abbreviation history := (list (call * outcome)).

(** The environment decides every outcome from the history so far.
    [os.urandom(n)] always returns [n] octets, so it is a stream of octets
    rather than an [answer].  [json_loads] is a function of its argument.
    [STATUS_SUCCESS] is [MessageObj.STATUS_SUCCESS], from the [Message]
    module. *)
Record Env : Type := mkEnv {
  answer : history -> call -> outcome;
  random_octet : history -> nat -> byte;
  json_loads : string -> result pyobj;
  STATUS_SUCCESS : Z
}.

(** ** The manager and its state *)

(** Modelled from the spec: the bundle passed to [send_push] is a
    [Message.MessageObj], a module that is not part of the sources; the
    record has the four attributes [send_push] reads ([user.guid],
    [msg.payload], [msg.msgid] rendered by [str], [callback]). *)
Record MessageObj : Type := mkMessageObj {
  user_guid : string;
  msg_payload : string;
  msg_msgid : string;
  bundle_callback : option callback
}.

(** The attributes of [self].  A socket object is known by the length of
    the history when it was created; [_send_queue] holds encoded frames,
    oldest first. *)
Record GatewayMgr : Type := mkGatewayMgr {
  callback_tbl : gmap string callback;
  gw_fd : option nat;
  _gw_fd_raw : option nat;
  _send_queue : list bytes;
  mysql_instance : option nat
}.

(** The state the loops run in: the manager, the local variable [buf] of
    [_recv], and the history of outside calls. *)
Record World : Type := mkWorld {
  self : GatewayMgr;
  buf : bytes;
  trace : history
}.

Definition PUSH_SERVER_SID : string := "00000001".

(** String literals of the source that contain a double quote. *)
Definition dquote : string := String (ascii_of_nat 34) EmptyString.

(** ['{"token":"foo"}'] *)
Definition token_foo : string :=
  "{" +:+ dquote +:+ "token" +:+ dquote +:+ ":" +:+ dquote +:+ "foo"
  +:+ dquote +:+ "}".

(** ['[GM] Got "%s" in callback'] *)
Definition got_in_callback : string :=
  "[GM] Got " +:+ dquote +:+ "%s" +:+ dquote +:+ " in callback".

Definition set_callback_tbl (t : gmap string callback) (w : World) : World :=
  let s := self w in
  mkWorld (mkGatewayMgr t (gw_fd s) (_gw_fd_raw s) (_send_queue s)
             (mysql_instance s)) (buf w) (trace w).

Definition set_gw_fd (fd : option nat) (w : World) : World :=
  let s := self w in
  mkWorld (mkGatewayMgr (callback_tbl s) fd (_gw_fd_raw s) (_send_queue s)
             (mysql_instance s)) (buf w) (trace w).

Definition set_gw_fd_raw (fd : option nat) (w : World) : World :=
  let s := self w in
  mkWorld (mkGatewayMgr (callback_tbl s) (gw_fd s) fd (_send_queue s)
             (mysql_instance s)) (buf w) (trace w).

Definition set_send_queue (q : list bytes) (w : World) : World :=
  let s := self w in
  mkWorld (mkGatewayMgr (callback_tbl s) (gw_fd s) (_gw_fd_raw s) q
             (mysql_instance s)) (buf w) (trace w).

Definition set_mysql_instance (i : option nat) (w : World) : World :=
  let s := self w in
  mkWorld (mkGatewayMgr (callback_tbl s) (gw_fd s) (_gw_fd_raw s)
             (_send_queue s) i) (buf w) (trace w).

Definition set_buf (b : bytes) (w : World) : World :=
  mkWorld (self w) b (trace w).

Definition record (c : call) (o : outcome) (w : World) : World :=
  mkWorld (self w) (buf w) (trace w ++ [(c, o)]).

(** ** Computations that change the world and may raise *)

Definition M (A : Type) : Type := World -> result A * World.

Definition ret {A} (a : A) : M A := fun w => (Ok a, w).

Definition raise {A} (e : exn) : M A := fun w => (Raise e, w).

Definition bind {A B} (m : M A) (k : A -> M B) : M B :=
  fun w =>
    match m w with
    | (Ok a, w') => k a w'
    | (Raise e, w') => (Raise e, w')
    end.

Definition lift {A} (r : result A) : M A := fun w => (r, w).

Definition get : M World := fun w => (Ok w, w).

Definition modify (f : World -> World) : M unit := fun w => (Ok tt, f w).

(** [try: m / except ...: handler / else: orelse].  [handler e] is [None]
    when no [except] clause matches [e], which then propagates. *)
Definition try_except {A B} (m : M A) (handler : exn -> option (M B))
    (orelse : A -> M B) : M B :=
  fun w =>
    match m w with
    | (Ok a, w') => orelse a w'
    | (Raise e, w') =>
        match handler e with
        | Some h => h w'
        | None => (Raise e, w')
        end
    end.

Declare Scope gw_scope.
Delimit Scope gw_scope with gw.
Notation "'let*' x ':=' c 'in' k" := (bind c (fun x => k))
  (at level 10, x name, c at level 100, k at level 200) : gw_scope.
Notation "c '>>' k" := (bind c (fun _ => k))
  (at level 100, k at level 200, right associativity) : gw_scope.
Local Open Scope gw_scope.

Inductive loop_ctl : Type := Continue | Break.

Section Manager.
Context `{ContainerSchema} (env : Env).

(** An outside call: the environment answers, the history grows.  The
    call is opaque: the history holds the calls this module makes, not what
    happens inside them, and a callable handed to the manager ([_func],
    [online_callback], [offline_callback]) is taken to leave the manager's
    attributes to the manager while it runs.  A callback that calls back
    into [send_push] is not represented; the statements about a dispatch
    describe what the dispatcher's own statements call and assign. *)
Definition extern (c : call) : M bytes :=
  fun w =>
    match answer env (trace w) c with
    | Returns v => (Ok v, record c (Returns v) w)
    | Raises e => (Raise e, record c (Raises e) w)
    end.

(** The logger and [traceback.print_exc] only leave a line in the history;
    they return normally. *)
Definition log (m : logmethod) (fmt : string) (args : list logarg) : M unit :=
  modify (record (logger m fmt args) (Returns [])).

Definition traceback_print_exc : M unit :=
  modify (record print_exc (Returns [])).

(** [os.urandom(n)] *)
Definition urandom (n : nat) : M bytes :=
  fun w =>
    let v := map (random_octet env (trace w)) (seq 0 n) in
    (Ok v, record (os_urandom n) (Returns v) w).

(** [not self.gw_fd or not self._gw_fd_raw] *)
Definition disconnected (s : GatewayMgr) : bool :=
  negb (obj_true (gw_fd s)) || negb (obj_true (_gw_fd_raw s)).

Definition connect : M unit :=
  let* w := get in
  extern socket_socket >>
  modify (set_gw_fd_raw (Some (length (trace w)))) >>
  extern socket_connect >>
  extern SSLSocket >>
  modify (set_gw_fd (Some (length (trace w)))).

(** [self._send_queue.put(data)]: the queue is unbounded. *)
Definition put (data : bytes) : M unit :=
  modify (fun w => set_send_queue (_send_queue (self w) ++ [data]) w).

Definition _queued_send (rid : string) (msgtype : Z) (body : string)
    (callback : option callback) (mid : option string) : M unit :=
  let* tail :=
    match mid with
    | Some m =>
        if str_true m then ret m
        else (let* r := urandom 9 in ret (hexlify r))
    | None => let* r := urandom 9 in ret (hexlify r)
    end in
  let mid := "PSH" +:+ tail in
  let msg := {| SID := PUSH_SERVER_SID; RID := rid; MID := mid; STIME := 0;
                TYPE := msgtype; BODY := body |} in
  let* data := lift (Pack msg) in
  put data >>
  match callback with
  | Some f =>
      modify (fun w => set_callback_tbl (<[mid := f]> (callback_tbl (self w))) w)
  | None => ret tt
  end.

Definition auth : M unit :=
  _queued_send EmptyString (Z.lor MSG_CLIENT MSG_AUTH) token_foo None None.

Definition send_push (bundle : MessageObj) : M unit :=
  let* w := get in
  (if disconnected (self w) then connect else ret tt) >>
  _queued_send (user_guid bundle) (Z.lor MSG_CLIENT MSG_RECEIPT)
    (msg_payload bundle) (bundle_callback bundle)
    (Some (format_mid (msg_msgid bundle) (user_guid bundle))).

(** [self.gw_fd.write(b)]; attribute access on [None] raises. *)
Definition gw_fd_write (b : bytes) : M unit :=
  let* w := get in
  match gw_fd (self w) with
  | Some _ => extern (fd_write b) >> ret tt
  | None => raise AttributeError
  end.

(** [try: self._gw_fd_raw.close() / except: pass] *)
Definition close_quietly : M unit :=
  try_except
    (let* w := get in
     match _gw_fd_raw (self w) with
     | Some _ => extern raw_close >> ret tt
     | None => raise AttributeError
     end)
    (fun _ => Some (ret tt))
    (fun _ => ret tt).

(** The body of [for _ in range(2)] in [_send], [n] rounds to go. *)
Fixpoint _send_attempts (n : nat) (b : bytes) (ok : bool) : M bool :=
  match n with
  | 0 => ret ok
  | S n' =>
      let* w := get in
      (if disconnected (self w) then connect else ret tt) >>
      let* ok :=
        try_except (gw_fd_write b)
          (fun ex =>
             match ex with
             | socket_error =>
                 Some (close_quietly >>
                       modify (set_gw_fd_raw None) >>
                       modify (set_gw_fd None) >>
                       ret ok)
             | _ => None
             end)
          (fun _ => ret true) in
      if ok then ret ok else _send_attempts n' b ok
  end.

(** One turn of [while True] in [_send], once [get()] has returned [b]. *)
Definition _send_item (b : bytes) : M unit :=
  let* ok := _send_attempts 2 b false in
  if negb ok then log log_warn "failed to send packet" [] else ret tt.

(** One turn of [while True] in [_send]; [None] when [get()] would block
    on the empty queue. *)
Definition _send_turn : M (option unit) :=
  let* w := get in
  match _send_queue (self w) with
  | [] => ret None
  | b :: q =>
      modify (set_send_queue q) >>
      _send_item b >>
      ret (Some tt)
  end.

(** [_send] for at most [fuel] turns; it stops early only when the queue is
    empty or an exception leaves the loop. *)
Fixpoint _send (fuel : nat) : M unit :=
  match fuel with
  | 0 => ret tt
  | S fuel' =>
      let* r := _send_turn in
      match r with
      | Some _ => _send fuel'
      | None => ret tt
      end
  end.

Definition _resp_handler (msg : Container) : M unit :=
  let* msg_body :=
    (if str_true (BODY msg) then lift (json_loads env (BODY msg))
     else ret (PyDict [])) in
  if int_true (Z.land (TYPE msg) MSG_CLIENT) then
    let* ty := lift (getitem msg_body "type") in
    if py_eq_str ty "receipt" then
      let* mid := lift (getitem msg_body "mid") in
      log log_debug "%s confirmed %s" [ArgStr (SID msg); ArgObj mid] >>
      let* key := lift (hash_key mid) in
      let* w := get in
      match tbl_lookup key (callback_tbl (self w)) with
      | Some (k, _func) =>
          modify (set_callback_tbl (delete k (callback_tbl (self w)))) >>
          try_except (extern (invoke _func (STATUS_SUCCESS env)))
            (fun ex =>
               match ex with
               | KeyboardInterrupt => Some (raise KeyboardInterrupt)
               | _ =>
                   if is_Exception ex then
                     Some (log log_error got_in_callback [ArgExn ex] >>
                           traceback_print_exc)
                   else None
               end)
            (fun _ => ret tt)
      | None => ret tt
      end
    else
      log log_debug "***INCOMING FROM [%s]:%s***"
        [ArgStr (SID msg); ArgStr (BODY msg)]
  else
    if int_true (Z.land (TYPE msg) MSG_EVENT) then
      let* ty := lift (getitem msg_body "type") in
      if py_eq_str ty "online" then
        log log_debug "[GM] user %s is now online" [ArgStr (SID msg)] >>
        try_except (extern (online_callback (SID msg)))
          (fun ex =>
             match ex with
             | InconsistentError =>
                 Some (log log_warning "error during setting %s online: %s"
                         [ArgStr (SID msg); ArgExn ex])
             | _ => None
             end)
          (fun _ => ret tt)
      else
        let* ty := lift (getitem msg_body "type") in
        if py_eq_str ty "offline" then
          let* w := get in
          extern mysql >>
          modify (set_mysql_instance (Some (length (trace w)))) >>
          log log_debug "[GM] user %s is now offline" [ArgStr (SID msg)] >>
          try_except
            (extern (delToOnlineTable (SID msg)) >>
             extern (offline_callback (SID msg)))
            (fun ex =>
               match ex with
               | InconsistentError =>
                   Some (log log_warning "error during setting %s offline: %s"
                           [ArgStr (SID msg); ArgExn ex])
               | _ => None
               end)
            (fun _ => ret tt)
        else ret tt
    else
      ret tt.

(** One turn of [while True] in [_heartbeat], after the sleep. *)
Definition _heartbeat_turn : M unit :=
  _queued_send "0" MSG_HEARTBEAT EmptyString None None.

(** One turn of [while True] in [_recv]; raising means the exception
    leaves [_recv]. *)
Definition _recv_turn : M loop_ctl :=
  try_except
    (let* w := get in
     match gw_fd (self w) with
     | Some _ => extern wait_read
     | None => raise AttributeError
     end)
    (fun ex =>
       match ex with
       | socket_error => Some (ret Break)
       | _ => None
       end)
    (fun _ =>
       let* w := get in
       let* chunk :=
         match gw_fd (self w) with
         | Some _ => extern fd_read
         | None => raise AttributeError
         end in
       modify (set_buf (buf w ++ chunk)) >>
       let* w := get in
       if (len (buf w) =? 0)%Z then ret Continue
       else
         let* decoded :=
           try_except (lift (UnPack (buf w)))
             (fun ex =>
                match ex with
                | DataNeededError _ => Some (ret None)
                | _ => None
                end)
             (fun msg => modify (set_buf []) >> ret (Some msg)) in
         match decoded with
         | None => ret Continue
         | Some msg =>
             try_except (_resp_handler msg)
               (fun ex =>
                  match ex with
                  | KeyboardInterrupt => Some (ret Break)
                  | _ => None
                  end)
               (fun _ => ret Continue)
         end).

(** [_recv] for at most [fuel] turns, from [buf = '']. *)
Fixpoint _recv_loop (fuel : nat) : M unit :=
  match fuel with
  | 0 => ret tt
  | S fuel' =>
      let* c := _recv_turn in
      match c with
      | Continue => _recv_loop fuel'
      | Break => ret tt
      end
  end.

Definition _recv (fuel : nat) : M unit :=
  modify (set_buf []) >> _recv_loop fuel.

End Manager.

(** ** A concrete schema, for running the codec *)

Module Wire.

(** A base-128 varint, least significant group first; [fuel] bounds the
    number of octets. *)

Fixpoint varint (fuel : nat) (n : N) : bytes :=
  match fuel with
  | 0 => []
  | S fuel' =>
      if (n <? 128)%N then [byte_of_Z (Z.of_N n)]
      else byte_of_Z (Z.of_N (128 + n mod 128)) :: varint fuel' (n / 128)
  end.

Fixpoint read_varint (fuel : nat) (s : bytes) : option (N * bytes) :=
  match fuel, s with
  | S fuel', b :: s' =>
      let v := Byte.to_N b in
      if (v <? 128)%N then Some (v, s')
      else
        match read_varint fuel' s' with
        | Some (hi, rest) => Some (v - 128 + 128 * hi, rest)%N
        | None => None
        end
  | _, _ => None
  end.

Definition put_str (number : N) (v : string) : bytes :=
  let raw := list_byte_of_string v in
  varint 10 (number * 8 + 2) ++ varint 10 (N.of_nat (length raw)) ++ raw.

Definition put_int (number : N) (v : Z) : bytes :=
  varint 10 (number * 8) ++ varint 10 (Z.to_N v).

(** Modelled from the spec: the schema module [gw_message_pb2] is not
    part of the sources.  The six fields of the container, numbered in the
    order the spec lists them, in the protocol-buffers wire format: a tag
    [(number << 3) | type], then a varint (type 0) or a varint length and
    that many octets (type 2). *)
Definition serialize (m : Container) : bytes :=
  put_str 1 (SID m) ++ put_str 2 (RID m) ++ put_str 3 (MID m)
  ++ put_int 4 (STIME m) ++ put_int 5 (TYPE m) ++ put_str 6 (BODY m).

Definition set_str (number : N) (v : string) (m : Container) : Container :=
  match number with
  | 1%N => mkContainer v (RID m) (MID m) (STIME m) (TYPE m) (BODY m)
  | 2%N => mkContainer (SID m) v (MID m) (STIME m) (TYPE m) (BODY m)
  | 3%N => mkContainer (SID m) (RID m) v (STIME m) (TYPE m) (BODY m)
  | 6%N => mkContainer (SID m) (RID m) (MID m) (STIME m) (TYPE m) v
  | _ => m
  end.

Definition set_int (number : N) (v : Z) (m : Container) : Container :=
  match number with
  | 4%N => mkContainer (SID m) (RID m) (MID m) v (TYPE m) (BODY m)
  | 5%N => mkContainer (SID m) (RID m) (MID m) (STIME m) v (BODY m)
  | _ => m
  end.

(** Merge the fields found in [s] into [m]; [fuel] bounds the number of
    fields. *)
Fixpoint merge (fuel : nat) (s : bytes) (m : Container) : result Container :=
  match s with
  | [] => Ok m
  | _ =>
      match fuel with
      | 0 => Raise DecodeError
      | S fuel' =>
          match read_varint 10 s with
          | None => Raise DecodeError
          | Some (tag, s1) =>
              match read_varint 10 s1 with
              | None => Raise DecodeError
              | Some (v, s2) =>
                  match (tag mod 8)%N with
                  | 0%N => merge fuel' s2 (set_int (tag / 8) (Z.of_N v) m)
                  | 2%N =>
                      if (N.of_nat (length s2) <? v)%N then Raise DecodeError
                      else
                        merge fuel' (drop (N.to_nat v) s2)
                          (set_str (tag / 8)
                             (string_of_list_byte (take (N.to_nat v) s2)) m)
                  | _ => Raise DecodeError
                  end
              end
          end
      end
  end.

Definition parse (s : bytes) : result Container :=
  merge (length s) s
    (mkContainer EmptyString EmptyString EmptyString 0 0 EmptyString).

#[global] Instance schema : ContainerSchema :=
  {| SerializeToString := serialize; ParseFromString := parse |}.

End Wire.

(** ** Reading histories *)

(** The calls of a history, without their outcomes, and counting. *)
Definition calls (h : history) : list call := map fst h.

Definition is_write (c : call) : bool :=
  match c with fd_write _ => true | _ => false end.

Definition is_close (c : call) : bool :=
  match c with raw_close => true | _ => false end.

Definition is_invoke (c : call) : bool :=
  match c with invoke _ _ => true | _ => false end.

Definition is_warn (c : call) : bool :=
  match c with
  | logger log_warn _ _ | logger log_warning _ _ => true
  | _ => false
  end.

Definition count (p : call -> bool) (h : history) : nat :=
  length (List.filter p (calls h)).

(** Every call [b] in [h] has a call [a] somewhere before it. *)
Definition precedes (a b : call) (h : history) : Prop :=
  forall j, calls h !! j = Some b ->
    exists i, i < j /\ calls h !! i = Some a.

(** A write that failed with an I/O error, and one that returned. *)
Definition is_failed_write (x : call * outcome) : bool :=
  match x with
  | (fd_write _, Raises socket_error) => true
  | _ => false
  end.

Definition is_good_write (x : call * outcome) : bool :=
  match x with
  | (fd_write _, Returns _) => true
  | _ => false
  end.

Definition failed_writes (h : history) : nat :=
  length (List.filter is_failed_write h).

(** Every write in [h] goes to a live connection: one that was up at the
    start ([connected]) and has not failed since, or one whose TLS wrap
    returned after the last failure. *)
Fixpoint writes_connected (connected : bool) (h : history) : bool :=
  match h with
  | [] => true
  | (fd_write _, Returns _) :: h' => connected && writes_connected true h'
  | (fd_write _, Raises _) :: h' => connected && writes_connected false h'
  | (SSLSocket, Returns _) :: h' => writes_connected true h'
  | _ :: h' => writes_connected connected h'
  end.

(** Nothing is called after a write that returned. *)
Fixpoint quiet_after_success (h : history) : bool :=
  match h with
  | [] => true
  | (fd_write _, Returns _) :: h' =>
      match h' with [] => true | _ => false end
  | _ :: h' => quiet_after_success h'
  end.

(** Strings of lower-case hexadecimal digits. *)
Definition is_hexdigit (c : ascii) : bool :=
  let n := N_of_ascii c in
  ((48 <=? n) && (n <=? 57) || (97 <=? n) && (n <=? 102))%N.

Fixpoint all_hex (s : string) : bool :=
  match s with
  | EmptyString => true
  | String c s' => is_hexdigit c && all_hex s'
  end.

(** ** Frames and turns the properties speak of *)

(** A client-class frame whose body is a receipt for message-id [mid]. *)
Definition receipt_for (env : Env) (msg : Container) (mid : string) : Prop :=
  int_true (Z.land (TYPE msg) MSG_CLIENT) = true
  /\ str_true (BODY msg) = true
  /\ exists body,
       json_loads env (BODY msg) = Ok body
       /\ getitem body "type" = Ok (PyStr "receipt")
       /\ getitem body "mid" = Ok (PyStr mid).

(** A server-class presence event whose body has the given [type]. *)
Definition presence_event (env : Env) (msg : Container) (type : string) : Prop :=
  int_true (Z.land (TYPE msg) MSG_CLIENT) = false
  /\ int_true (Z.land (TYPE msg) MSG_EVENT) = true
  /\ str_true (BODY msg) = true
  /\ exists body,
       json_loads env (BODY msg) = Ok body
       /\ getitem body "type" = Ok (PyStr type).

(** A computation that leaves the local buffer of [_recv] alone. *)
Definition keeps_buf {A} (m : M A) : Prop :=
  forall w, buf (m w).2 = buf w.

(** The socket is there, becomes readable, and the read returns [chunk]. *)
Definition reads (env : Env) (w : World) (chunk : bytes) : Prop :=
  is_Some (gw_fd (self w))
  /\ exists v,
       answer env (trace w) wait_read = Returns v
       /\ answer env (trace w ++ [(wait_read, Returns v)]) fd_read
          = Returns chunk.

(** What [_recv] makes of the result of a dispatch. *)
Definition after_dispatch (r : result unit * World) : result loop_ctl * World :=
  match r with
  | (Ok _, w') => (Ok Continue, w')
  | (Raise KeyboardInterrupt, w') => (Ok Break, w')
  | (Raise e, w') => (Raise e, w')
  end.

(** The world after [_queued_send] has queued [data] and, when a callback
    was supplied, registered it under [mid]. *)
Definition enqueued (data : bytes) (mid : string) (cb : option callback)
    (w : World) : World :=
  let w1 := set_send_queue (_send_queue (self w) ++ [data]) w in
  match cb with
  | Some f => set_callback_tbl (<[mid := f]> (callback_tbl (self w1))) w1
  | None => w1
  end.

(** ** Concrete worlds, for running the manager *)

(** The environment in which every outside call returns normally, reads
    return nothing and the random octets are their own index. *)
Definition calm : Env :=
  {| answer := fun _ _ => Returns [];
     random_octet := fun _ i => byte_of_Z (Z.of_nat i);
     json_loads := fun _ => Raise ValueError;
     STATUS_SUCCESS := 0 |}.

(** A manager that is connected, with nothing queued and no callback. *)
Definition idle : World :=
  mkWorld (mkGatewayMgr ∅ (Some 0) (Some 0) [] None) [] [].

(** A frame as [send_push] builds it. *)
Definition push_frame : Container :=
  {| SID := PUSH_SERVER_SID; RID := "u42"; MID := "PSH     17-u42";
     STIME := 0; TYPE := Z.lor MSG_CLIENT MSG_RECEIPT; BODY := "hello" |}.

(** A bundle for user ["u42"] with message number 17 and callback [7]. *)
Definition bundle17 : MessageObj :=
  {| user_guid := "u42"; msg_payload := "hello"; msg_msgid := "17";
     bundle_callback := Some 7 |}.

(** The frame a tracked send under the supplied id ["abc"] queues, and its
    encoding. *)
Definition abc_frame : Container :=
  {| SID := PUSH_SERVER_SID; RID := "u42"; MID := "PSHabc"; STIME := 0;
     TYPE := Z.lor MSG_CLIENT MSG_RECEIPT; BODY := "hello" |}.

Definition abc_data : bytes :=
  match Pack abc_frame with
  | Ok b => b
  | Raise _ => []
  end.

(** The environment in which every write fails with an I/O error and
    everything else returns, and a manager with one frame queued. *)
Definition unwritable : Env :=
  {| answer := fun _ c =>
       match c with
       | fd_write _ => Raises socket_error
       | _ => Returns []
       end;
     random_octet := fun _ i => byte_of_Z (Z.of_nat i);
     json_loads := fun _ => Raise ValueError;
     STATUS_SUCCESS := 0 |}.

Definition loaded : World :=
  mkWorld (mkGatewayMgr ∅ (Some 0) (Some 0) [abc_data] None) [] [].

(** A client-class frame whose body is an object without a [type]
    field, and an environment that delivers it in one read. *)
Definition untyped_frame : Container :=
  {| SID := "c1"; RID := PUSH_SERVER_SID; MID := "m1"; STIME := 0;
     TYPE := MSG_CLIENT; BODY := "{}" |}.

Definition untyped_chunk : bytes :=
  match Pack untyped_frame with
  | Ok b => b
  | Raise _ => []
  end.

Definition delivers (chunk : bytes) : Env :=
  {| answer := fun _ c =>
       match c with
       | fd_read => Returns chunk
       | _ => Returns []
       end;
     random_octet := fun _ i => byte_of_Z (Z.of_nat i);
     json_loads := fun s =>
       if String.eqb s "{}" then Ok (PyDict []) else Raise ValueError;
     STATUS_SUCCESS := 0 |}.

(** The receipt body ['{"type":"receipt","mid":"PSHabc"}'], a frame that
    carries it, and an environment whose [json.loads] reads it. *)
Definition receipt_body : string :=
  "{" +:+ dquote +:+ "type" +:+ dquote +:+ ":" +:+ dquote +:+ "receipt"
  +:+ dquote +:+ "," +:+ dquote +:+ "mid" +:+ dquote +:+ ":" +:+ dquote
  +:+ "PSHabc" +:+ dquote +:+ "}".

Definition receipt_frame : Container :=
  {| SID := "c1"; RID := PUSH_SERVER_SID; MID := "r1"; STIME := 0;
     TYPE := Z.lor MSG_CLIENT MSG_RECEIPT; BODY := receipt_body |}.

Definition confirms : Env :=
  {| answer := fun _ _ => Returns [];
     random_octet := fun _ i => byte_of_Z (Z.of_nat i);
     json_loads := fun s =>
       if String.eqb s receipt_body
       then Ok (PyDict [("type", PyStr "receipt"); ("mid", PyStr "PSHabc")])
       else Raise ValueError;
     STATUS_SUCCESS := 0 |}.

(** The manager after a tracked send of ["hello"] to ["u42"] under the
    supplied id ["abc"], with callback [7]. *)
Definition tracked : World :=
  (_queued_send confirms "u42" (Z.lor MSG_CLIENT MSG_RECEIPT) "hello"
     (Some 7) (Some "abc") idle).2.

(** The presence body ['{"type":"offline"}'], a server-class event frame
    from sender ["S1"] that carries it, and an environment whose presence
    store answers [store] to the removal. *)
Definition offline_body : string :=
  "{" +:+ dquote +:+ "type" +:+ dquote +:+ ":" +:+ dquote +:+ "offline"
  +:+ dquote +:+ "}".

Definition offline_frame : Container :=
  {| SID := "S1"; RID := PUSH_SERVER_SID; MID := "e1"; STIME := 0;
     TYPE := MSG_EVENT; BODY := offline_body |}.

Definition presence (store : outcome) : Env :=
  {| answer := fun _ c =>
       match c with
       | delToOnlineTable _ => store
       | _ => Returns []
       end;
     random_octet := fun _ i => byte_of_Z (Z.of_nat i);
     json_loads := fun s =>
       if String.eqb s offline_body
       then Ok (PyDict [("type", PyStr "offline")])
       else Raise ValueError;
     STATUS_SUCCESS := 0 |}.

(** The encoded receipt frame, and an environment that delivers it in two
    reads: its first three octets, then the rest. *)
Definition receipt_data : bytes :=
  match Pack receipt_frame with
  | Ok b => b
  | Raise _ => []
  end.

Definition is_read (c : call) : bool :=
  match c with fd_read => true | _ => false end.

Definition piecemeal : Env :=
  {| answer := fun h c =>
       match c with
       | fd_read =>
           if Nat.eqb (count is_read h) 0 then Returns (take 3 receipt_data)
           else Returns (drop 3 receipt_data)
       | _ => Returns []
       end;
     random_octet := random_octet confirms;
     json_loads := json_loads confirms;
     STATUS_SUCCESS := 0 |}.

(** ** Bit helpers *)

(** [GatewayMgr.set_bit] and [GatewayMgr.test_bit].  [1 << offset] raises
    [ValueError] when [offset] is negative. *)
Definition set_bit (int_type offset : Z) : result Z :=
  if (offset <? 0)%Z then Raise ValueError
  else
    let mask := Z.shiftl 1 offset in
    Ok (Z.lor int_type mask).

Definition test_bit (int_type offset : Z) : result Z :=
  if (offset <? 0)%Z then Raise ValueError
  else
    let mask := Z.shiftl 1 offset in
    Ok (Z.land int_type mask).

(** A schema whose every serialization is one octet longer than the
    maximum packet length, for running [Pack] past the maximum. *)
Definition bulky : ContainerSchema :=
  {| SerializeToString := fun _ => repeat x00 (Z.to_nat 1048577);
     ParseFromString := fun _ => Raise DecodeError |}.

(** ** More ways to read frames and histories *)

(** The first statement of [_resp_handler]: the body as a Python value. *)
Definition parsed_body (env : Env) (msg : Container) : result pyobj :=
  if str_true (BODY msg) then json_loads env (BODY msg) else Ok (PyDict []).

(** Calls on the socket or the connection. *)
Definition is_socket_call (c : call) : bool :=
  match c with
  | socket_socket | socket_connect | SSLSocket | fd_write _ | raw_close
  | wait_read | fd_read => true
  | _ => false
  end.

(** An environment given by what each call answers, whatever the history,
    and by what [json.loads] reads. *)
Definition answering (ans : call -> outcome) (loads : string -> result pyobj)
    : Env :=
  {| answer := fun _ c => ans c;
     random_octet := fun _ i => byte_of_Z (Z.of_nat i);
     json_loads := loads;
     STATUS_SUCCESS := 0 |}.

(** A server-class heartbeat frame with an empty body, and a client-class
    one. *)
Definition beat_frame : Container :=
  {| SID := "gw"; RID := PUSH_SERVER_SID; MID := "h1"; STIME := 0;
     TYPE := MSG_HEARTBEAT; BODY := EmptyString |}.

Definition client_beat_frame : Container :=
  {| SID := "c1"; RID := PUSH_SERVER_SID; MID := "h2"; STIME := 0;
     TYPE := Z.lor MSG_CLIENT MSG_HEARTBEAT; BODY := EmptyString |}.

Definition client_beat_chunk : bytes :=
  match Pack client_beat_frame with
  | Ok b => b
  | Raise _ => []
  end.

(** An environment in which every callback raises an [Exception] and
    [json.loads] reads the receipt body. *)
Definition failing_callbacks : Env :=
  answering
    (fun c =>
       match c with
       | invoke _ _ => Raises (OtherException "boom")
       | _ => Returns []
       end)
    (json_loads confirms).

(** The presence body ['{"type":"online"}'], an event frame from sender
    ["S1"] that carries it, and an environment in which the online
    callback answers [o]. *)
Definition online_body : string :=
  "{" +:+ dquote +:+ "type" +:+ dquote +:+ ":" +:+ dquote +:+ "online"
  +:+ dquote +:+ "}".

Definition online_frame : Container :=
  {| SID := "S1"; RID := PUSH_SERVER_SID; MID := "e2"; STIME := 0;
     TYPE := MSG_EVENT; BODY := online_body |}.

Definition onlooker (o : outcome) : Env :=
  answering
    (fun c =>
       match c with
       | online_callback _ => o
       | _ => Returns []
       end)
    (fun s =>
       if String.eqb s online_body
       then Ok (PyDict [("type", PyStr "online")])
       else Raise ValueError).

(** ** Construction *)

(** [GatewayMgr.__init__], up to the point where the constructor returns:
    the attributes are set ([send_queue] is the queue passed in), the
    connection is made, and the authentication frame is queued.  The three
    greenlets it spawns in between only start to run later; their turns
    are [_send_turn], [_recv_turn] and [_heartbeat_turn]. *)
Definition __init__ `{ContainerSchema} (env : Env) (send_queue : list bytes)
    : M unit :=
  modify (fun w =>
            mkWorld (mkGatewayMgr ∅ None None send_queue None) (buf w) (trace w)) >>
  connect env >>
  auth env.

(** The frame [_queued_send] builds. *)
Definition queued_frame (rid : string) (msgtype : Z) (body mid : string)
    : Container :=
  {| SID := PUSH_SERVER_SID; RID := rid; MID := mid; STIME := 0;
     TYPE := msgtype; BODY := body |}.

(** The nine octets [os.urandom(9)] returns in a world. *)
Definition fresh_octets (env : Env) (w : World) : bytes :=
  map (random_octet env (trace w)) (seq 0 9).

(** An environment in which the gateway cannot be reached: the TCP connect
    raises [socket.error]. *)
Definition unreachable : Env :=
  answering
    (fun c =>
       match c with
       | socket_connect => Raises socket_error
       | _ => Returns []
       end)
    (fun _ => Raise ValueError).

(** A manager that has no connection. *)
Definition offline_mgr : World :=
  mkWorld (mkGatewayMgr ∅ None None [] None) [] [].

(** The first heartbeat frame of an idle manager in the calm environment,
    encoded. *)
Definition first_beat : bytes :=
  match Pack (queued_frame "0" MSG_HEARTBEAT EmptyString
                ("PSH" +:+ hexlify (fresh_octets calm idle))) with
  | Ok b => b
  | Raise _ => []
  end.

(** ** More ways to read the history of a send turn *)

(** A call that raised and is not one the send loop handles: not a write
    that failed with an I/O error, and not the close that follows one. *)
Definition is_fatal (x : call * outcome) : bool :=
  match x with
  | (raw_close, _) => false
  | (fd_write _, Raises socket_error) => false
  | (_, Raises _) => true
  | _ => false
  end.

(** The history ends at the first entry that satisfies [p], if any. *)
Fixpoint ends_at (p : call * outcome -> bool) (h : history) : bool :=
  match h with
  | [] => true
  | x :: h' =>
      if p x then match h' with [] => true | _ => false end
      else ends_at p h'
  end.

(** An environment in which every write is interrupted, and a manager
    with two frames queued. *)
Definition interrupted : Env :=
  answering
    (fun c =>
       match c with
       | fd_write _ => Raises KeyboardInterrupt
       | _ => Returns []
       end)
    (fun _ => Raise ValueError).

Definition loaded2 : World :=
  mkWorld (mkGatewayMgr ∅ (Some 0) (Some 0) [abc_data; first_beat] None) [] [].

(** ** More environments for the receive loop *)

(** An environment in which waiting for the socket fails with an I/O
    error, and one in which the read delivers a length prefix that
    declares 1,048,577 octets. *)
Definition unreadable : Env :=
  answering
    (fun c =>
       match c with
       | wait_read => Raises socket_error
       | _ => Returns []
       end)
    (fun _ => Raise ValueError).

Definition oversize_prefix : bytes := [x00; x10; x00; x01].

(** * Properties of the codec *)

Lemma Z_of_byte_range b : (0 <= Z_of_byte b < 256)%Z.
Proof.
  unfold Z_of_byte. pose proof (Byte.to_N_bounded b). lia.
Qed.

Lemma Z_of_byte_of_Z z : Z_of_byte (byte_of_Z z) = (z mod 256)%Z.
Proof.
  unfold byte_of_Z, Z_of_byte.
  change 0xff%Z with (Z.ones 8). rewrite Z.land_ones by lia.
  change (2 ^ 8)%Z with 256%Z.
  pose proof (Z.mod_pos_bound z 256 ltac:(lia)) as Hb.
  destruct (Byte.of_N (Z.to_N (z mod 256))) as [b|] eqn:E.
  - apply Byte.to_of_N in E. rewrite E. lia.
  - apply Byte.of_N_None_iff in E. lia.
Qed.

Lemma byte_of_Z_of_byte b : byte_of_Z (Z_of_byte b) = b.
Proof. destruct b; reflexivity. Qed.

(** Bit [i] of the byte that sits [k] bits up in a big-endian word. *)
Lemma testbit_byte_at (n k i : Z) :
  (0 <= k)%Z -> (0 <= i)%Z ->
  Z.testbit (Z.shiftl (Z.shiftr n k mod 256) k) i =
  if ((k <=? i) && (i <? k + 8))%Z then Z.testbit n i else false.
Proof.
  intros Hk Hi. rewrite Z.shiftl_spec by lia.
  change 256%Z with (2 ^ 8)%Z.
  destruct (k <=? i)%Z eqn:E1; simpl.
  - apply Z.leb_le in E1.
    destruct (i <? k + 8)%Z eqn:E2.
    + apply Z.ltb_lt in E2.
      rewrite Z.mod_pow2_bits_low by lia.
      rewrite Z.shiftr_spec by lia. f_equal. lia.
    + apply Z.ltb_ge in E2.
      apply Z.mod_pow2_bits_high. lia.
  - apply Z.leb_gt in E1. apply Z.testbit_neg_r. lia.
Qed.

Lemma be32_recompose (n : Z) :
  (0 <= n < 2 ^ 32)%Z ->
  Z.lor (Z.shiftl (Z.shiftr n 24 mod 256) 24)
    (Z.lor (Z.shiftl (Z.shiftr n 16 mod 256) 16)
      (Z.lor (Z.shiftl (Z.shiftr n 8 mod 256) 8) (n mod 256))) = n.
Proof.
  intros Hn.
  replace (n mod 256)%Z with (Z.shiftl (Z.shiftr n 0 mod 256) 0)
    by (rewrite Z.shiftr_0_r, Z.shiftl_0_r; reflexivity).
  apply Z.bits_inj'. intros i Hi.
  rewrite !Z.lor_spec, !testbit_byte_at by lia.
  destruct (Z.ltb_spec i 32) as [Hlt|Hge].
  - destruct (Z.leb_spec 24 i), (Z.leb_spec 16 i), (Z.leb_spec 8 i),
      (Z.leb_spec 0 i), (Z.ltb_spec i (24 + 8)), (Z.ltb_spec i (16 + 8)),
      (Z.ltb_spec i (8 + 8)), (Z.ltb_spec i (0 + 8)); simpl; try lia;
      repeat rewrite ?orb_false_r, ?orb_false_l; reflexivity.
  - assert (Hhi : Z.testbit n i = false).
    { rewrite <- (Z.mod_small n (2 ^ 32)) by lia.
      apply Z.mod_pow2_bits_high. lia. }
    rewrite Hhi.
    repeat match goal with |- context [if ?c then false else false] =>
      destruct c end; reflexivity.
Qed.

Lemma struct_pack_unpack_I (n : Z) (data : bytes) :
  struct_pack_I n = Ok data -> struct_unpack_I data = Ok n.
Proof.
  unfold struct_pack_I.
  destruct (Z.leb_spec 0 n); destruct (Z.ltb_spec n (2 ^ 32)); simpl;
    intros Hp; inversion Hp; subst; clear Hp.
  unfold struct_unpack_I. rewrite !Z_of_byte_of_Z.
  f_equal. apply be32_recompose. lia.
Qed.

Lemma struct_pack_I_length (n : Z) (data : bytes) :
  struct_pack_I n = Ok data -> length data = 4.
Proof.
  unfold struct_pack_I.
  destruct ((0 <=? n) && (n <? 2 ^ 32))%Z; intros Hp; inversion Hp.
  reflexivity.
Qed.

Lemma struct_pack_I_ok (n : Z) :
  (0 <= n < 2 ^ 32)%Z -> exists data, struct_pack_I n = Ok data.
Proof.
  intros [H0 H1]. unfold struct_pack_I.
  apply Z.leb_le in H0. apply Z.ltb_lt in H1. rewrite H0, H1. simpl.
  eexists. reflexivity.
Qed.

(** Slices of a prefixed buffer. *)
Lemma slice_prefix {A} (hd tl : list A) :
  slice (hd ++ tl) 0 (len hd) = hd.
Proof.
  unfold slice, len. rewrite Z.sub_0_r, Nat2Z.id.
  change (Z.to_nat 0) with 0. rewrite drop_0, take_app_length. reflexivity.
Qed.

Lemma slice_payload {A} (hd raw rest : list A) :
  slice (hd ++ raw ++ rest) (len hd) (len hd + len raw) = raw.
Proof.
  unfold slice, len.
  replace (Z.of_nat (length hd) + Z.of_nat (length raw) - Z.of_nat (length hd))%Z
    with (Z.of_nat (length raw)) by lia.
  rewrite !Nat2Z.id, drop_app_length, take_app_length. reflexivity.
Qed.

Lemma slice_0 {A} (s : list A) (k : Z) : slice s 0 k = take (Z.to_nat k) s.
Proof.
  unfold slice. rewrite Z.sub_0_r. change (Z.to_nat 0) with 0.
  rewrite drop_0. reflexivity.
Qed.

Lemma len_app {A} (s t : list A) : len (s ++ t) = (len s + len t)%Z.
Proof. unfold len. rewrite length_app. lia. Qed.

Lemma len_nonneg {A} (s : list A) : (0 <= len s)%Z.
Proof. unfold len. lia. Qed.

Section PacketFacts.
Context `{ContainerSchema}.

(** What [UnPack] does with a buffer that starts with a packed length. *)
Lemma UnPack_prefixed (n : Z) (prefix tail : bytes) :
  struct_pack_I n = Ok prefix ->
  UnPack (prefix ++ tail) =
    if (n >? MAX_PACKET_LENGTH)%Z then Raise (MaxLengthError EmptyString)
    else if (len tail <? n)%Z then Raise (DataNeededError "Need more data")
    else ParseFromString (slice (prefix ++ tail) 4 (4 + n)).
Proof.
  intros Hp. pose proof (struct_pack_I_length _ _ Hp) as Hl.
  unfold UnPack. rewrite len_app.
  assert (Hlen : len prefix = 4%Z) by (unfold len; lia).
  rewrite Hlen. pose proof (len_nonneg tail).
  destruct (Z.ltb_spec (4 + len tail) 4); [lia|].
  assert (Hs : slice (prefix ++ tail) 0 4 = prefix)
    by (rewrite <- Hlen; apply slice_prefix).
  rewrite Hs, (struct_pack_unpack_I _ _ Hp).
  destruct (n >? MAX_PACKET_LENGTH)%Z; [reflexivity|].
  destruct (Z.ltb_spec (4 + len tail) (4 + n)), (Z.ltb_spec (len tail) n);
    try lia; reflexivity.
Qed.

End PacketFacts.

(** * The frame codec *)

Lemma MAX_PACKET_LENGTH_value : MAX_PACKET_LENGTH = 1048576%Z.
Proof. reflexivity. Qed.

Section Codec.
Context `{ContainerSchema}.

Lemma Pack_ok (f : Container) :
  (len (SerializeToString f) < 2 ^ 32)%Z ->
  exists prefix,
    struct_pack_I (len (SerializeToString f)) = Ok prefix
    /\ Pack f = Ok (prefix ++ SerializeToString f).
Proof.
  intros Hlt.
  destruct (struct_pack_I_ok (len (SerializeToString f))) as [prefix Hp].
  { pose proof (len_nonneg (SerializeToString f)). lia. }
  exists prefix. split; [exact Hp|].
  unfold Pack. rewrite Hp. reflexivity.
Qed.

(** Framing adds nothing to what the schema does: a frame the schema
    reads back survives [Pack] and [UnPack]. *)
Lemma UnPack_Pack (f : Container) :
  (len (SerializeToString f) <= MAX_PACKET_LENGTH)%Z ->
  ParseFromString (SerializeToString f) = Ok f ->
  exists b,
    Pack f = Ok b
    /\ UnPack b = Ok f
    /\ len b = (4 + len (SerializeToString f))%Z
    /\ slice b 4 (4 + len (SerializeToString f)) = SerializeToString f
    /\ forall rest, UnPack (b ++ rest) = Ok f.
Proof.
  intros Hmax Hparse.
  assert (Hlt : (len (SerializeToString f) < 2 ^ 32)%Z).
  { rewrite MAX_PACKET_LENGTH_value in Hmax.
    change (2 ^ 32)%Z with 4294967296%Z. lia. }
  destruct (Pack_ok f Hlt) as (prefix & Hp & HPack).
  pose proof (struct_pack_I_length _ _ Hp) as Hl.
  assert (Hlen : len prefix = 4%Z) by (unfold len; lia).
  set (raw := SerializeToString f) in *.
  assert (Hslice : forall rest,
             slice (prefix ++ raw ++ rest) 4 (4 + len raw) = raw).
  { intros rest. rewrite <- Hlen. apply slice_payload. }
  assert (Hrest : forall rest, UnPack (prefix ++ raw ++ rest) = Ok f).
  { intros rest. rewrite (UnPack_prefixed _ _ _ Hp), Hslice, len_app.
    pose proof (len_nonneg rest).
    destruct (Z.gtb_spec (len raw) MAX_PACKET_LENGTH); [lia|].
    destruct (Z.ltb_spec (len raw + len rest) (len raw)); [lia|].
    exact Hparse. }
  exists (prefix ++ raw). split; [exact HPack|].
  repeat split.
  - specialize (Hrest []). rewrite app_nil_r in Hrest. exact Hrest.
  - rewrite len_app. lia.
  - specialize (Hslice []). rewrite app_nil_r in Hslice. exact Hslice.
  - intros rest. rewrite <- app_assoc. apply Hrest.
Qed.

(** C1. Round trip: a frame whose serialized form is within the maximum
    packet length and is read back by the schema as the same frame is
    packed into a buffer of exactly [4 + len(serialized)] octets, and
    [UnPack] of that buffer gives the frame back, field for field.  The
    decode reads the octets [4 .. 4 + len(serialized)) and nothing
    after them: any octets that follow the frame leave the result
    unchanged. *)
Theorem Pack_UnPack_roundtrip (f : Container) :
  (len (SerializeToString f) <= MAX_PACKET_LENGTH)%Z ->
  ParseFromString (SerializeToString f) = Ok f ->
  exists b,
    Pack f = Ok b
    /\ UnPack b = Ok f
    /\ len b = (4 + len (SerializeToString f))%Z
    /\ slice b 4 (4 + len (SerializeToString f)) = SerializeToString f
    /\ forall rest, UnPack (b ++ rest) = Ok f.
Proof. intros Hmax Hparse. exact (UnPack_Pack f Hmax Hparse). Qed.

(** C6. Oversize rejection: when the buffer holds at least the four
    octets of the length prefix and the length they declare is greater
    than 1,048,576, [UnPack] raises [MaxLengthError], whatever follows the
    prefix and however little of it there is. *)
Theorem UnPack_oversize (data : bytes) (n : Z) :
  (4 <= len data)%Z ->
  struct_unpack_I (slice data 0 4) = Ok n ->
  (1048576 < n)%Z ->
  UnPack data = Raise (MaxLengthError EmptyString).
Proof.
  intros Hlen Hn Hbig. unfold UnPack.
  destruct (Z.ltb_spec (len data) 4); [lia|].
  rewrite Hn.
  destruct (Z.gtb_spec n MAX_PACKET_LENGTH) as [_|Hle]; [reflexivity|].
  rewrite MAX_PACKET_LENGTH_value in Hle. lia.
Qed.

(** A proper prefix of an encoded frame is never enough. *)
Lemma UnPack_partial (f : Container) (b : bytes) (k : Z) :
  Pack f = Ok b ->
  (len (SerializeToString f) <= MAX_PACKET_LENGTH)%Z ->
  (0 <= k < len b)%Z ->
  exists value, UnPack (slice b 0 k) = Raise (DataNeededError value).
Proof.
  intros HPack Hmax Hk.
  assert (Hlt : (len (SerializeToString f) < 2 ^ 32)%Z).
  { rewrite MAX_PACKET_LENGTH_value in Hmax.
    change (2 ^ 32)%Z with 4294967296%Z. lia. }
  destruct (Pack_ok f Hlt) as (prefix & Hp & HPack').
  rewrite HPack in HPack'. inversion HPack'; subst b; clear HPack'.
  pose proof (struct_pack_I_length _ _ Hp) as Hl.
  set (raw := SerializeToString f) in *.
  rewrite len_app in Hk. unfold len in Hk.
  rewrite slice_0.
  destruct (Z.ltb_spec k 4) as [Hk4|Hk4].
  - exists "At least 4 octets". unfold UnPack.
    assert (Hshort : (len (take (Z.to_nat k) (prefix ++ raw)) < 4)%Z).
    { unfold len. rewrite length_take. lia. }
    apply Z.ltb_lt in Hshort. rewrite Hshort. reflexivity.
  - exists "Need more data".
    rewrite take_app.
    rewrite (take_ge prefix) by lia.
    rewrite (UnPack_prefixed _ _ _ Hp).
    destruct (Z.gtb_spec (len raw) MAX_PACKET_LENGTH); [lia|].
    assert (Hshort : (len (take (Z.to_nat k - length prefix) raw) < len raw)%Z).
    { unfold len. rewrite length_take. lia. }
    apply Z.ltb_lt in Hshort. rewrite Hshort. reflexivity.
Qed.

End Codec.

Lemma Pack_UnPack_roundtrip_witness :
  ((len (Wire.serialize push_frame) <= MAX_PACKET_LENGTH)%Z
   /\ Wire.parse (Wire.serialize push_frame) = Ok push_frame)
  /\ exists b,
       Pack push_frame = Ok b
       /\ UnPack b = Ok push_frame
       /\ len b = (4 + len (Wire.serialize push_frame))%Z
       /\ slice b 4 (4 + len (Wire.serialize push_frame))
          = Wire.serialize push_frame
       /\ forall rest, UnPack (b ++ rest) = Ok push_frame.
Proof.
  assert (H1 : (len (Wire.serialize push_frame) <= MAX_PACKET_LENGTH)%Z)
    by (vm_compute; discriminate).
  assert (H2 : Wire.parse (Wire.serialize push_frame) = Ok push_frame)
    by (vm_compute; reflexivity).
  split; [split; assumption|].
  exact (@Pack_UnPack_roundtrip Wire.schema push_frame H1 H2).
Defined.

Lemma UnPack_oversize_witness :
  ((4 <= len [x00; x10; x00; x01])%Z
   /\ struct_unpack_I (slice [x00; x10; x00; x01] 0 4) = Ok 1048577%Z
   /\ (1048576 < 1048577)%Z)
  /\ @UnPack Wire.schema [x00; x10; x00; x01]
     = Raise (MaxLengthError EmptyString).
Proof.
  assert (H1 : (4 <= len [x00; x10; x00; x01])%Z) by (vm_compute; discriminate).
  assert (H2 : struct_unpack_I (slice [x00; x10; x00; x01] 0 4) = Ok 1048577%Z)
    by reflexivity.
  assert (H3 : (1048576 < 1048577)%Z) by lia.
  split; [repeat split; assumption|].
  exact (@UnPack_oversize Wire.schema [x00; x10; x00; x01] 1048577 H1 H2 H3).
Defined.

(** * The concrete schema reads back what it writes *)

Module WireFacts.
Import Wire.

Lemma to_N_byte_of_Z (n : N) :
  (n < 256)%N -> Byte.to_N (byte_of_Z (Z.of_N n)) = n.
Proof.
  intros Hn. pose proof (Z_of_byte_of_Z (Z.of_N n)) as Hb.
  unfold Z_of_byte in Hb. rewrite Z.mod_small in Hb by lia.
  apply N2Z.inj. exact Hb.
Qed.

Lemma read_varint_varint (fuel : nat) (n : N) (rest : bytes) :
  0 < fuel ->
  (n < 128 ^ N.of_nat fuel)%N ->
  read_varint fuel (varint fuel n ++ rest) = Some (n, rest).
Proof.
  revert n. induction fuel as [|fuel IH]; intros n Hpos Hn; [lia|].
  cbn [varint read_varint].
  destruct (N.ltb_spec n 128) as [Hsmall|Hbig].
  - cbn [app]. rewrite to_N_byte_of_Z by lia.
    apply N.ltb_lt in Hsmall. rewrite Hsmall. reflexivity.
  - cbn [app].
    pose proof (N.mod_upper_bound n 128 ltac:(lia)) as Hmod.
    pose proof (N.div_mod' n 128) as Hdm.
    assert (Hfuel : 0 < fuel).
    { destruct fuel; [|lia]. change (128 ^ N.of_nat 1)%N with 128%N in Hn. lia. }
    assert (Hdiv : (n / 128 < 128 ^ N.of_nat fuel)%N).
    { apply N.Div0.div_lt_upper_bound.
      rewrite Nat2N.inj_succ, N.pow_succ_r' in Hn. exact Hn. }
    rewrite (IH (n / 128)%N Hfuel Hdiv).
    generalize dependent (n / 128)%N. generalize dependent (n mod 128)%N.
    intros r Hr q Hq _. 
    rewrite to_N_byte_of_Z by lia.
    destruct (N.ltb_spec (128 + r) 128) as [Habs|_]; [lia|].
    f_equal. f_equal. lia.
Qed.

Lemma varint_cons (fuel : nat) (n : N) :
  exists b s, varint (S fuel) n = b :: s.
Proof. cbn [varint]. destruct (n <? 128)%N; eauto. Qed.

(** [merge] on an input that starts with a field. *)
Lemma merge_field (fuel : nat) (tag rest : bytes) (m : Container) :
  (exists b s, tag = b :: s) ->
  merge (S fuel) (tag ++ rest) m =
    match read_varint 10 (tag ++ rest) with
    | None => Raise DecodeError
    | Some (t, s1) =>
        match read_varint 10 s1 with
        | None => Raise DecodeError
        | Some (v, s2) =>
            match (t mod 8)%N with
            | 0%N => merge fuel s2 (set_int (t / 8) (Z.of_N v) m)
            | 2%N =>
                if (N.of_nat (length s2) <? v)%N then Raise DecodeError
                else
                  merge fuel (drop (N.to_nat v) s2)
                    (set_str (t / 8)
                       (string_of_list_byte (take (N.to_nat v) s2)) m)
            | _ => Raise DecodeError
            end
        end
    end.
Proof. intros (b & s & ->). reflexivity. Qed.

(** One string field, read back. *)
Lemma merge_put_str (fuel : nat) (number : N) (v : string) (rest : bytes)
    (m : Container) :
  (number < 16)%N ->
  (N.of_nat (length (list_byte_of_string v)) < 128 ^ 10)%N ->
  merge (S fuel) (put_str number v ++ rest) m
  = merge fuel rest (set_str number v m).
Proof.
  intros Hnum Hlen. unfold put_str. rewrite <- !app_assoc.
  rewrite merge_field by apply varint_cons.
  rewrite read_varint_varint by (simpl; lia).
  rewrite read_varint_varint by (simpl; lia).
  replace ((number * 8 + 2) mod 8)%N with 2%N
    by (rewrite N.add_comm, N.Div0.mod_add; reflexivity).
  replace ((number * 8 + 2) / 8)%N with number
    by (rewrite N.add_comm, N.div_add by lia; reflexivity).
  rewrite length_app.
  destruct (N.ltb_spec
              (N.of_nat (length (list_byte_of_string v) + length rest))
              (N.of_nat (length (list_byte_of_string v)))) as [Habs|_]; [lia|].
  rewrite Nat2N.id, drop_app_length, take_app_length.
  rewrite string_of_list_byte_of_string. reflexivity.
Qed.

(** One integer field, read back. *)
Lemma merge_put_int (fuel : nat) (number : N) (v : Z) (rest : bytes)
    (m : Container) :
  (number < 16)%N ->
  (0 <= v < 2 ^ 64)%Z ->
  merge (S fuel) (put_int number v ++ rest) m
  = merge fuel rest (set_int number v m).
Proof.
  intros Hnum Hv. unfold put_int. rewrite <- !app_assoc.
  rewrite merge_field by apply varint_cons.
  rewrite read_varint_varint by (simpl; lia).
  rewrite read_varint_varint.
  2: lia.
  2:{ change (128 ^ N.of_nat 10)%N with (Z.to_N (2 ^ 70)). lia. }
  replace ((number * 8) mod 8)%N with 0%N
    by (rewrite N.Div0.mod_mul; reflexivity).
  replace ((number * 8) / 8)%N with number
    by (rewrite N.div_mul by lia; reflexivity).
  rewrite Z2N.id by lia. reflexivity.
Qed.

Lemma put_str_length (number : N) (v : string) : 2 <= length (put_str number v).
Proof.
  unfold put_str.
  destruct (varint_cons 9 (number * 8 + 2)) as (b & s & ->).
  destruct (varint_cons 9 (N.of_nat (length (list_byte_of_string v))))
    as (b' & s' & ->).
  rewrite !length_app. simpl. lia.
Qed.

Lemma put_int_length (number : N) (v : Z) : 2 <= length (put_int number v).
Proof.
  unfold put_int.
  destruct (varint_cons 9 (number * 8)) as (b & s & ->).
  destruct (varint_cons 9 (Z.to_N v)) as (b' & s' & ->).
  rewrite !length_app. simpl. lia.
Qed.

(** A frame with integer fields in range and fields shorter than [2^70]
    octets is read back as it was written. *)
Lemma parse_serialize (m : Container) :
  (0 <= STIME m < 2 ^ 64)%Z ->
  (0 <= TYPE m < 2 ^ 64)%Z ->
  (len (serialize m) < 2 ^ 70)%Z ->
  parse (serialize m) = Ok m.
Proof.
  intros Hstime Htype Hlen. unfold parse.
  assert (Hfuel : 6 <= length (serialize m)).
  { unfold serialize. rewrite !length_app.
    pose proof (put_str_length 1 (SID m)). pose proof (put_str_length 2 (RID m)).
    pose proof (put_str_length 3 (MID m)). pose proof (put_int_length 4 (STIME m)).
    pose proof (put_int_length 5 (TYPE m)). pose proof (put_str_length 6 (BODY m)).
    lia. }
  assert (Hfield : forall number v pre post,
    serialize m = pre ++ put_str number v ++ post ->
    (N.of_nat (length (list_byte_of_string v)) < 128 ^ 10)%N).
  { intros number v pre post Heq. unfold len in Hlen. rewrite Heq in Hlen.
    unfold put_str in Hlen. rewrite !length_app in Hlen.
    change (128 ^ 10)%N with (Z.to_N (2 ^ 70)). lia. }
  destruct (length (serialize m)) as [|[|[|[|[|[|fuel]]]]]] eqn:E; try lia.
  clear E Hfuel. unfold serialize in *.
  rewrite merge_put_str;
    [|lia|exact (Hfield 1%N (SID m) [] _ eq_refl)].
  rewrite merge_put_str;
    [|lia|refine (Hfield 2%N (RID m) (put_str 1 (SID m)) _ _);
          rewrite <- ?app_assoc; reflexivity].
  rewrite merge_put_str;
    [|lia|refine (Hfield 3%N (MID m) (put_str 1 (SID m) ++ put_str 2 (RID m)) _ _);
          rewrite <- ?app_assoc; reflexivity].
  rewrite merge_put_int by (simpl; lia).
  rewrite merge_put_int by (simpl; lia).
  rewrite <- (app_nil_r (put_str 6 (BODY m))).
  rewrite merge_put_str;
    [|lia|refine (Hfield 6%N (BODY m)
                    (put_str 1 (SID m) ++ put_str 2 (RID m) ++ put_str 3 (MID m)
                     ++ put_int 4 (STIME m) ++ put_int 5 (TYPE m)) [] _);
          rewrite <- ?app_assoc, ?app_nil_r; reflexivity].
  destruct m, fuel; reflexivity.
Qed.

(** With the concrete schema, every frame with integer fields in range
    and a serialized form within the maximum packet length survives
    [Pack] and [UnPack]. *)
Lemma roundtrip (m : Container) :
  (0 <= STIME m < 2 ^ 64)%Z ->
  (0 <= TYPE m < 2 ^ 64)%Z ->
  (len (serialize m) <= MAX_PACKET_LENGTH)%Z ->
  exists b, Pack m = Ok b /\ UnPack b = Ok m.
Proof.
  intros Hstime Htype Hlen.
  assert (Hparse : parse (serialize m) = Ok m).
  { apply parse_serialize; try assumption.
    rewrite MAX_PACKET_LENGTH_value in Hlen.
    change (2 ^ 70)%Z with 1180591620717411303424%Z. lia. }
  destruct (@UnPack_Pack schema m Hlen Hparse) as (b & HPack & HUnPack & _).
  exists b. split; assumption.
Qed.

End WireFacts.

(** * The response dispatcher *)

(** Unfold the plumbing one layer and look at the world that results. *)
Ltac mstep :=
  cbv beta iota delta
    [bind get extern modify log traceback_print_exc try_except ret raise
       lift urandom put];
  cbn [trace record set_mysql_instance set_callback_tbl set_gw_fd
         set_gw_fd_raw set_send_queue set_buf self buf callback_tbl gw_fd
         _gw_fd_raw _send_queue mysql_instance fst snd].

(** Split on what the environment answers to the next outside call. *)
Ltac ask env :=
  match goal with
  | |- context [answer env ?h ?c] =>
      let E := fresh "E" in
      destruct (answer env h c) as [?v|?e] eqn:E
  end.

(** Present the new part of the history as one list. *)
Ltac grown :=
  eexists; split; [rewrite <- ?app_assoc; simpl; reflexivity|].

(** [precedes a b h] on an explicit history: [b] is absent, or sits after
    position [i], which holds [a]. *)
Ltac ordered i :=
  let j := fresh "j" in
  let Hj := fresh "Hj" in
  intros j Hj;
  repeat (destruct j as [|j]; simpl in Hj; try discriminate Hj);
  (exists i; (split; [lia|reflexivity])).

(** Membership in an explicit list, as a goal and as a hypothesis. *)
Ltac listed := simpl; auto 12.
Ltac unlisted H := exfalso; simpl in H; intuition discriminate.

(** Name the outcome the environment gave to the callback. *)
Ltac called :=
  match goal with
  | E : answer _ _ (offline_callback _) = ?o |- _ => exists o; reflexivity
  end.

Section Dispatcher.
Context `{ContainerSchema} (env : Env).

(** C9. Offline presence event.  The dispatch first obtains the presence
    store; if that raises, nothing else happens and the exception leaves
    the dispatch.  Otherwise it logs one debug line and invokes the
    presence-store removal with the sender; when the removal returns it
    invokes the offline-notification callback with the sender, once, and
    when the removal raises it does not invoke the callback.  So the
    removal is invoked with the sender whenever the store is obtained, the
    callback whenever the removal returns, and the removal always comes
    before the callback. *)
Theorem offline_removal_first (msg : Container) (w : World) :
  presence_event env msg "offline" ->
  exists tr,
    trace (_resp_handler env msg w).2 = trace w ++ tr
    /\ precedes (delToOnlineTable (SID msg)) (offline_callback (SID msg)) tr
    /\ (forall v, In (mysql, Returns v) tr ->
          In (delToOnlineTable (SID msg)) (calls tr))
    /\ (forall v, In (delToOnlineTable (SID msg), Returns v) tr ->
          In (offline_callback (SID msg)) (calls tr))
    /\ match answer env (trace w) mysql with
       | Raises e =>
           tr = [(mysql, Raises e)]
           /\ (_resp_handler env msg w).1 = Raise e
       | Returns v =>
           exists o rest,
             tr = (mysql, Returns v)
                  :: (logger log_debug "[GM] user %s is now offline"
                        [ArgStr (SID msg)], Returns [])
                  :: (delToOnlineTable (SID msg), o)
                  :: rest
             /\ o = answer env
                      (trace w ++
                         [(mysql, Returns v);
                          (logger log_debug "[GM] user %s is now offline"
                             [ArgStr (SID msg)], Returns [])])
                      (delToOnlineTable (SID msg))
             /\ match o with
                | Returns _ =>
                    exists o',
                      rest = (offline_callback (SID msg), o')
                             :: match o' with
                                | Raises InconsistentError =>
                                    [(logger log_warning
                                        "error during setting %s offline: %s"
                                        [ArgStr (SID msg);
                                         ArgExn InconsistentError],
                                      Returns [])]
                                | _ => []
                                end
                | Raises _ =>
                    ~ In (offline_callback (SID msg)) (calls rest)
                end
       end.
Proof.
  intros (Hc & He & Hb & body & Hj & Hty).
  unfold _resp_handler. rewrite Hb, Hj, Hc, He. mstep. rewrite Hty. mstep.
  change (py_eq_str (PyStr "offline") "online") with false.
  change (py_eq_str (PyStr "offline") "offline") with true.
  mstep. destruct (answer env (trace w) mysql) as [v|e] eqn:E; mstep.
  - ask env; mstep.
    + ask env; mstep.
      * grown. split; [ordered 2|]. split; [intros; listed|].
        split; [intros; listed|].
        eexists _, _. split; [reflexivity|]. split; [rewrite <- E0, <- app_assoc; reflexivity|].
        called.
      * destruct e; mstep; grown; (split; [ordered 2|]);
          (split; [intros; listed|]); (split; [intros; listed|]);
          eexists _, _; (split; [reflexivity|]);
          (split; [rewrite <- E0, <- app_assoc; reflexivity|]); called.
    + destruct e; mstep; grown; (split; [ordered 0|]);
        (split; [intros; listed|]);
        (split; [intros v' Hin; unlisted Hin|]);
        eexists _, _; (split; [reflexivity|]);
        (split; [rewrite <- E0, <- app_assoc; reflexivity|]);
        intros Hin; simpl in Hin; intuition discriminate.
  - grown. split; [ordered 0|]. split; [intros v' Hin; unlisted Hin|].
    split; [intros v' Hin; unlisted Hin|]. split; reflexivity.
Qed.

(** C10. Offline presence event whose presence-store removal raises the
    inconsistency error: the dispatch returns normally, the
    offline-notification callback is not invoked, and what follows the
    removal is one warning and nothing else.  In any dispatch of such an
    event the callback is invoked only after a removal that returned. *)
Theorem offline_removal_inconsistent (msg : Container) (w : World) :
  presence_event env msg "offline" ->
  exists tr,
    trace (_resp_handler env msg w).2 = trace w ++ tr
    /\ (In (delToOnlineTable (SID msg), Raises InconsistentError) tr ->
          (_resp_handler env msg w).1 = Ok tt
          /\ ~ In (offline_callback (SID msg)) (calls tr)
          /\ count is_warn tr = 1
          /\ exists pre,
               tr = pre ++
                 [(delToOnlineTable (SID msg), Raises InconsistentError);
                  (logger log_warning "error during setting %s offline: %s"
                     [ArgStr (SID msg); ArgExn InconsistentError],
                   Returns [])])
    /\ (In (offline_callback (SID msg)) (calls tr) ->
          exists v, In (delToOnlineTable (SID msg), Returns v) tr).
Proof.
  intros (Hc & He & Hb & body & Hj & Hty).
  unfold _resp_handler. rewrite Hb, Hj, Hc, He. mstep. rewrite Hty. mstep.
  change (py_eq_str (PyStr "offline") "online") with false.
  change (py_eq_str (PyStr "offline") "offline") with true.
  mstep. ask env; mstep.
  - ask env; mstep.
    + ask env; mstep.
      * grown. split; [intros Hin; unlisted Hin|].
        intros _. eexists. listed.
      * destruct e; mstep; grown;
          (split; [intros Hin; unlisted Hin|intros _; eexists; listed]).
    + destruct e; mstep; grown;
        (split; [|intros Hin; unlisted Hin]);
        try (intros Hin; unlisted Hin).
      intros _. split; [reflexivity|].
      split; [intros Hin; unlisted Hin|].
      split; [reflexivity|].
      eexists [_; _]. reflexivity.
  - grown. split; intros Hin; unlisted Hin.
Qed.

End Dispatcher.

(** * The receive loop *)

Section KeepsBuf.
Context `{ContainerSchema} (env : Env).

Lemma keeps_buf_ret {A} (a : A) : keeps_buf (ret a).
Proof. intros w. reflexivity. Qed.

Lemma keeps_buf_raise {A} (e : exn) : keeps_buf (@raise A e).
Proof. intros w. reflexivity. Qed.

Lemma keeps_buf_lift {A} (r : result A) : keeps_buf (lift r).
Proof. intros w. reflexivity. Qed.

Lemma keeps_buf_get : keeps_buf get.
Proof. intros w. reflexivity. Qed.

Lemma keeps_buf_modify (f : World -> World) :
  (forall w, buf (f w) = buf w) -> keeps_buf (modify f).
Proof. intros Hf w. apply Hf. Qed.

Lemma keeps_buf_extern (c : call) : keeps_buf (extern env c).
Proof. intros w. unfold extern. destruct (answer env (trace w) c); reflexivity. Qed.

Lemma keeps_buf_log m fmt args : keeps_buf (log m fmt args).
Proof. intros w. reflexivity. Qed.

Lemma keeps_buf_print_exc : keeps_buf traceback_print_exc.
Proof. intros w. reflexivity. Qed.

Lemma keeps_buf_bind {A B} (m : M A) (k : A -> M B) :
  keeps_buf m -> (forall a, keeps_buf (k a)) -> keeps_buf (bind m k).
Proof.
  intros Hm Hk w. unfold bind. specialize (Hm w).
  destruct (m w) as [[a|e] w']; simpl in *.
  - rewrite Hk. exact Hm.
  - exact Hm.
Qed.

Lemma keeps_buf_try_except {A B} (m : M A) (handler : exn -> option (M B))
    (orelse : A -> M B) :
  keeps_buf m ->
  (forall e h, handler e = Some h -> keeps_buf h) ->
  (forall a, keeps_buf (orelse a)) ->
  keeps_buf (try_except m handler orelse).
Proof.
  intros Hm Hh Ho w. unfold try_except. specialize (Hm w).
  destruct (m w) as [[a|e] w']; simpl in *.
  - rewrite Ho. exact Hm.
  - destruct (handler e) as [h|] eqn:E; simpl.
    + rewrite (Hh _ _ E). exact Hm.
    + exact Hm.
Qed.

(** The dispatcher never touches the buffer of the receive loop. *)
Lemma _resp_handler_keeps_buf (msg : Container) :
  keeps_buf (_resp_handler env msg).
Proof.
  unfold _resp_handler.
  repeat first
    [ apply keeps_buf_ret | apply keeps_buf_raise | apply keeps_buf_lift
    | apply keeps_buf_get | apply keeps_buf_extern | apply keeps_buf_log
    | apply keeps_buf_print_exc
    | apply keeps_buf_modify; intros; reflexivity
    | apply keeps_buf_bind; [|intros]
    | apply keeps_buf_try_except; [|intros ? ? Hh|intros]
    | match goal with
      | Hh : match ?e with _ => _ end = Some _ |- _ =>
          destruct e; try discriminate Hh; inversion Hh; subst; clear Hh
      | Hh : (if ?b then _ else _) = Some _ |- _ =>
          destruct b; try discriminate Hh; inversion Hh; subst; clear Hh
      | |- keeps_buf (if ?b then _ else _) => destruct b
      | |- keeps_buf (match ?o with _ => _ end) => destruct o
      end ].
Qed.

End KeepsBuf.

Section Receive.
Context `{ContainerSchema} (env : Env).

(** A turn of the receive loop once the read has returned. *)
Lemma _recv_turn_read (w : World) (chunk : bytes) :
  reads env w chunk ->
  exists w1,
    buf w1 = buf w ++ chunk /\ self w1 = self w
    /\ _recv_turn env w =
         if (len (buf w1) =? 0)%Z then (Ok Continue, w1)
         else
           match UnPack (buf w1) with
           | Ok msg => after_dispatch (_resp_handler env msg (set_buf [] w1))
           | Raise (DataNeededError _) => (Ok Continue, w1)
           | Raise e => (Raise e, w1)
           end.
Proof.
  intros ([fd Hfd] & v & Hwait & Hread).
  unfold _recv_turn. mstep. rewrite Hfd. mstep. rewrite Hwait. mstep.
  rewrite Hfd. mstep. rewrite Hread. mstep.
  eexists (mkWorld (self w) (buf w ++ chunk) _).
  split; [reflexivity|]. split; [reflexivity|]. cbn [buf].
  destruct (len (buf w ++ chunk) =? 0)%Z; [reflexivity|].
  destruct (UnPack (buf w ++ chunk)) as [msg|e]; mstep.
  - unfold after_dispatch.
    destruct (_resp_handler env msg _) as [[[]|e] w']; [reflexivity|].
    destruct e; reflexivity.
  - destruct e; reflexivity.
Qed.

Lemma UnPack_nil : exists value, UnPack [] = Raise (DataNeededError value).
Proof. eexists. reflexivity. Qed.

Lemma after_dispatch_world r : (after_dispatch r).2 = r.2.
Proof. destruct r as [[[]|e] w']; [reflexivity|]. destruct e; reflexivity. Qed.

(** C5. A turn of the receive loop in which the read returns: if the
    accumulated buffer decodes, the buffer is empty afterwards, however
    many octets followed the decoded frame and whatever the dispatch
    does; if the decode asks for more data, the loop continues and the
    buffer is exactly the accumulated octets. *)
Theorem recv_buffer_policy (w : World) (chunk : bytes) :
  reads env w chunk ->
  (forall msg, UnPack (buf w ++ chunk) = Ok msg ->
     buf (_recv_turn env w).2 = [])
  /\ (forall value, UnPack (buf w ++ chunk) = Raise (DataNeededError value) ->
        (_recv_turn env w).1 = Ok Continue
        /\ buf (_recv_turn env w).2 = buf w ++ chunk).
Proof.
  intros Hr. destruct (_recv_turn_read w chunk Hr) as (w1 & Hb & _ & Hturn).
  rewrite Hturn, Hb. clear Hturn. split.
  - intros msg Hmsg. rewrite Hmsg.
    destruct (Z.eqb_spec (len (buf w ++ chunk)) 0) as [Hz|_].
    + exfalso. unfold len in Hz.
      destruct (buf w ++ chunk); [|simpl in Hz; lia].
      destruct UnPack_nil as [value Hnil]. congruence.
    + rewrite after_dispatch_world, _resp_handler_keeps_buf. reflexivity.
  - intros value Hneed. rewrite Hneed.
    destruct (len (buf w ++ chunk) =? 0)%Z; simpl; auto.
Qed.

(** C4, as the code has it.  A turn of the receive loop that decodes a
    frame hands it to the dispatcher with the buffer emptied, and adds
    nothing of its own to what the dispatch does: the loop continues
    when the dispatch returns, stops when the dispatch raises the
    interrupt, and for every other exception the dispatch raises the
    exception leaves the loop, unlogged. *)
Theorem recv_dispatch_policy (w : World) (chunk : bytes) (msg : Container) :
  reads env w chunk ->
  UnPack (buf w ++ chunk) = Ok msg ->
  exists w1,
    buf w1 = [] /\ self w1 = self w
    /\ _recv_turn env w =
         match _resp_handler env msg w1 with
         | (Ok _, w') => (Ok Continue, w')
         | (Raise KeyboardInterrupt, w') => (Ok Break, w')
         | (Raise e, w') => (Raise e, w')
         end.
Proof.
  intros Hr Hmsg.
  destruct (_recv_turn_read w chunk Hr) as (w1 & Hb & Hs & Hturn).
  exists (set_buf [] w1). split; [reflexivity|]. split; [exact Hs|].
  rewrite Hturn, Hb, Hmsg.
  destruct (Z.eqb_spec (len (buf w ++ chunk)) 0) as [Hz|_]; [|reflexivity].
  exfalso. unfold len in Hz.
  destruct (buf w ++ chunk); [|simpl in Hz; lia].
  destruct UnPack_nil as [value Hnil]. congruence.
Qed.

(** C7. A proper prefix of a valid encoded frame: [UnPack] raises
    [DataNeededError], and a turn of the receive loop whose accumulated
    buffer is that prefix continues with the buffer unchanged and the
    manager untouched. *)
Theorem partial_buffer (f : Container) (b : bytes) (k : Z) :
  Pack f = Ok b ->
  (len (SerializeToString f) <= MAX_PACKET_LENGTH)%Z ->
  (0 <= k < len b)%Z ->
  (exists value, UnPack (slice b 0 k) = Raise (DataNeededError value))
  /\ forall w chunk,
       reads env w chunk ->
       buf w ++ chunk = slice b 0 k ->
       (_recv_turn env w).1 = Ok Continue
       /\ buf (_recv_turn env w).2 = slice b 0 k
       /\ self (_recv_turn env w).2 = self w.
Proof.
  intros HPack Hmax Hk.
  destruct (UnPack_partial f b k HPack Hmax Hk) as [value Hneed].
  split; [exists value; exact Hneed|].
  intros w chunk Hr Hbuf.
  destruct (_recv_turn_read w chunk Hr) as (w1 & Hb & Hs & Hturn).
  rewrite Hturn, Hb, Hbuf, Hneed.
  destruct (len (slice b 0 k) =? 0)%Z; simpl; rewrite <- Hbuf; auto.
Qed.

End Receive.

(** * Receipts and the callback table *)

Section Receipts.
Context `{ContainerSchema} (env : Env).

(** A receipt for an id that has no entry: one debug line, nothing else. *)
Lemma receipt_unregistered (mid : string) (msg : Container) (w : World) :
  callback_tbl (self w) !! mid = None ->
  receipt_for env msg mid ->
  _resp_handler env msg w =
    (Ok tt,
     record (logger log_debug "%s confirmed %s"
               [ArgStr (SID msg); ArgObj (PyStr mid)]) (Returns []) w).
Proof.
  intros Hnone (Hc & Hb & body & Hj & Hty & Hmid).
  unfold _resp_handler. rewrite Hb, Hj, Hc. mstep. rewrite Hty. mstep.
  change (py_eq_str (PyStr "receipt") "receipt") with true.
  mstep. rewrite Hmid. mstep. cbn [hash_key]. mstep.
  unfold tbl_lookup. rewrite Hnone. reflexivity.
Qed.

(** A receipt for an id that has an entry: the entry is removed, then the
    callback is invoked, once, with the success status; an [Exception] it
    raises is logged and goes no further. *)
Lemma receipt_registered (mid : string) (f : callback) (msg : Container)
    (w : World) :
  callback_tbl (self w) !! mid = Some f ->
  receipt_for env msg mid ->
  exists tr,
    trace (_resp_handler env msg w).2 = trace w ++ tr
    /\ List.filter is_invoke (calls tr) = [invoke f (STATUS_SUCCESS env)]
    /\ callback_tbl (self (_resp_handler env msg w).2)
       = delete mid (callback_tbl (self w))
    /\ (forall o, In (invoke f (STATUS_SUCCESS env), o) tr ->
          (_resp_handler env msg w).1 =
            match o with
            | Returns _ => Ok tt
            | Raises e => if is_Exception e then Ok tt else Raise e
            end).
Proof.
  intros Hsome (Hc & Hb & body & Hj & Hty & Hmid).
  unfold _resp_handler. rewrite Hb, Hj, Hc. mstep. rewrite Hty. mstep.
  change (py_eq_str (PyStr "receipt") "receipt") with true.
  mstep. rewrite Hmid. mstep. cbn [hash_key]. mstep.
  unfold tbl_lookup. rewrite Hsome. mstep.
  ask env; mstep.
  - grown. repeat split.
    intros o [Ho|[Ho|[]]]; inversion Ho; reflexivity.
  - destruct e; cbn [is_Exception]; mstep; grown; repeat split;
      intros o Hin; simpl in Hin;
      repeat (destruct Hin as [Hin|Hin]; [try discriminate Hin|]);
      try contradiction; inversion Hin; reflexivity.
Qed.

(** C2. Callback at most once: with a callback registered under [mid],
    the first of two receipts for [mid] removes the entry and invokes the
    callback once, with the success status; the second finds no entry,
    invokes nothing and returns.  Over the two dispatches the callback is
    invoked exactly once. *)
Theorem callback_at_most_once (mid : string) (f : callback)
    (msg1 msg2 : Container) (w : World) :
  callback_tbl (self w) !! mid = Some f ->
  receipt_for env msg1 mid ->
  receipt_for env msg2 mid ->
  exists tr1 tr2,
    trace (_resp_handler env msg1 w).2 = trace w ++ tr1
    /\ trace (_resp_handler env msg2 (_resp_handler env msg1 w).2).2
       = trace w ++ tr1 ++ tr2
    /\ List.filter is_invoke (calls tr1) = [invoke f (STATUS_SUCCESS env)]
    /\ callback_tbl (self (_resp_handler env msg1 w).2) !! mid = None
    /\ (_resp_handler env msg2 (_resp_handler env msg1 w).2).1 = Ok tt
    /\ count is_invoke tr2 = 0
    /\ count is_invoke (tr1 ++ tr2) = 1.
Proof.
  intros Hsome Hr1 Hr2.
  destruct (receipt_registered mid f msg1 w Hsome Hr1)
    as (tr1 & Htr1 & Hinv & Htbl & _).
  assert (Hnone : callback_tbl (self (_resp_handler env msg1 w).2) !! mid = None).
  { rewrite Htbl. apply lookup_delete_eq. }
  pose proof (receipt_unregistered mid msg2 _ Hnone Hr2) as Hrun2.
  exists tr1, [(logger log_debug "%s confirmed %s"
                  [ArgStr (SID msg2); ArgObj (PyStr mid)], Returns [])].
  rewrite Hrun2. cbn [fst snd trace record]. rewrite Htr1.
  repeat split; try assumption.
  - rewrite <- app_assoc. reflexivity.
  - unfold count, calls in *. rewrite map_app, List.filter_app, Hinv. reflexivity.
Qed.

End Receipts.

Lemma callback_at_most_once_witness :
  (callback_tbl (self tracked) !! "PSHabc" = Some 7
   /\ receipt_for confirms receipt_frame "PSHabc")
  /\ exists tr1 tr2,
       trace (_resp_handler confirms receipt_frame tracked).2
       = trace tracked ++ tr1
       /\ trace (_resp_handler confirms receipt_frame
                   (_resp_handler confirms receipt_frame tracked).2).2
          = trace tracked ++ tr1 ++ tr2
       /\ List.filter is_invoke (calls tr1) = [invoke 7 0%Z]
       /\ callback_tbl (self (_resp_handler confirms receipt_frame tracked).2)
            !! "PSHabc" = None
       /\ (_resp_handler confirms receipt_frame
             (_resp_handler confirms receipt_frame tracked).2).1 = Ok tt
       /\ count is_invoke tr2 = 0
       /\ count is_invoke (tr1 ++ tr2) = 1.
Proof.
  assert (H1 : callback_tbl (self tracked) !! "PSHabc" = Some 7)
    by (vm_compute; reflexivity).
  assert (H2 : receipt_for confirms receipt_frame "PSHabc").
  { split; [reflexivity|]. split; [reflexivity|].
    eexists. split; [vm_compute; reflexivity|]. split; reflexivity. }
  split; [split; assumption|].
  exact (callback_at_most_once confirms "PSHabc" 7 receipt_frame receipt_frame
           tracked H1 H2 H2).
Defined.

(** * Runs on concrete worlds *)

Lemma offline_removal_first_witness :
  presence_event (presence (Returns [])) offline_frame "offline"
  /\ exists tr,
       trace (_resp_handler (presence (Returns [])) offline_frame idle).2
       = trace idle ++ tr
       /\ precedes (delToOnlineTable "S1") (offline_callback "S1") tr
       /\ (forall v, In (mysql, Returns v) tr ->
             In (delToOnlineTable "S1") (calls tr))
       /\ (forall v, In (delToOnlineTable "S1", Returns v) tr ->
             In (offline_callback "S1") (calls tr))
       /\ exists o rest,
            tr = (mysql, Returns [])
                 :: (logger log_debug "[GM] user %s is now offline"
                       [ArgStr "S1"], Returns [])
                 :: (delToOnlineTable "S1", o)
                 :: rest
            /\ o = Returns []
            /\ match o with
               | Returns _ =>
                   exists o',
                     rest = (offline_callback "S1", o')
                            :: match o' with
                               | Raises InconsistentError =>
                                   [(logger log_warning
                                       "error during setting %s offline: %s"
                                       [ArgStr "S1";
                                        ArgExn InconsistentError],
                                     Returns [])]
                               | _ => []
                               end
               | Raises _ => ~ In (offline_callback "S1") (calls rest)
               end.
Proof.
  assert (H1 : presence_event (presence (Returns [])) offline_frame "offline").
  { split; [reflexivity|]. split; [reflexivity|]. split; [reflexivity|].
    eexists. split; [vm_compute; reflexivity|reflexivity]. }
  split; [exact H1|].
  exact (offline_removal_first (presence (Returns [])) offline_frame idle H1).
Defined.

Lemma offline_removal_inconsistent_witness :
  presence_event (presence (Raises InconsistentError)) offline_frame "offline"
  /\ exists tr,
       trace (_resp_handler (presence (Raises InconsistentError))
                offline_frame idle).2 = trace idle ++ tr
       /\ (In (delToOnlineTable "S1", Raises InconsistentError) tr ->
             (_resp_handler (presence (Raises InconsistentError))
                offline_frame idle).1 = Ok tt
             /\ ~ In (offline_callback "S1") (calls tr)
             /\ count is_warn tr = 1
             /\ exists pre,
                  tr = pre ++
                    [(delToOnlineTable "S1", Raises InconsistentError);
                     (logger log_warning "error during setting %s offline: %s"
                        [ArgStr "S1"; ArgExn InconsistentError],
                      Returns [])])
       /\ (In (offline_callback "S1") (calls tr) ->
             exists v, In (delToOnlineTable "S1", Returns v) tr).
Proof.
  assert (H1 : presence_event (presence (Raises InconsistentError))
                 offline_frame "offline").
  { split; [reflexivity|]. split; [reflexivity|]. split; [reflexivity|].
    eexists. split; [vm_compute; reflexivity|reflexivity]. }
  split; [exact H1|].
  exact (offline_removal_inconsistent (presence (Raises InconsistentError))
           offline_frame idle H1).
Defined.

(** The store raising the inconsistency error, run: the removal, then the
    warning, and no offline callback. *)
Example offline_inconsistent_run :
  _resp_handler (presence (Raises InconsistentError)) offline_frame idle
  = (Ok tt,
     mkWorld (mkGatewayMgr ∅ (Some 0) (Some 0) [] (Some 0)) []
       [(mysql, Returns []);
        (logger log_debug "[GM] user %s is now offline" [ArgStr "S1"],
         Returns []);
        (delToOnlineTable "S1", Raises InconsistentError);
        (logger log_warning "error during setting %s offline: %s"
           [ArgStr "S1"; ArgExn InconsistentError], Returns [])]).
Proof. vm_compute. reflexivity. Qed.

Lemma reads_delivers (chunk : bytes) : reads (delivers chunk) idle chunk.
Proof.
  split; [eexists; reflexivity|]. exists []. split; reflexivity.
Qed.

Lemma recv_buffer_policy_witness :
  reads (delivers (untyped_chunk ++ [x01; x02])) idle
    (untyped_chunk ++ [x01; x02])
  /\ (forall msg, UnPack (buf idle ++ untyped_chunk ++ [x01; x02]) = Ok msg ->
        buf (_recv_turn (delivers (untyped_chunk ++ [x01; x02])) idle).2 = [])
  /\ (forall value,
        UnPack (buf idle ++ untyped_chunk ++ [x01; x02])
        = Raise (DataNeededError value) ->
        (_recv_turn (delivers (untyped_chunk ++ [x01; x02])) idle).1
        = Ok Continue
        /\ buf (_recv_turn (delivers (untyped_chunk ++ [x01; x02])) idle).2
           = buf idle ++ untyped_chunk ++ [x01; x02]).
Proof.
  assert (H1 : reads (delivers (untyped_chunk ++ [x01; x02])) idle
                 (untyped_chunk ++ [x01; x02])).
  { split; [eexists; reflexivity|]. exists []. split; reflexivity. }
  split; [exact H1|].
  exact (recv_buffer_policy (delivers (untyped_chunk ++ [x01; x02])) idle
           (untyped_chunk ++ [x01; x02]) H1).
Defined.

(** Two octets of a second frame arrive with the first: they are gone
    after the turn. *)
Example pipelined_octets_discarded :
  UnPack (untyped_chunk ++ [x01; x02]) = Ok untyped_frame
  /\ buf (_recv_turn (delivers (untyped_chunk ++ [x01; x02])) idle).2 = [].
Proof. split; vm_compute; reflexivity. Qed.

Lemma recv_dispatch_policy_witness :
  (reads (delivers untyped_chunk) idle untyped_chunk
   /\ UnPack (buf idle ++ untyped_chunk) = Ok untyped_frame)
  /\ exists w1,
       buf w1 = [] /\ self w1 = self idle
       /\ _recv_turn (delivers untyped_chunk) idle =
            match _resp_handler (delivers untyped_chunk) untyped_frame w1 with
            | (Ok _, w') => (Ok Continue, w')
            | (Raise KeyboardInterrupt, w') => (Ok Break, w')
            | (Raise e, w') => (Raise e, w')
            end.
Proof.
  assert (H1 : reads (delivers untyped_chunk) idle untyped_chunk).
  { split; [eexists; reflexivity|]. exists []. split; reflexivity. }
  assert (H2 : UnPack (buf idle ++ untyped_chunk) = Ok untyped_frame)
    by (vm_compute; reflexivity).
  split; [split; [exact H1|exact H2]|].
  exact (recv_dispatch_policy (delivers untyped_chunk) idle untyped_chunk
           untyped_frame H1 H2).
Defined.

(** C4, as the spec has it, fails: the read delivers a well-formed
    client-class frame whose body is an object without a [type] field;
    the frame decodes, the dispatch raises [KeyError], and the exception
    leaves the receive loop: the turn does not continue, and nothing was
    logged. *)
Lemma untyped_frame_ends_recv :
  reads (delivers untyped_chunk) idle untyped_chunk
  /\ UnPack (buf idle ++ untyped_chunk) = Ok untyped_frame
  /\ int_true (Z.land (TYPE untyped_frame) MSG_CLIENT) = true
  /\ (_recv_turn (delivers untyped_chunk) idle).1 = Raise (KeyError "type")
  /\ (_recv_turn (delivers untyped_chunk) idle).1 <> Ok Continue
  /\ calls (trace (_recv_turn (delivers untyped_chunk) idle).2)
     = [wait_read; fd_read]
  /\ (_recv_loop (delivers untyped_chunk) 3 idle).1 = Raise (KeyError "type").
Proof.
  split; [apply reads_delivers|].
  split; [vm_compute; reflexivity|].
  split; [reflexivity|].
  split; [vm_compute; reflexivity|].
  split; [vm_compute; discriminate|].
  split; vm_compute; reflexivity.
Qed.

Lemma partial_buffer_witness :
  (Pack push_frame = Ok (x00 :: x00 :: x00 :: x2a :: Wire.serialize push_frame)
   /\ (len (Wire.serialize push_frame) <= MAX_PACKET_LENGTH)%Z
   /\ (0 <= 3 < len (x00 :: x00 :: x00 :: x2a :: Wire.serialize push_frame))%Z)
  /\ (exists value,
        UnPack (slice (x00 :: x00 :: x00 :: x2a :: Wire.serialize push_frame) 0 3)
        = Raise (DataNeededError value))
  /\ forall w chunk,
       reads calm w chunk ->
       buf w ++ chunk
       = slice (x00 :: x00 :: x00 :: x2a :: Wire.serialize push_frame) 0 3 ->
       (_recv_turn calm w).1 = Ok Continue
       /\ buf (_recv_turn calm w).2
          = slice (x00 :: x00 :: x00 :: x2a :: Wire.serialize push_frame) 0 3
       /\ self (_recv_turn calm w).2 = self w.
Proof.
  assert (H1 : Pack push_frame
               = Ok (x00 :: x00 :: x00 :: x2a :: Wire.serialize push_frame))
    by (vm_compute; reflexivity).
  assert (H2 : (len (Wire.serialize push_frame) <= MAX_PACKET_LENGTH)%Z)
    by (vm_compute; discriminate).
  assert (H3 : (0 <= 3
                < len (x00 :: x00 :: x00 :: x2a :: Wire.serialize push_frame))%Z)
    by (split; vm_compute; [discriminate|reflexivity]).
  split; [repeat split; assumption|].
  exact (partial_buffer calm push_frame _ 3 H1 H2 H3).
Defined.

(** * Message ids of tracked sends *)

Lemma hexlify_length (s : bytes) : String.length (hexlify s) = 2 * length s.
Proof. induction s as [|b s IH]; simpl; [reflexivity|]. rewrite IH. lia. Qed.

Lemma hexlify_all_hex (s : bytes) : all_hex (hexlify s) = true.
Proof.
  induction s as [|b s IH]; [reflexivity|].
  cbn [hexlify all_hex]. rewrite IH.
  destruct b; reflexivity.
Qed.

Section MessageIds.
Context `{ContainerSchema} (env : Env).

(** C8, as the code has it.  The message-id of a tracked enqueue is always
    ["PSH"] followed by a tail: the supplied id when one is supplied and
    is not empty, and otherwise the 18 hexadecimal characters of 9 fresh
    random octets.  The frame queued carries that id and the callback, if
    any, is registered under it.  For [send_push] on a connected manager
    the tail is the bundle's msgid right-justified in 7 columns, a dash,
    and the receiver's guid. *)
Theorem queued_send_message_id (rid : string) (msgtype : Z) (body : string)
    (cb : option callback) (w : World) :
  (forall m data,
     str_true m = true ->
     Pack {| SID := PUSH_SERVER_SID; RID := rid; MID := "PSH" +:+ m;
             STIME := 0; TYPE := msgtype; BODY := body |} = Ok data ->
     _queued_send env rid msgtype body cb (Some m) w
     = (Ok tt, enqueued data ("PSH" +:+ m) cb w))
  /\ (forall mid data,
        mid = None \/ mid = Some EmptyString ->
        let octets := map (random_octet env (trace w)) (seq 0 9) in
        String.length (hexlify octets) = 18
        /\ all_hex (hexlify octets) = true
        /\ (Pack {| SID := PUSH_SERVER_SID; RID := rid;
                    MID := "PSH" +:+ hexlify octets;
                    STIME := 0; TYPE := msgtype; BODY := body |} = Ok data ->
            _queued_send env rid msgtype body cb mid w
            = (Ok tt,
               enqueued data ("PSH" +:+ hexlify octets) cb
                 (record (os_urandom 9) (Returns octets) w))))
  /\ (forall bundle data,
        disconnected (self w) = false ->
        Pack {| SID := PUSH_SERVER_SID; RID := user_guid bundle;
                MID := "PSH" +:+ format_07s (msg_msgid bundle) +:+ "-"
                       +:+ user_guid bundle;
                STIME := 0; TYPE := Z.lor MSG_CLIENT MSG_RECEIPT;
                BODY := msg_payload bundle |} = Ok data ->
        send_push env bundle w
        = (Ok tt,
           enqueued data
             ("PSH" +:+ format_07s (msg_msgid bundle) +:+ "-"
              +:+ user_guid bundle) (bundle_callback bundle) w)).
Proof.
  assert (Hsupplied : forall m data,
    str_true m = true ->
    Pack {| SID := PUSH_SERVER_SID; RID := rid; MID := "PSH" +:+ m;
            STIME := 0; TYPE := msgtype; BODY := body |} = Ok data ->
    _queued_send env rid msgtype body cb (Some m) w
    = (Ok tt, enqueued data ("PSH" +:+ m) cb w)).
  { intros m data Hm HPack. unfold _queued_send. rewrite Hm. mstep.
    rewrite HPack. mstep. unfold enqueued. destruct cb; reflexivity. }
  split; [exact Hsupplied|]. split.
  - intros mid data Hmid octets.
    split; [unfold octets; rewrite hexlify_length, length_map, length_seq;
            reflexivity|].
    split; [apply hexlify_all_hex|].
    intros HPack. unfold _queued_send.
    destruct Hmid as [-> | ->]; cbn [str_true]; mstep; fold octets;
      rewrite HPack; mstep; unfold enqueued; destruct cb; reflexivity.
  - intros bundle data Hconn HPack.
    unfold send_push. mstep. rewrite Hconn. mstep.
    assert (Hm : str_true (format_mid (msg_msgid bundle) (user_guid bundle)) = true).
    { unfold format_mid, format_07s.
      destruct (spaces (7 - String.length (msg_msgid bundle))); simpl;
        [destruct (msg_msgid bundle)|]; reflexivity. }
    unfold _queued_send. rewrite Hm. mstep.
    unfold format_mid. rewrite HPack. mstep. unfold enqueued.
    destruct (bundle_callback bundle); reflexivity.
Qed.

End MessageIds.

Lemma queued_send_message_id_witness :
  (str_true "abc" = true /\ Pack abc_frame = Ok abc_data)
  /\ _queued_send calm "u42" (Z.lor MSG_CLIENT MSG_RECEIPT) "hello" (Some 7)
       (Some "abc") idle
     = (Ok tt, enqueued abc_data "PSHabc" (Some 7) idle).
Proof.
  assert (H1 : str_true "abc" = true) by reflexivity.
  assert (H2 : Pack abc_frame = Ok abc_data) by (vm_compute; reflexivity).
  split; [split; assumption|].
  exact (proj1 (queued_send_message_id calm "u42" (Z.lor MSG_CLIENT MSG_RECEIPT)
                  "hello" (Some 7) idle) "abc" abc_data H1 H2).
Defined.

(** C8, as the spec has it, fails: the supplied id ["abc"] is not the
    message-id of the queued frame, which is ["PSHabc"]; and the
    message-id of a [send_push] frame is not the combination of msgid and
    guid as supplied to [_queued_send] but that combination after
    ["PSH"]. *)
Lemma supplied_id_is_prefixed :
  (exists data f,
     _send_queue
       (self (_queued_send calm "u42" (Z.lor MSG_CLIENT MSG_RECEIPT) "hello"
                (Some 7) (Some "abc") idle).2) = [data]
     /\ UnPack data = Ok f
     /\ MID f = "PSHabc"
     /\ MID f <> "abc")
  /\ (exists data f,
        _send_queue (self (send_push calm bundle17 idle).2) = [data]
        /\ UnPack data = Ok f
        /\ MID f = "PSH     17-u42"
        /\ MID f <> format_mid (msg_msgid bundle17) (user_guid bundle17)).
Proof.
  split.
  - eexists _, _. split; [vm_compute; reflexivity|].
    split; [vm_compute; reflexivity|].
    split; [reflexivity|discriminate].
  - eexists _, _. split; [vm_compute; reflexivity|].
    split; [vm_compute; reflexivity|].
    split; [reflexivity|vm_compute; discriminate].
Qed.

(** * The send loop *)

Lemma quiet_after_success_spec (h pre post : history) (x : call * outcome) :
  quiet_after_success h = true ->
  is_good_write x = true ->
  h = pre ++ x :: post ->
  post = [].
Proof.
  intros Hq Hx ->. induction pre as [|y pre IH].
  - destruct x as [[] []]; try discriminate Hx.
    simpl in Hq. destruct post; [reflexivity|discriminate Hq].
  - apply IH. destruct y as [[] []]; simpl in Hq; try exact Hq;
      destruct (pre ++ x :: post) eqn:E; try discriminate Hq;
      destruct pre; discriminate E.
Qed.

Lemma existsb_good_write (pre post : history) (x : call * outcome) :
  is_good_write x = true -> existsb is_good_write (pre ++ x :: post) = true.
Proof.
  intros Hx. rewrite existsb_app. simpl. rewrite Hx.
  rewrite orb_true_r. reflexivity.
Qed.

Section Send.
Context `{ContainerSchema} (env : Env).

(** Split on whatever decides the next step of a send turn. *)
Ltac crank :=
  repeat first
    [ progress mstep
    | progress cbn [disconnected obj_true negb orb andb gw_fd _gw_fd_raw self]
    | ask env
    | match goal with
      | |- context [match ?e with socket_error => _ | _ => _ end] =>
          destruct e
      end ].

(** Every way a send turn can go, on explicit histories. *)
Lemma send_turn_runs (b : bytes) (q : list bytes) (w : World)
    (r : result (option unit)) (w' : World) :
  _send_queue (self w) = b :: q ->
  _send_turn env w = (r, w') ->
  exists tr,
    trace w' = trace w ++ tr
    /\ count is_write tr <= 2
    /\ (forall c, In c (calls tr) -> is_write c = true -> c = fd_write b)
    /\ writes_connected (negb (disconnected (self w))) tr = true
    /\ quiet_after_success tr = true
    /\ (existsb is_good_write tr = true -> r = Ok (Some tt))
    /\ _send_queue (self w') = q
    /\ (failed_writes tr = 2 ->
          r = Ok (Some tt)
          /\ count is_warn tr = 1
          /\ last tr = Some (logger log_warn "failed to send packet" [],
                             Returns [])).
Proof.
  destruct w as [[tbl fd raw queue my] buffer tr0]. cbn [self _send_queue].
  intros ->. unfold _send_turn, _send_item. cbn [_send_attempts].
  unfold connect, gw_fd_write, close_quietly.
  destruct fd as [fd|], raw as [raw|]; crank.
  all: intros [= <- <-].
  all: mstep; grown.
  all: unfold count, failed_writes, calls.
  all: repeat split; try reflexivity; try (simpl; lia); try discriminate.
  all: try (intros c Hin Hw; simpl in Hin;
            repeat (destruct Hin as [<-|Hin]; [try discriminate Hw|]);
            try reflexivity; try contradiction).
Qed.

(** What a send turn is bound to do, on explicit histories. *)
Lemma send_turn_progress (b : bytes) (q : list bytes) (w : World)
    (r : result (option unit)) (w' : World) :
  _send_queue (self w) = b :: q ->
  _send_turn env w = (r, w') ->
  exists tr,
    trace w' = trace w ++ tr
    /\ head (calls tr)
       = Some (if disconnected (self w) then socket_socket else fd_write b)
    /\ count is_close tr = failed_writes tr
    /\ count is_warn tr = (if Nat.eqb (failed_writes tr) 2 then 1 else 0)
    /\ match r with
       | Ok _ =>
           (existsb is_good_write tr || Nat.eqb (failed_writes tr) 2) = true
           /\ (Nat.eqb (failed_writes tr) 0
               || Nat.eqb (count is_write tr) 2) = true
       | Raise e => exists c, last tr = Some (c, Raises e) /\ is_close c = false
       end.
Proof.
  destruct w as [[tbl fd raw queue my] buffer tr0]. cbn [self _send_queue].
  intros ->. unfold _send_turn, _send_item. cbn [_send_attempts].
  unfold connect, gw_fd_write, close_quietly.
  destruct fd as [fd|], raw as [raw|]; crank.
  all: intros [= <- <-].
  all: mstep; grown.
  all: unfold count, failed_writes, calls.
  all: split; [reflexivity|].
  all: split; [reflexivity|].
  all: split; [reflexivity|].
  all: first [ split; reflexivity | eexists; split; reflexivity ].
Qed.

(** C3. A turn of the send loop on the item [b] taken from the queue.
    What it does not do: at most two writes are attempted, all of [b];
    every write goes to a live connection (the one that was up, or one set
    up since the last failure); nothing follows a write that returned, and
    the turn then ends normally; the item is never put back on the queue;
    at most one warning is logged, and only after two failed writes.
    What it is bound to do: its first act is the write when the manager is
    connected and the reconnect when it is not; every write that fails with
    an I/O error is followed by one close of the raw socket; a turn that
    ends normally wrote the item or failed twice, so a first failure is
    followed by a second attempt; a turn ends with an exception only when
    its last call (never the close) raised it; and when two writes failed
    with an I/O error the turn still ends normally, with exactly one
    warning, its last act. *)
Theorem send_turn_policy (b : bytes) (q : list bytes) (w : World) :
  _send_queue (self w) = b :: q ->
  exists tr,
    trace (_send_turn env w).2 = trace w ++ tr
    /\ count is_write tr <= 2
    /\ (forall c, In c (calls tr) -> is_write c = true -> c = fd_write b)
    /\ writes_connected (negb (disconnected (self w))) tr = true
    /\ (forall pre v post,
          tr = pre ++ (fd_write b, Returns v) :: post ->
          post = [] /\ (_send_turn env w).1 = Ok (Some tt))
    /\ _send_queue (self (_send_turn env w).2) = q
    /\ (failed_writes tr = 2 ->
          (_send_turn env w).1 = Ok (Some tt)
          /\ count is_warn tr = 1
          /\ last tr = Some (logger log_warn "failed to send packet" [],
                             Returns []))
    /\ head (calls tr)
       = Some (if disconnected (self w) then socket_socket else fd_write b)
    /\ count is_close tr = failed_writes tr
    /\ count is_warn tr <= 1
    /\ (count is_warn tr = 1 -> failed_writes tr = 2)
    /\ match (_send_turn env w).1 with
       | Ok _ =>
           (existsb is_good_write tr = true \/ failed_writes tr = 2)
           /\ (1 <= failed_writes tr -> count is_write tr = 2)
       | Raise e =>
           exists c, last tr = Some (c, Raises e) /\ c <> raw_close
       end.
Proof.
  intros Hq.
  destruct (_send_turn env w) as [r w'] eqn:Hrun.
  destruct (send_turn_runs b q w r w' Hq Hrun)
    as (tr & Htr & Hcount & Hall & Hconn & Hquiet & Hgood & Hqueue & Hfail).
  destruct (send_turn_progress b q w r w' Hq Hrun)
    as (tr' & Htr' & Hhead & Hclose & Hwarn & Hend).
  assert (tr' = tr) as -> by (apply (app_inv_head (trace w)); congruence).
  exists tr. cbn [fst snd].
  repeat (split; [assumption|]).
  split.
  { intros pre v post ->. split.
    - exact (quiet_after_success_spec _ pre post (fd_write b, Returns v)
               Hquiet eq_refl eq_refl).
    - apply Hgood. apply existsb_good_write. reflexivity. }
  repeat (split; [assumption|]).
  split; [rewrite Hwarn; destruct (Nat.eqb (failed_writes tr) 2); lia|].
  split.
  { rewrite Hwarn. destruct (Nat.eqb_spec (failed_writes tr) 2);
      [trivial|discriminate]. }
  destruct r as [u|e].
  - destruct Hend as [Hwrote Hretry]. split.
    + apply orb_true_iff in Hwrote as [Hg|Hf];
        [left; exact Hg|right; apply Nat.eqb_eq; exact Hf].
    + intros Hone. apply orb_true_iff in Hretry as [Hz|Htwo];
        [apply Nat.eqb_eq in Hz; lia|apply Nat.eqb_eq; exact Htwo].
  - destruct Hend as (c & Hlast & Hc). exists c. split; [exact Hlast|].
    intros ->. discriminate Hc.
Qed.

End Send.

Lemma send_turn_policy_witness :
  _send_queue (self loaded) = abc_data :: []
  /\ exists tr,
       trace (_send_turn unwritable loaded).2 = trace loaded ++ tr
       /\ count is_write tr <= 2
       /\ (forall c, In c (calls tr) -> is_write c = true ->
             c = fd_write abc_data)
       /\ writes_connected (negb (disconnected (self loaded))) tr = true
       /\ (forall pre v post,
             tr = pre ++ (fd_write abc_data, Returns v) :: post ->
             post = [] /\ (_send_turn unwritable loaded).1 = Ok (Some tt))
       /\ _send_queue (self (_send_turn unwritable loaded).2) = []
       /\ (failed_writes tr = 2 ->
             (_send_turn unwritable loaded).1 = Ok (Some tt)
             /\ count is_warn tr = 1
             /\ last tr = Some (logger log_warn "failed to send packet" [],
                                Returns []))
       /\ head (calls tr) = Some (fd_write abc_data)
       /\ count is_close tr = failed_writes tr
       /\ count is_warn tr <= 1
       /\ (count is_warn tr = 1 -> failed_writes tr = 2)
       /\ (existsb is_good_write tr = true \/ failed_writes tr = 2)
       /\ (1 <= failed_writes tr -> count is_write tr = 2).
Proof.
  assert (H1 : _send_queue (self loaded) = abc_data :: []) by reflexivity.
  split; [exact H1|].
  exact (send_turn_policy unwritable abc_data [] loaded H1).
Defined.

(** Two failed writes, run: write, close, reconnect, write, close,
    warning; the queue is empty and the turn ended normally. *)
Example two_failed_writes_run :
  (_send_turn unwritable loaded).1 = Ok (Some tt)
  /\ calls (trace (_send_turn unwritable loaded).2)
     = [fd_write abc_data; raw_close; socket_socket; socket_connect;
        SSLSocket; fd_write abc_data; raw_close;
        logger log_warn "failed to send packet" []]
  /\ failed_writes (trace (_send_turn unwritable loaded).2) = 2
  /\ _send_queue (self (_send_turn unwritable loaded).2) = [].
Proof. repeat split; vm_compute; reflexivity. Qed.

(** A frame that arrives in two reads: nothing is dispatched after the
    first three octets, which stay in the buffer; after the second read the
    frame is dispatched once, the callback registered for it runs, and the
    buffer is empty. *)
Example frame_in_two_reads :
  calls (trace (_recv_loop piecemeal 1 tracked).2) = [wait_read; fd_read]
  /\ buf (_recv_loop piecemeal 1 tracked).2 = take 3 receipt_data
  /\ calls (trace (_recv_loop piecemeal 2 tracked).2)
     = [wait_read; fd_read; wait_read; fd_read;
        logger log_debug "%s confirmed %s" [ArgStr "c1"; ArgObj (PyStr "PSHabc")];
        invoke 7 0]
  /\ buf (_recv_loop piecemeal 2 tracked).2 = []
  /\ callback_tbl (self (_recv_loop piecemeal 2 tracked).2) !! "PSHabc" = None.
Proof. repeat split; vm_compute; reflexivity. Qed.

(** * More on the codec *)

Lemma slice_app_l {A} (s t : list A) (lo hi : Z) :
  (0 <= lo)%Z -> (hi <= len s)%Z -> slice (s ++ t) lo hi = slice s lo hi.
Proof.
  intros Hlo Hhi. unfold slice, len in *.
  destruct (Z.le_gt_cases lo hi) as [Hle|Hgt].
  - rewrite drop_app_le by lia.
    rewrite take_app_le; [reflexivity|]. rewrite length_drop. lia.
  - replace (Z.to_nat (hi - lo)) with 0 by lia. reflexivity.
Qed.

Lemma lor_shifted_add (a b k : Z) :
  (0 <= k)%Z -> (0 <= b < 2 ^ k)%Z ->
  Z.lor (Z.shiftl a k) b = (a * 2 ^ k + b)%Z.
Proof.
  intros Hk Hb. rewrite Z.shiftl_mul_pow2 by lia.
  assert (Hdisj : Z.land (a * 2 ^ k) b = 0%Z).
  { apply Z.bits_inj'. intros i Hi. rewrite Z.land_spec, Z.bits_0.
    destruct (Z.lt_ge_cases i k).
    - rewrite Z.mul_pow2_bits_low by lia. reflexivity.
    - rewrite <- (Z.mod_small b (2 ^ k)) by lia.
      rewrite Z.mod_pow2_bits_high by lia. apply andb_false_r. }
  rewrite Z.add_nocarry_lxor by exact Hdisj.
  symmetry. apply Z.lxor_lor. exact Hdisj.
Qed.

(** Four octets always unpack, to a number below [2^32]. *)
Lemma struct_unpack_I_four (s : bytes) :
  length s = 4 -> exists n, struct_unpack_I s = Ok n /\ (0 <= n < 2 ^ 32)%Z.
Proof.
  intros Hl. destruct s as [|b0 [|b1 [|b2 [|b3 [|]]]]]; try discriminate Hl.
  eexists. split; [reflexivity|].
  pose proof (Z_of_byte_range b0). pose proof (Z_of_byte_range b1).
  pose proof (Z_of_byte_range b2). pose proof (Z_of_byte_range b3).
  rewrite (lor_shifted_add (Z_of_byte b2) (Z_of_byte b3) 8) by lia.
  rewrite (lor_shifted_add (Z_of_byte b1) _ 16) by lia.
  rewrite (lor_shifted_add (Z_of_byte b0) _ 24) by lia.
  lia.
Qed.

Section CodecMore.
Context `{ContainerSchema}.

(** What [UnPack] does with a buffer of four octets or more. *)
Lemma UnPack_long (data : bytes) :
  (4 <= len data)%Z ->
  exists n,
    struct_unpack_I (slice data 0 4) = Ok n /\ (0 <= n < 2 ^ 32)%Z
    /\ UnPack data =
         if (n >? MAX_PACKET_LENGTH)%Z then Raise (MaxLengthError EmptyString)
         else if (len data <? 4 + n)%Z then
           Raise (DataNeededError "Need more data")
         else ParseFromString (slice data 4 (4 + n)).
Proof.
  intros Hlen.
  destruct (struct_unpack_I_four (slice data 0 4)) as (n & Hn & Hrange).
  { rewrite slice_0, length_take. unfold len in Hlen. lia. }
  exists n. split; [exact Hn|]. split; [exact Hrange|].
  unfold UnPack. destruct (Z.ltb_spec (len data) 4); [lia|].
  rewrite Hn. reflexivity.
Qed.

(** X1. Once [UnPack] gives anything but [DataNeededError] on a buffer,
    octets appended to the buffer do not change what it gives: a decoded
    frame stays the same frame, and [MaxLengthError] or a parse error
    stays. *)
Theorem UnPack_verdict_final (data rest : bytes) :
  (forall value, UnPack data <> Raise (DataNeededError value)) ->
  UnPack (data ++ rest) = UnPack data.
Proof.
  intros Hfinal.
  destruct (Z.lt_ge_cases (len data) 4) as [Hshort|Hlong].
  { exfalso. apply (Hfinal "At least 4 octets"). unfold UnPack.
    apply Z.ltb_lt in Hshort. rewrite Hshort. reflexivity. }
  destruct (UnPack_long data Hlong) as (n & Hn & Hrange & Hdata).
  assert (Hlong' : (4 <= len (data ++ rest))%Z).
  { rewrite len_app. pose proof (len_nonneg rest). lia. }
  destruct (UnPack_long (data ++ rest) Hlong') as (n' & Hn' & _ & Hboth).
  rewrite slice_app_l in Hn' by lia.
  rewrite Hn in Hn'. inversion Hn'; subst n'; clear Hn'.
  rewrite Hboth, Hdata. rewrite Hdata in Hfinal.
  destruct (n >? MAX_PACKET_LENGTH)%Z; [reflexivity|].
  destruct (Z.ltb_spec (len data) (4 + n)) as [Hneed|Hhave].
  { exfalso. exact (Hfinal _ eq_refl). }
  rewrite len_app. pose proof (len_nonneg rest).
  destruct (Z.ltb_spec (len data + len rest) (4 + n)); [lia|].
  rewrite slice_app_l by lia. reflexivity.
Qed.

(** X2. What [UnPack] can raise: [DataNeededError], [MaxLengthError],
    or what the schema's parser raised on the payload of a complete frame
    whose declared length is within the maximum.  The length prefix itself
    never makes it fail in another way. *)
Theorem UnPack_errors (data : bytes) (e : exn) :
  UnPack data = Raise e ->
  (exists value, e = DataNeededError value)
  \/ e = MaxLengthError EmptyString
  \/ exists n,
       (0 <= n <= MAX_PACKET_LENGTH)%Z /\ (4 + n <= len data)%Z
       /\ ParseFromString (slice data 4 (4 + n)) = Raise e.
Proof.
  intros Hraise.
  destruct (Z.lt_ge_cases (len data) 4) as [Hshort|Hlong].
  { left. unfold UnPack in Hraise. apply Z.ltb_lt in Hshort.
    rewrite Hshort in Hraise. inversion Hraise. eauto. }
  destruct (UnPack_long data Hlong) as (n & Hn & Hrange & Hdata).
  rewrite Hdata in Hraise.
  destruct (Z.gtb_spec n MAX_PACKET_LENGTH).
  { right. left. inversion Hraise. reflexivity. }
  destruct (Z.ltb_spec (len data) (4 + n)).
  { left. inversion Hraise. eauto. }
  right. right. exists n. repeat split; try lia. exact Hraise.
Qed.

(** X3. [Pack] does not look at the maximum packet length: a frame whose
    serialized form is longer than the maximum (and shorter than [2^32])
    is packed all the same, and [UnPack] of the result raises
    [MaxLengthError]. *)
Theorem Pack_ignores_maximum (f : Container) :
  (MAX_PACKET_LENGTH < len (SerializeToString f) < 2 ^ 32)%Z ->
  exists b,
    Pack f = Ok b
    /\ len b = (4 + len (SerializeToString f))%Z
    /\ UnPack b = Raise (MaxLengthError EmptyString).
Proof.
  intros [Hbig Hlt].
  destruct (Pack_ok f Hlt) as (prefix & Hp & HPack).
  exists (prefix ++ SerializeToString f). split; [exact HPack|].
  split.
  - rewrite len_app. pose proof (struct_pack_I_length _ _ Hp).
    unfold len at 1. lia.
  - rewrite (UnPack_prefixed _ _ _ Hp).
    destruct (Z.gtb_spec (len (SerializeToString f)) MAX_PACKET_LENGTH);
      [reflexivity|lia].
Qed.

(** X4. The length prefix of [Pack].  When the serialized form of a
    message has [2^32] octets or more, [struct.pack] cannot hold its length
    and [Pack] raises [struct.error]; when it has fewer, [Pack] returns;
    and whatever [Pack] returns is the four octets of the big-endian length
    followed by the serialized form, which then has fewer than [2^32]
    octets. *)
Theorem Pack_length_prefix (f : Container) :
  ((2 ^ 32 <= len (SerializeToString f))%Z -> Pack f = Raise struct_error)
  /\ ((len (SerializeToString f) < 2 ^ 32)%Z -> exists b, Pack f = Ok b)
  /\ (forall b, Pack f = Ok b ->
        (len (SerializeToString f) < 2 ^ 32)%Z
        /\ slice b 0 4 = take 4 b
        /\ struct_unpack_I (take 4 b) = Ok (len (SerializeToString f))
        /\ drop 4 b = SerializeToString f).
Proof.
  pose proof (len_nonneg (SerializeToString f)) as Hnn.
  unfold Pack.
  destruct (struct_pack_I (len (SerializeToString f))) as [prefix|e] eqn:Hp.
  - pose proof (struct_pack_I_length _ _ Hp) as Hl.
    pose proof (struct_pack_unpack_I _ _ Hp) as Hu.
    assert (Hlt : (len (SerializeToString f) < 2 ^ 32)%Z).
    { unfold struct_pack_I in Hp.
      destruct (Z.leb_spec 0 (len (SerializeToString f)));
        destruct (Z.ltb_spec (len (SerializeToString f)) (2 ^ 32));
        cbn [andb] in Hp; try discriminate Hp. assumption. }
    split; [intros Hge; lia|]. split; [intros _; eexists; reflexivity|].
    intros b [= <-]. split; [exact Hlt|]. split; [apply slice_0|].
    rewrite <- Hl, take_app_length, drop_app_length.
    split; [exact Hu|reflexivity].
  - assert (He : e = struct_error /\ (2 ^ 32 <= len (SerializeToString f))%Z).
    { unfold struct_pack_I in Hp.
      destruct (Z.leb_spec 0 (len (SerializeToString f))); [|lia].
      destruct (Z.ltb_spec (len (SerializeToString f)) (2 ^ 32));
        cbn [andb] in Hp; inversion Hp. split; [reflexivity|assumption]. }
    destruct He as [-> Hge].
    split; [intros _; reflexivity|]. split; [intros Hlt; lia|].
    intros b Hb. discriminate Hb.
Qed.

End CodecMore.

Lemma UnPack_verdict_final_witness :
  (forall value, UnPack abc_data <> Raise (DataNeededError value))
  /\ UnPack (abc_data ++ [x01; x02]) = UnPack abc_data.
Proof.
  assert (H1 : forall value, UnPack abc_data <> Raise (DataNeededError value))
    by (intros value; vm_compute; discriminate).
  split; [exact H1|].
  exact (@UnPack_verdict_final Wire.schema abc_data [x01; x02] H1).
Defined.

Lemma UnPack_errors_witness :
  UnPack [x00; x10; x00; x01] = Raise (MaxLengthError EmptyString)
  /\ ((exists value, MaxLengthError EmptyString = DataNeededError value)
      \/ MaxLengthError EmptyString = MaxLengthError EmptyString
      \/ exists n,
           (0 <= n <= MAX_PACKET_LENGTH)%Z
           /\ (4 + n <= len [x00; x10; x00; x01])%Z
           /\ ParseFromString (slice [x00; x10; x00; x01] 4 (4 + n))
              = Raise (MaxLengthError EmptyString)).
Proof.
  assert (H1 : UnPack [x00; x10; x00; x01] = Raise (MaxLengthError EmptyString))
    by reflexivity.
  split; [exact H1|].
  exact (@UnPack_errors Wire.schema [x00; x10; x00; x01] _ H1).
Defined.

Lemma Pack_ignores_maximum_witness :
  (MAX_PACKET_LENGTH < len (@SerializeToString bulky push_frame) < 2 ^ 32)%Z
  /\ exists b,
       @Pack bulky push_frame = Ok b
       /\ len b = (4 + len (@SerializeToString bulky push_frame))%Z
       /\ @UnPack bulky b = Raise (MaxLengthError EmptyString).
Proof.
  assert (H1 : (MAX_PACKET_LENGTH
                < len (@SerializeToString bulky push_frame) < 2 ^ 32)%Z)
    by (split; vm_compute; reflexivity).
  split; [exact H1|].
  exact (@Pack_ignores_maximum bulky push_frame H1).
Defined.

Lemma Pack_length_prefix_witness :
  Pack abc_frame = Ok abc_data
  /\ (len (SerializeToString abc_frame) < 2 ^ 32)%Z
  /\ slice abc_data 0 4 = take 4 abc_data
  /\ struct_unpack_I (take 4 abc_data) = Ok (len (SerializeToString abc_frame))
  /\ drop 4 abc_data = SerializeToString abc_frame.
Proof.
  assert (H1 : Pack abc_frame = Ok abc_data) by (vm_compute; reflexivity).
  split; [exact H1|].
  exact (proj2 (proj2 (@Pack_length_prefix Wire.schema abc_frame)) abc_data H1).
Defined.

(** * The bit helpers *)

Lemma land_pow2 (x i : Z) :
  (0 <= i)%Z ->
  Z.land x (Z.shiftl 1 i) = if Z.testbit x i then (2 ^ i)%Z else 0%Z.
Proof.
  intros Hi. rewrite Z.shiftl_1_l.
  apply Z.bits_inj'. intros j Hj. rewrite Z.land_spec, Z.pow2_bits_eqb by lia.
  destruct (Z.eqb_spec i j) as [->|Hne].
  - rewrite andb_true_r. destruct (Z.testbit x j) eqn:E.
    + rewrite Z.pow2_bits_true by lia. reflexivity.
    + rewrite Z.bits_0. reflexivity.
  - rewrite andb_false_r. destruct (Z.testbit x i).
    + rewrite Z.pow2_bits_false by lia. reflexivity.
    + rewrite Z.bits_0. reflexivity.
Qed.

Lemma testbit_lor_pow2 (x i j : Z) :
  (0 <= i)%Z -> (0 <= j)%Z ->
  Z.testbit (Z.lor x (Z.shiftl 1 i)) j = Z.testbit x j || (i =? j)%Z.
Proof.
  intros Hi Hj. rewrite Z.lor_spec, Z.shiftl_1_l, Z.pow2_bits_eqb by lia.
  reflexivity.
Qed.

(** X5. Setting a bit and testing it: for a non-negative offset,
    [set_bit] returns a value in which [test_bit] at that offset gives the
    mask [2^offset], at every other offset gives what it gave before, and
    which [set_bit] at the same offset leaves as it is. *)
Theorem set_bit_test_bit (x i : Z) :
  (0 <= i)%Z ->
  exists y,
    set_bit x i = Ok y
    /\ test_bit y i = Ok (2 ^ i)%Z
    /\ (forall j, (0 <= j)%Z -> j <> i -> test_bit y j = test_bit x j)
    /\ set_bit y i = Ok y.
Proof.
  intros Hi. unfold set_bit, test_bit.
  destruct (Z.ltb_spec i 0); [lia|].
  eexists. split; [reflexivity|]. split; [|split].
  - rewrite land_pow2, testbit_lor_pow2, Z.eqb_refl, orb_true_r by lia.
    reflexivity.
  - intros j Hj Hne. destruct (Z.ltb_spec j 0); [lia|].
    rewrite !land_pow2, testbit_lor_pow2 by lia.
    destruct (Z.eqb_spec i j); [congruence|]. rewrite orb_false_r. reflexivity.
  - f_equal. apply Z.bits_inj'. intros j Hj.
    rewrite Z.lor_spec, testbit_lor_pow2 by lia.
    rewrite Z.shiftl_1_l, Z.pow2_bits_eqb by lia.
    destruct (Z.testbit x j), (i =? j)%Z; reflexivity.
Qed.

(** X6. What [test_bit] returns: for a non-negative offset, [2^offset]
    when the bit is set and [0] when it is not, so the result is true as a
    Python integer exactly when the bit is set; for a negative offset both
    helpers raise [ValueError]. *)
Theorem test_bit_truth (x i : Z) :
  ((0 <= i)%Z ->
     test_bit x i = Ok (if Z.testbit x i then 2 ^ i else 0)%Z
     /\ (exists r, test_bit x i = Ok r /\ int_true r = Z.testbit x i))
  /\ ((i < 0)%Z ->
        test_bit x i = Raise ValueError /\ set_bit x i = Raise ValueError).
Proof.
  unfold test_bit, set_bit. split.
  - intros Hi. destruct (Z.ltb_spec i 0); [lia|].
    rewrite land_pow2 by lia. split; [reflexivity|].
    eexists. split; [reflexivity|].
    unfold int_true. destruct (Z.testbit x i); [|reflexivity].
    pose proof (Z.pow_pos_nonneg 2 i ltac:(lia) Hi).
    destruct (Z.eqb_spec (2 ^ i) 0); [lia|reflexivity].
  - intros Hi. apply Z.ltb_lt in Hi. rewrite Hi. split; reflexivity.
Qed.

Lemma set_bit_test_bit_witness :
  (0 <= 6)%Z
  /\ exists y,
       set_bit MSG_CLIENT 6 = Ok y
       /\ test_bit y 6 = Ok (2 ^ 6)%Z
       /\ (forall j, (0 <= j)%Z -> j <> 6%Z -> test_bit y j = test_bit MSG_CLIENT j)
       /\ set_bit y 6 = Ok y.
Proof.
  assert (H1 : (0 <= 6)%Z) by lia.
  split; [exact H1|].
  exact (set_bit_test_bit MSG_CLIENT 6 H1).
Defined.

Lemma test_bit_truth_witness :
  (0 <= 6)%Z
  /\ test_bit (Z.lor MSG_CLIENT MSG_EVENT) 6
     = Ok (if Z.testbit (Z.lor MSG_CLIENT MSG_EVENT) 6 then 2 ^ 6 else 0)%Z
  /\ (exists r,
        test_bit (Z.lor MSG_CLIENT MSG_EVENT) 6 = Ok r
        /\ int_true r = Z.testbit (Z.lor MSG_CLIENT MSG_EVENT) 6).
Proof.
  assert (H1 : (0 <= 6)%Z) by lia.
  split; [exact H1|].
  exact (proj1 (test_bit_truth (Z.lor MSG_CLIENT MSG_EVENT) 6) H1).
Defined.

(** * More on the dispatcher *)

Section DispatcherMore.
Context `{ContainerSchema} (env : Env).

(** Split on whatever decides the next step of a dispatch. *)
Ltac churn :=
  repeat first
    [ progress mstep
    | progress cbn [is_Exception]
    | ask env
    | match goal with
      | |- context [str_true ?s] => destruct (str_true s) eqn:?
      | |- context [json_loads env ?s] => destruct (json_loads env s) eqn:?
      | |- context [int_true ?z] => destruct (int_true z) eqn:?
      | |- context [getitem ?o ?k] => destruct (getitem o k) eqn:?
      | |- context [py_eq_str ?o ?s] => destruct (py_eq_str o s) eqn:?
      | |- context [hash_key ?o] => destruct (hash_key o) as [[?k|]|?e] eqn:?
      | |- context [@lookup _ _ _ _ ?k ?t] => destruct (t !! k) eqn:?
      | |- context [match ?e with KeyboardInterrupt => _ | _ => _ end] =>
          is_var e; destruct e
      end ].

(** Every path through the dispatcher, for what it touches. *)
Lemma _resp_handler_footprint (msg : Container) (w : World) :
  _send_queue (self (_resp_handler env msg w).2) = _send_queue (self w)
  /\ gw_fd (self (_resp_handler env msg w).2) = gw_fd (self w)
  /\ _gw_fd_raw (self (_resp_handler env msg w).2) = _gw_fd_raw (self w)
  /\ buf (_resp_handler env msg w).2 = buf w
  /\ exists tr,
       trace (_resp_handler env msg w).2 = trace w ++ tr
       /\ forallb (fun c => negb (is_socket_call c)) (calls tr) = true
       /\ (List.filter is_invoke (calls tr) = []
           /\ callback_tbl (self (_resp_handler env msg w).2)
              = callback_tbl (self w)
           \/ exists k f,
                callback_tbl (self w) !! k = Some f
                /\ List.filter is_invoke (calls tr)
                   = [invoke f (STATUS_SUCCESS env)]
                /\ callback_tbl (self (_resp_handler env msg w).2)
                   = delete k (callback_tbl (self w))).
Proof.
  destruct (_resp_handler env msg w) as [r w'] eqn:Hrun. cbn [snd].
  revert Hrun. destruct w as [[tbl fd raw queue my] buffer tr0].
  unfold _resp_handler, tbl_lookup. churn.
  all: intros [= <- <-]; mstep.
  all: repeat (split; [reflexivity|]).
  all: first [ exists []; split; [symmetry; apply app_nil_r|]
             | eexists; split; [rewrite <- ?app_assoc; simpl; reflexivity|] ].
  all: split; [reflexivity|].
  all: first [ left; split; reflexivity
             | right; do 2 eexists; split; [eassumption|split; reflexivity] ].
Qed.

Lemma py_eq_str_true (o : pyobj) (s : string) :
  py_eq_str o s = true -> o = PyStr s.
Proof.
  destruct o; simpl; try discriminate.
  intros Heq. apply String.eqb_eq in Heq. congruence.
Qed.

Lemma hash_key_some (o : pyobj) (k : string) :
  hash_key o = Ok (Some k) -> o = PyStr k.
Proof. destruct o; simpl; congruence. Qed.

(** X7. Who is called for which frame.  In any dispatch, a registered
    callback is invoked only for a client-class receipt that names the id
    the callback is registered under, and then once, with the success
    status; the online callback is called only for a server-class online
    event; the presence store and the offline callback only for a
    server-class offline event; and each of them with the frame's sender. *)
Theorem dispatch_routing (msg : Container) (w : World) :
  exists tr,
    trace (_resp_handler env msg w).2 = trace w ++ tr
    /\ (forall f s, In (invoke f s) (calls tr) ->
          s = STATUS_SUCCESS env
          /\ List.filter is_invoke (calls tr) = [invoke f s]
          /\ exists mid,
               receipt_for env msg mid
               /\ callback_tbl (self w) !! mid = Some f)
    /\ (forall sid, In (online_callback sid) (calls tr) ->
          sid = SID msg /\ presence_event env msg "online")
    /\ (forall sid,
          In (delToOnlineTable sid) (calls tr)
          \/ In (offline_callback sid) (calls tr) ->
          sid = SID msg /\ presence_event env msg "offline")
    /\ (In mysql (calls tr) -> presence_event env msg "offline").
Proof.
  destruct (_resp_handler env msg w) as [r w'] eqn:Hrun. cbn [snd].
  revert Hrun. destruct w as [[tbl fd raw queue my] buffer tr0].
  unfold _resp_handler, tbl_lookup. churn.
  all: intros [= <- <-]; mstep.
  all: first [ exists []; split; [symmetry; apply app_nil_r|]
             | eexists; split; [rewrite <- ?app_assoc; simpl; reflexivity|] ].
  all: repeat match goal with
         | Hp : py_eq_str _ _ = true |- _ => apply py_eq_str_true in Hp
         | Hk : hash_key _ = Ok (Some _) |- _ => apply hash_key_some in Hk
         end; subst.
  all: unfold receipt_for, presence_event, calls; cbn [self callback_tbl].
  all: split; [intros f s Hin
              |split; [intros sid Hin
                      |split; [intros sid Hin|intros Hin]]].
  all: simpl in Hin; try (exfalso; intuition discriminate).
  all: repeat match goal with
         | Hor : _ \/ _ |- _ => destruct Hor as [Hor|Hor]
         end; try contradiction; try discriminate.
  all: try (injection Hin as <- <-); try (injection Hin as <-).
  all: repeat split; try assumption; try reflexivity.
  all: repeat first [eassumption | split | eexists].
Qed.

End DispatcherMore.

Section DispatcherPaths.
Context `{ContainerSchema} (env : Env).

(** The dispatcher, once the body is read. *)
Lemma _resp_handler_parsed (msg : Container) (body : pyobj) (w : World) :
  parsed_body env msg = Ok body ->
  _resp_handler env msg w =
    (if int_true (Z.land (TYPE msg) MSG_CLIENT) then
       let* ty := lift (getitem body "type") in
       if py_eq_str ty "receipt" then
         let* mid := lift (getitem body "mid") in
         log log_debug "%s confirmed %s" [ArgStr (SID msg); ArgObj mid] >>
         let* key := lift (hash_key mid) in
         let* w := get in
         match tbl_lookup key (callback_tbl (self w)) with
         | Some (k, _func) =>
             modify (set_callback_tbl (delete k (callback_tbl (self w)))) >>
             try_except (extern env (invoke _func (STATUS_SUCCESS env)))
               (fun ex =>
                  match ex with
                  | KeyboardInterrupt => Some (raise KeyboardInterrupt)
                  | _ =>
                      if is_Exception ex then
                        Some (log log_error got_in_callback [ArgExn ex] >>
                              traceback_print_exc)
                      else None
                  end)
               (fun _ => ret tt)
         | None => ret tt
         end
       else
         log log_debug "***INCOMING FROM [%s]:%s***"
           [ArgStr (SID msg); ArgStr (BODY msg)]
     else
       if int_true (Z.land (TYPE msg) MSG_EVENT) then
         let* ty := lift (getitem body "type") in
         if py_eq_str ty "online" then
           log log_debug "[GM] user %s is now online" [ArgStr (SID msg)] >>
           try_except (extern env (online_callback (SID msg)))
             (fun ex =>
                match ex with
                | InconsistentError =>
                    Some (log log_warning "error during setting %s online: %s"
                            [ArgStr (SID msg); ArgExn ex])
                | _ => None
                end)
             (fun _ => ret tt)
         else
           let* ty := lift (getitem body "type") in
           if py_eq_str ty "offline" then
             let* w := get in
             extern env mysql >>
             modify (set_mysql_instance (Some (length (trace w)))) >>
             log log_debug "[GM] user %s is now offline" [ArgStr (SID msg)] >>
             try_except
               (extern env (delToOnlineTable (SID msg)) >>
                extern env (offline_callback (SID msg)))
               (fun ex =>
                  match ex with
                  | InconsistentError =>
                      Some (log log_warning "error during setting %s offline: %s"
                              [ArgStr (SID msg); ArgExn ex])
                  | _ => None
                  end)
               (fun _ => ret tt)
           else ret tt
       else
         ret tt) w.
Proof.
  unfold parsed_body, _resp_handler. intros Hbody.
  destruct (str_true (BODY msg)).
  - unfold bind at 1, lift at 1. rewrite Hbody. reflexivity.
  - inversion Hbody; subst body. reflexivity.
Qed.

Lemma getitem_raises (o : pyobj) (k : string) (e : exn) :
  getitem o k = Raise e -> e = KeyError k \/ e = TypeError.
Proof.
  destruct o as [| | | | |d]; simpl; try (intros [= <-]; right; reflexivity).
  destruct (assoc k d); [discriminate|]. intros [= <-]. left. reflexivity.
Qed.

(** X8. A frame without a body type.  When a client-class frame or a
    presence-event frame has a body without a readable ["type"] (an empty
    body, an object without the key, a value that is not an object), the
    dispatch raises [KeyError] or [TypeError] before anything is logged,
    called or changed, and a receive turn that decoded the frame lets the
    exception leave [_recv], the buffer already emptied. *)
Theorem body_without_type (msg : Container) (body : pyobj) (e : exn) :
  parsed_body env msg = Ok body ->
  getitem body "type" = Raise e ->
  int_true (Z.land (TYPE msg) MSG_CLIENT) = true
  \/ int_true (Z.land (TYPE msg) MSG_EVENT) = true ->
  (e = KeyError "type" \/ e = TypeError)
  /\ (forall w, _resp_handler env msg w = (Raise e, w))
  /\ (forall w chunk,
        reads env w chunk ->
        UnPack (buf w ++ chunk) = Ok msg ->
        (_recv_turn env w).1 = Raise e /\ buf (_recv_turn env w).2 = []).
Proof.
  intros Hbody Hty Hbits.
  pose proof (getitem_raises _ _ _ Hty) as He.
  assert (Hrun : forall w, _resp_handler env msg w = (Raise e, w)).
  { intros w. rewrite (_resp_handler_parsed msg body w Hbody).
    destruct (int_true (Z.land (TYPE msg) MSG_CLIENT)).
    - mstep. rewrite Hty. reflexivity.
    - destruct Hbits as [Hc|He']; [discriminate Hc|]. rewrite He'.
      mstep. rewrite Hty. reflexivity. }
  split; [exact He|]. split; [exact Hrun|].
  intros w chunk Hr Hmsg.
  destruct (_recv_turn_read env w chunk Hr) as (w1 & Hb & _ & Hturn).
  rewrite Hturn, Hb, Hmsg, Hrun.
  destruct (Z.eqb_spec (len (buf w ++ chunk)) 0) as [Hz|_].
  { exfalso. unfold len in Hz.
    destruct (buf w ++ chunk); [|simpl in Hz; lia].
    destruct UnPack_nil as [value Hnil]. congruence. }
  unfold after_dispatch.
  destruct He as [-> | ->]; split; reflexivity.
Qed.

(** X9. Server-class frames that are not online or offline events are
    ignored: when the CLIENT bit is clear and the body reads, a frame
    without the EVENT bit, or an event whose type is neither ["online"] nor
    ["offline"], is dispatched without any call, log line or change. *)
Theorem unmatched_server_frame (msg : Container) (body : pyobj) :
  int_true (Z.land (TYPE msg) MSG_CLIENT) = false ->
  parsed_body env msg = Ok body ->
  int_true (Z.land (TYPE msg) MSG_EVENT) = false
  \/ (exists ty,
        getitem body "type" = Ok ty
        /\ py_eq_str ty "online" = false
        /\ py_eq_str ty "offline" = false) ->
  forall w, _resp_handler env msg w = (Ok tt, w).
Proof.
  intros Hc Hbody Hkind w.
  rewrite (_resp_handler_parsed msg body w Hbody), Hc.
  destruct Hkind as [He|(ty & Hty & Hon & Hoff)].
  - rewrite He. reflexivity.
  - destruct (int_true (Z.land (TYPE msg) MSG_EVENT)); [|reflexivity].
    mstep. rewrite Hty. mstep. rewrite Hon. mstep. rewrite Hoff. reflexivity.
Qed.

(** X10. A callback that raises.  When the callback registered for a
    receipt raises [e], its entry is gone from the table all the same; if
    [e] is an [Exception] the dispatch returns normally after an error line
    and a traceback, and otherwise ([KeyboardInterrupt], [SystemExit]) [e]
    leaves the dispatch with nothing logged after the call. *)
Theorem callback_failure_contained (mid : string) (f : callback)
    (msg : Container) (w : World) (e : exn) :
  callback_tbl (self w) !! mid = Some f ->
  receipt_for env msg mid ->
  answer env
    (trace w ++
       [(logger log_debug "%s confirmed %s"
           [ArgStr (SID msg); ArgObj (PyStr mid)], Returns [])])
    (invoke f (STATUS_SUCCESS env)) = Raises e ->
  callback_tbl (self (_resp_handler env msg w).2)
  = delete mid (callback_tbl (self w))
  /\ (_resp_handler env msg w).1 = (if is_Exception e then Ok tt else Raise e)
  /\ trace (_resp_handler env msg w).2 =
       trace w ++
       [(logger log_debug "%s confirmed %s"
           [ArgStr (SID msg); ArgObj (PyStr mid)], Returns []);
        (invoke f (STATUS_SUCCESS env), Raises e)]
       ++ (if is_Exception e
           then [(logger log_error got_in_callback [ArgExn e], Returns []);
                 (print_exc, Returns [])]
           else []).
Proof.
  intros Hsome (Hc & Hb & body & Hj & Hty & Hmid) Hans.
  unfold _resp_handler. rewrite Hb, Hj, Hc. mstep. rewrite Hty. mstep.
  change (py_eq_str (PyStr "receipt") "receipt") with true.
  mstep. rewrite Hmid. mstep. cbn [hash_key]. mstep.
  unfold tbl_lookup. rewrite Hsome. mstep. rewrite Hans. mstep.
  destruct e; cbn [is_Exception]; mstep;
    (split; [reflexivity|]; split; [reflexivity|]);
    rewrite <- ?app_assoc; reflexivity.
Qed.

(** X11. Online presence event: the calls of the dispatch are one debug
    line and the online callback, once, with the sender; the presence store
    and the offline callback are not called.  An [InconsistentError] from
    the callback becomes one warning and a normal return; any other
    exception leaves the dispatch, with nothing logged after the call. *)
Theorem online_event (msg : Container) (w : World) :
  presence_event env msg "online" ->
  exists o,
    answer env
      (trace w ++
         [(logger log_debug "[GM] user %s is now online" [ArgStr (SID msg)],
           Returns [])])
      (online_callback (SID msg)) = o
    /\ trace (_resp_handler env msg w).2 =
         trace w ++
         [(logger log_debug "[GM] user %s is now online" [ArgStr (SID msg)],
           Returns []);
          (online_callback (SID msg), o)]
         ++ match o with
            | Raises InconsistentError =>
                [(logger log_warning "error during setting %s online: %s"
                    [ArgStr (SID msg); ArgExn InconsistentError], Returns [])]
            | _ => []
            end
    /\ (_resp_handler env msg w).1 =
         match o with
         | Returns _ | Raises InconsistentError => Ok tt
         | Raises e => Raise e
         end.
Proof.
  intros (Hc & He & Hb & body & Hj & Hty).
  eexists. split; [reflexivity|].
  unfold _resp_handler. rewrite Hb, Hj, Hc, He. mstep. rewrite Hty. mstep.
  change (py_eq_str (PyStr "online") "online") with true.
  mstep. ask env; mstep.
  - destruct w as [[] ? ?]. repeat split. rewrite <- ?app_assoc. reflexivity.
  - destruct e, w as [[] ? ?]; mstep; repeat split;
      rewrite <- ?app_assoc; reflexivity.
Qed.

End DispatcherPaths.

Lemma body_without_type_witness :
  (parsed_body (delivers client_beat_chunk) client_beat_frame = Ok (PyDict [])
   /\ getitem (PyDict []) "type" = Raise (KeyError "type")
   /\ (int_true (Z.land (TYPE client_beat_frame) MSG_CLIENT) = true
       \/ int_true (Z.land (TYPE client_beat_frame) MSG_EVENT) = true))
  /\ (KeyError "type" = KeyError "type" \/ KeyError "type" = TypeError)
  /\ (forall w,
        _resp_handler (delivers client_beat_chunk) client_beat_frame w
        = (Raise (KeyError "type"), w))
  /\ (forall w chunk,
        reads (delivers client_beat_chunk) w chunk ->
        UnPack (buf w ++ chunk) = Ok client_beat_frame ->
        (_recv_turn (delivers client_beat_chunk) w).1 = Raise (KeyError "type")
        /\ buf (_recv_turn (delivers client_beat_chunk) w).2 = []).
Proof.
  assert (H1 : parsed_body (delivers client_beat_chunk) client_beat_frame
               = Ok (PyDict [])) by reflexivity.
  assert (H2 : getitem (PyDict []) "type" = Raise (KeyError "type"))
    by reflexivity.
  assert (H3 : int_true (Z.land (TYPE client_beat_frame) MSG_CLIENT) = true
               \/ int_true (Z.land (TYPE client_beat_frame) MSG_EVENT) = true)
    by (left; reflexivity).
  split; [repeat split; assumption|].
  exact (body_without_type (delivers client_beat_chunk) client_beat_frame
           (PyDict []) (KeyError "type") H1 H2 H3).
Defined.

(** An empty client-class frame, received: the receive loop ends. *)
Example empty_client_frame_ends_recv :
  UnPack client_beat_chunk = Ok client_beat_frame
  /\ (_recv_loop (delivers client_beat_chunk) 5 idle).1
     = Raise (KeyError "type").
Proof. split; vm_compute; reflexivity. Qed.

Lemma unmatched_server_frame_witness :
  (int_true (Z.land (TYPE beat_frame) MSG_CLIENT) = false
   /\ parsed_body calm beat_frame = Ok (PyDict [])
   /\ (int_true (Z.land (TYPE beat_frame) MSG_EVENT) = false
       \/ exists ty,
            getitem (PyDict []) "type" = Ok ty
            /\ py_eq_str ty "online" = false
            /\ py_eq_str ty "offline" = false))
  /\ forall w, _resp_handler calm beat_frame w = (Ok tt, w).
Proof.
  assert (H1 : int_true (Z.land (TYPE beat_frame) MSG_CLIENT) = false)
    by reflexivity.
  assert (H2 : parsed_body calm beat_frame = Ok (PyDict [])) by reflexivity.
  assert (H3 : int_true (Z.land (TYPE beat_frame) MSG_EVENT) = false
               \/ exists ty,
                    getitem (PyDict []) "type" = Ok ty
                    /\ py_eq_str ty "online" = false
                    /\ py_eq_str ty "offline" = false)
    by (left; reflexivity).
  split; [repeat split; assumption|].
  exact (unmatched_server_frame calm beat_frame (PyDict []) H1 H2 H3).
Defined.

Lemma callback_failure_contained_witness :
  (callback_tbl (self tracked) !! "PSHabc" = Some 7
   /\ receipt_for failing_callbacks receipt_frame "PSHabc"
   /\ answer failing_callbacks
        (trace tracked ++
           [(logger log_debug "%s confirmed %s"
               [ArgStr (SID receipt_frame); ArgObj (PyStr "PSHabc")],
             Returns [])])
        (invoke 7 (STATUS_SUCCESS failing_callbacks))
      = Raises (OtherException "boom"))
  /\ callback_tbl (self (_resp_handler failing_callbacks receipt_frame tracked).2)
     = delete "PSHabc" (callback_tbl (self tracked))
  /\ (_resp_handler failing_callbacks receipt_frame tracked).1
     = (if is_Exception (OtherException "boom") then Ok tt
        else Raise (OtherException "boom"))
  /\ trace (_resp_handler failing_callbacks receipt_frame tracked).2 =
       trace tracked ++
       [(logger log_debug "%s confirmed %s"
           [ArgStr (SID receipt_frame); ArgObj (PyStr "PSHabc")], Returns []);
        (invoke 7 (STATUS_SUCCESS failing_callbacks),
         Raises (OtherException "boom"))]
       ++ (if is_Exception (OtherException "boom")
           then [(logger log_error got_in_callback
                    [ArgExn (OtherException "boom")], Returns []);
                 (print_exc, Returns [])]
           else []).
Proof.
  assert (H1 : callback_tbl (self tracked) !! "PSHabc" = Some 7)
    by (vm_compute; reflexivity).
  assert (H2 : receipt_for failing_callbacks receipt_frame "PSHabc").
  { split; [reflexivity|]. split; [reflexivity|].
    eexists. split; [vm_compute; reflexivity|]. split; reflexivity. }
  assert (H3 : answer failing_callbacks
                 (trace tracked ++
                    [(logger log_debug "%s confirmed %s"
                        [ArgStr (SID receipt_frame); ArgObj (PyStr "PSHabc")],
                      Returns [])])
                 (invoke 7 (STATUS_SUCCESS failing_callbacks))
               = Raises (OtherException "boom")) by reflexivity.
  split; [split; [exact H1|split; [exact H2|exact H3]]|].
  exact (callback_failure_contained failing_callbacks "PSHabc" 7 receipt_frame
           tracked (OtherException "boom") H1 H2 H3).
Defined.

Lemma online_event_witness :
  presence_event (onlooker (Raises InconsistentError)) online_frame "online"
  /\ exists o,
       answer (onlooker (Raises InconsistentError))
         (trace idle ++
            [(logger log_debug "[GM] user %s is now online"
                [ArgStr (SID online_frame)], Returns [])])
         (online_callback (SID online_frame)) = o
       /\ trace (_resp_handler (onlooker (Raises InconsistentError))
                   online_frame idle).2 =
            trace idle ++
            [(logger log_debug "[GM] user %s is now online"
                [ArgStr (SID online_frame)], Returns []);
             (online_callback (SID online_frame), o)]
            ++ match o with
               | Raises InconsistentError =>
                   [(logger log_warning "error during setting %s online: %s"
                       [ArgStr (SID online_frame); ArgExn InconsistentError],
                     Returns [])]
               | _ => []
               end
       /\ (_resp_handler (onlooker (Raises InconsistentError))
             online_frame idle).1 =
            match o with
            | Returns _ | Raises InconsistentError => Ok tt
            | Raises e => Raise e
            end.
Proof.
  assert (H1 : presence_event (onlooker (Raises InconsistentError))
                 online_frame "online").
  { split; [reflexivity|]. split; [reflexivity|]. split; [reflexivity|].
    eexists. split; [vm_compute; reflexivity|reflexivity]. }
  split; [exact H1|].
  exact (online_event (onlooker (Raises InconsistentError)) online_frame idle H1).
Defined.

(** * More on tracked sends *)

Section QueuedSend.
Context `{ContainerSchema} (env : Env).

(** A send under a supplied id. *)
Lemma _queued_send_supplied (rid : string) (msgtype : Z) (body : string)
    (cb : option callback) (m : string) (data : bytes) (w : World) :
  str_true m = true ->
  Pack (queued_frame rid msgtype body ("PSH" +:+ m)) = Ok data ->
  _queued_send env rid msgtype body cb (Some m) w
  = (Ok tt, enqueued data ("PSH" +:+ m) cb w).
Proof.
  intros Hm HPack. unfold _queued_send, queued_frame in *. rewrite Hm. mstep.
  rewrite HPack. mstep. unfold enqueued. destruct cb; reflexivity.
Qed.

(** A send without an id. *)
Lemma _queued_send_generated (rid : string) (msgtype : Z) (body : string)
    (cb : option callback) (w : World) :
  _queued_send env rid msgtype body cb None w =
    match Pack (queued_frame rid msgtype body
                  ("PSH" +:+ hexlify (fresh_octets env w))) with
    | Ok data =>
        (Ok tt,
         enqueued data ("PSH" +:+ hexlify (fresh_octets env w)) cb
           (record (os_urandom 9) (Returns (fresh_octets env w)) w))
    | Raise e =>
        (Raise e, record (os_urandom 9) (Returns (fresh_octets env w)) w)
    end.
Proof.
  unfold _queued_send, queued_frame, fresh_octets. mstep.
  destruct (Pack _); mstep; [|reflexivity].
  unfold enqueued. destruct cb; reflexivity.
Qed.

(** X12. A tracked send and its receipt.  After a send under the supplied
    id [m] with callback [f], a receipt for ["PSH" + m] invokes [f], once,
    with the success status; afterwards the table is the one from before
    the send without the entry for that id (so the same table, if the id
    was not in use), and the frame is still at the tail of the queue. *)
Theorem tracked_send_then_receipt (rid : string) (msgtype : Z) (body m : string)
    (f : callback) (data : bytes) (msg : Container) (w : World) :
  str_true m = true ->
  Pack (queued_frame rid msgtype body ("PSH" +:+ m)) = Ok data ->
  receipt_for env msg ("PSH" +:+ m) ->
  exists tr,
    trace (_resp_handler env msg
             (_queued_send env rid msgtype body (Some f) (Some m) w).2).2
    = trace w ++ tr
    /\ List.filter is_invoke (calls tr) = [invoke f (STATUS_SUCCESS env)]
    /\ callback_tbl
         (self (_resp_handler env msg
                  (_queued_send env rid msgtype body (Some f) (Some m) w).2).2)
       = delete ("PSH" +:+ m) (callback_tbl (self w))
    /\ (callback_tbl (self w) !! ("PSH" +:+ m) = None ->
        callback_tbl
          (self (_resp_handler env msg
                   (_queued_send env rid msgtype body (Some f) (Some m) w).2).2)
        = callback_tbl (self w))
    /\ _send_queue
         (self (_resp_handler env msg
                  (_queued_send env rid msgtype body (Some f) (Some m) w).2).2)
       = _send_queue (self w) ++ [data].
Proof.
  intros Hm HPack Hr.
  rewrite (_queued_send_supplied rid msgtype body (Some f) m data w Hm HPack).
  cbn [snd]. set (w1 := enqueued data ("PSH" +:+ m) (Some f) w).
  assert (Hsome : callback_tbl (self w1) !! ("PSH" +:+ m) = Some f).
  { unfold w1, enqueued. cbn. apply lookup_insert_eq. }
  destruct (receipt_registered env ("PSH" +:+ m) f msg w1 Hsome Hr)
    as (tr & Htr & Hinv & Htbl & _).
  destruct (_resp_handler_footprint env msg w1) as (Hq & _).
  exists tr. rewrite Htr, Htbl, Hq.
  unfold w1, enqueued. cbn.
  split; [reflexivity|]. split; [exact Hinv|].
  rewrite delete_insert_eq.
  split; [reflexivity|]. split; [|reflexivity].
  intros Hnone. apply delete_id. exact Hnone.
Qed.

(** X13. Registering twice under one id.  After two tracked sends under
    the same supplied id, with callbacks [f] and then [g], both frames are
    queued, in that order, but the table holds [g] only: a receipt for the
    id invokes [g] and not [f], and leaves no entry for the id. *)
Theorem second_registration_wins (rid1 rid2 : string) (ty1 ty2 : Z)
    (body1 body2 m : string) (f g : callback) (d1 d2 : bytes)
    (msg : Container) (w : World) :
  str_true m = true ->
  Pack (queued_frame rid1 ty1 body1 ("PSH" +:+ m)) = Ok d1 ->
  Pack (queued_frame rid2 ty2 body2 ("PSH" +:+ m)) = Ok d2 ->
  receipt_for env msg ("PSH" +:+ m) ->
  exists w2 tr,
    w2 = (_queued_send env rid2 ty2 body2 (Some g) (Some m)
            (_queued_send env rid1 ty1 body1 (Some f) (Some m) w).2).2
    /\ _send_queue (self w2) = _send_queue (self w) ++ [d1; d2]
    /\ callback_tbl (self w2) !! ("PSH" +:+ m) = Some g
    /\ trace (_resp_handler env msg w2).2 = trace w ++ tr
    /\ List.filter is_invoke (calls tr) = [invoke g (STATUS_SUCCESS env)]
    /\ callback_tbl (self (_resp_handler env msg w2).2) !! ("PSH" +:+ m) = None.
Proof.
  intros Hm HP1 HP2 Hr.
  rewrite (_queued_send_supplied rid1 ty1 body1 (Some f) m d1 w Hm HP1).
  cbn [snd].
  rewrite (_queued_send_supplied rid2 ty2 body2 (Some g) m d2 _ Hm HP2).
  cbn [snd].
  set (w2 := enqueued d2 ("PSH" +:+ m) (Some g)
               (enqueued d1 ("PSH" +:+ m) (Some f) w)).
  assert (Hsome : callback_tbl (self w2) !! ("PSH" +:+ m) = Some g).
  { unfold w2, enqueued. cbn. apply lookup_insert_eq. }
  destruct (receipt_registered env ("PSH" +:+ m) g msg w2 Hsome Hr)
    as (tr & Htr & Hinv & Htbl & _).
  exists w2, tr. split; [reflexivity|].
  split; [unfold w2, enqueued; cbn; rewrite <- app_assoc; reflexivity|].
  split; [exact Hsome|].
  split; [rewrite Htr; reflexivity|].
  split; [exact Hinv|].
  rewrite Htbl. apply lookup_delete_eq.
Qed.

End QueuedSend.

Lemma format_mid_true (msgid guid : string) :
  str_true (format_mid msgid guid) = true.
Proof.
  unfold format_mid, format_07s.
  destruct (spaces (7 - String.length msgid)); simpl;
    [destruct msgid|]; reflexivity.
Qed.

Section Enqueuers.
Context `{ContainerSchema} (env : Env).

(** X14. A heartbeat turn queues one frame for receiver ["0"], with the
    HEARTBEAT type, an empty body and a generated id, registers no
    callback and leaves the connection alone; and that frame, were it to
    come back from the gateway, is dispatched without any effect. *)
Theorem heartbeat_turn (w : World) (data : bytes) :
  Pack (queued_frame "0" MSG_HEARTBEAT EmptyString
          ("PSH" +:+ hexlify (fresh_octets env w))) = Ok data ->
  _heartbeat_turn env w
  = (Ok tt,
     mkWorld
       (mkGatewayMgr (callback_tbl (self w)) (gw_fd (self w))
          (_gw_fd_raw (self w)) (_send_queue (self w) ++ [data])
          (mysql_instance (self w)))
       (buf w)
       (trace w ++ [(os_urandom 9, Returns (fresh_octets env w))]))
  /\ String.length (hexlify (fresh_octets env w)) = 18
  /\ (forall w0,
        _resp_handler env
          (queued_frame "0" MSG_HEARTBEAT EmptyString
             ("PSH" +:+ hexlify (fresh_octets env w))) w0
        = (Ok tt, w0)).
Proof.
  intros HPack. unfold _heartbeat_turn.
  rewrite _queued_send_generated, HPack.
  split; [reflexivity|]. split.
  - unfold fresh_octets. rewrite hexlify_length, length_map, length_seq.
    reflexivity.
  - intros w0. reflexivity.
Qed.

(** X15. Construction.  However the connection attempt goes,
    [__init__] leaves an empty callback table; when it returns the manager
    is connected and the queue passed in has one more frame at its tail,
    the authentication frame (CLIENT and AUTH bits, empty receiver, the
    token body, a generated id); when it raises, the queue passed in is
    unchanged. *)
Theorem init_outcome (send_queue : list bytes) (w : World) :
  callback_tbl (self (__init__ env send_queue w).2) = ∅
  /\ match (__init__ env send_queue w).1 with
     | Ok _ =>
         disconnected (self (__init__ env send_queue w).2) = false
         /\ exists octets data,
              length octets = 9
              /\ Pack (queued_frame EmptyString (Z.lor MSG_CLIENT MSG_AUTH)
                         token_foo ("PSH" +:+ hexlify octets)) = Ok data
              /\ _send_queue (self (__init__ env send_queue w).2)
                 = send_queue ++ [data]
     | Raise _ =>
         _send_queue (self (__init__ env send_queue w).2) = send_queue
     end.
Proof.
  destruct (__init__ env send_queue w) as [r w'] eqn:Hrun. cbn [fst snd].
  revert Hrun. unfold __init__, connect, auth.
  repeat first [progress mstep | ask env].
  2-4: intros [= <- <-]; split; reflexivity.
  rewrite _queued_send_generated.
  match goal with |- context [fresh_octets env ?w1] =>
    set (octets := fresh_octets env w1) end.
  destruct (Pack _) as [data|e] eqn:HPack; intros [= <- <-].
  - split; [reflexivity|]. split; [reflexivity|].
    exists octets, data. split; [|split; [exact HPack|reflexivity]].
    unfold octets, fresh_octets. rewrite length_map, length_seq. reflexivity.
  - split; reflexivity.
Qed.

(** X16. [send_push] is all or nothing.  When it returns, the manager is
    connected, the bundle's frame is at the tail of the queue and the
    bundle's callback, if it has one, is registered under the frame's id;
    when it raises (a reconnect that fails surfaces to the caller), the
    queue and the callback table are as they were. *)
Theorem send_push_all_or_nothing (bundle : MessageObj) (w : World) :
  match (send_push env bundle w).1 with
  | Ok _ =>
      disconnected (self (send_push env bundle w).2) = false
      /\ exists data,
           Pack (queued_frame (user_guid bundle) (Z.lor MSG_CLIENT MSG_RECEIPT)
                   (msg_payload bundle)
                   ("PSH" +:+ format_mid (msg_msgid bundle) (user_guid bundle)))
           = Ok data
           /\ _send_queue (self (send_push env bundle w).2)
              = _send_queue (self w) ++ [data]
           /\ callback_tbl (self (send_push env bundle w).2)
              = match bundle_callback bundle with
                | Some f =>
                    <["PSH" +:+ format_mid (msg_msgid bundle) (user_guid bundle)
                      := f]> (callback_tbl (self w))
                | None => callback_tbl (self w)
                end
  | Raise _ =>
      _send_queue (self (send_push env bundle w).2) = _send_queue (self w)
      /\ callback_tbl (self (send_push env bundle w).2) = callback_tbl (self w)
  end.
Proof.
  destruct (send_push env bundle w) as [r w'] eqn:Hrun. cbn [fst snd].
  revert Hrun. destruct w as [[tbl fd raw queue my] buffer tr0].
  unfold send_push, connect, _queued_send, queued_frame.
  rewrite format_mid_true.
  destruct fd as [fd|], raw as [raw|];
    repeat first
      [ progress mstep
      | progress cbn [disconnected obj_true negb orb gw_fd _gw_fd_raw self]
      | ask env
      | match goal with
        | |- context [Pack ?m] => destruct (Pack m) as [data|e] eqn:HPack
        | |- context [bundle_callback bundle] =>
            destruct (bundle_callback bundle)
        end ].
  all: intros [= <- <-]; mstep; cbn [disconnected obj_true negb orb gw_fd
                                       _gw_fd_raw self].
  all: try (split; reflexivity).
  all: split; [reflexivity|]; exists data; split; [reflexivity|];
       split; reflexivity.
Qed.

(** X17. [connect] sets [gw_fd] last.  When it returns, three calls were
    made (socket, connect, TLS wrap) and both socket attributes hold the
    same new socket; when it raises, the exception is that of the last
    call made, [gw_fd] is what it was, and [_gw_fd_raw] already holds the
    new socket unless creating it was what failed.  Nothing else of the
    manager changes. *)
Theorem connect_outcome (w : World) :
  callback_tbl (self (connect env w).2) = callback_tbl (self w)
  /\ _send_queue (self (connect env w).2) = _send_queue (self w)
  /\ buf (connect env w).2 = buf w
  /\ exists tr,
       trace (connect env w).2 = trace w ++ tr
       /\ match (connect env w).1 with
          | Ok _ =>
              calls tr = [socket_socket; socket_connect; SSLSocket]
              /\ gw_fd (self (connect env w).2) = Some (length (trace w))
              /\ _gw_fd_raw (self (connect env w).2) = Some (length (trace w))
          | Raise e =>
              gw_fd (self (connect env w).2) = gw_fd (self w)
              /\ exists pre c,
                   tr = pre ++ [(c, Raises e)]
                   /\ _gw_fd_raw (self (connect env w).2)
                      = match pre with
                        | [] => _gw_fd_raw (self w)
                        | _ => Some (length (trace w))
                        end
          end.
Proof.
  destruct (connect env w) as [r w'] eqn:Hrun. cbn [fst snd].
  revert Hrun. destruct w as [[tbl fd raw queue my] buffer tr0].
  unfold connect. repeat first [progress mstep | ask env].
  all: intros [= <- <-]; mstep.
  all: repeat (split; [reflexivity|]).
  all: eexists; split; [rewrite <- ?app_assoc; simpl; reflexivity|].
  - repeat split.
  - split; [reflexivity|]. eexists [_; _], _. split; reflexivity.
  - split; [reflexivity|]. eexists [_], _. split; reflexivity.
  - split; [reflexivity|]. eexists [], _. split; reflexivity.
Qed.

End Enqueuers.

Lemma tracked_send_then_receipt_witness :
  (str_true "abc" = true
   /\ Pack (queued_frame "u42" (Z.lor MSG_CLIENT MSG_RECEIPT) "hello"
              ("PSH" +:+ "abc")) = Ok abc_data
   /\ receipt_for confirms receipt_frame ("PSH" +:+ "abc"))
  /\ exists tr,
       trace (_resp_handler confirms receipt_frame
                (_queued_send confirms "u42" (Z.lor MSG_CLIENT MSG_RECEIPT)
                   "hello" (Some 7) (Some "abc") idle).2).2
       = trace idle ++ tr
       /\ List.filter is_invoke (calls tr) = [invoke 7 (STATUS_SUCCESS confirms)]
       /\ callback_tbl
            (self (_resp_handler confirms receipt_frame
                     (_queued_send confirms "u42" (Z.lor MSG_CLIENT MSG_RECEIPT)
                        "hello" (Some 7) (Some "abc") idle).2).2)
          = delete ("PSH" +:+ "abc") (callback_tbl (self idle))
       /\ (callback_tbl (self idle) !! ("PSH" +:+ "abc") = None ->
           callback_tbl
             (self (_resp_handler confirms receipt_frame
                      (_queued_send confirms "u42"
                         (Z.lor MSG_CLIENT MSG_RECEIPT) "hello" (Some 7)
                         (Some "abc") idle).2).2)
           = callback_tbl (self idle))
       /\ _send_queue
            (self (_resp_handler confirms receipt_frame
                     (_queued_send confirms "u42" (Z.lor MSG_CLIENT MSG_RECEIPT)
                        "hello" (Some 7) (Some "abc") idle).2).2)
          = _send_queue (self idle) ++ [abc_data].
Proof.
  assert (H1 : str_true "abc" = true) by reflexivity.
  assert (H2 : Pack (queued_frame "u42" (Z.lor MSG_CLIENT MSG_RECEIPT) "hello"
                       ("PSH" +:+ "abc")) = Ok abc_data)
    by (vm_compute; reflexivity).
  assert (H3 : receipt_for confirms receipt_frame ("PSH" +:+ "abc")).
  { split; [reflexivity|]. split; [reflexivity|].
    eexists. split; [vm_compute; reflexivity|]. split; reflexivity. }
  split; [split; [exact H1|split; [exact H2|exact H3]]|].
  exact (tracked_send_then_receipt confirms "u42" (Z.lor MSG_CLIENT MSG_RECEIPT)
           "hello" "abc" 7 abc_data receipt_frame idle H1 H2 H3).
Defined.

Lemma second_registration_wins_witness :
  (str_true "abc" = true
   /\ Pack (queued_frame "u42" (Z.lor MSG_CLIENT MSG_RECEIPT) "hello"
              ("PSH" +:+ "abc")) = Ok abc_data
   /\ receipt_for confirms receipt_frame ("PSH" +:+ "abc"))
  /\ exists w2 tr,
       w2 = (_queued_send confirms "u42" (Z.lor MSG_CLIENT MSG_RECEIPT) "hello"
               (Some 8) (Some "abc")
               (_queued_send confirms "u42" (Z.lor MSG_CLIENT MSG_RECEIPT)
                  "hello" (Some 7) (Some "abc") idle).2).2
       /\ _send_queue (self w2) = _send_queue (self idle) ++ [abc_data; abc_data]
       /\ callback_tbl (self w2) !! ("PSH" +:+ "abc") = Some 8
       /\ trace (_resp_handler confirms receipt_frame w2).2 = trace idle ++ tr
       /\ List.filter is_invoke (calls tr) = [invoke 8 (STATUS_SUCCESS confirms)]
       /\ callback_tbl (self (_resp_handler confirms receipt_frame w2).2)
            !! ("PSH" +:+ "abc") = None.
Proof.
  assert (H1 : str_true "abc" = true) by reflexivity.
  assert (H2 : Pack (queued_frame "u42" (Z.lor MSG_CLIENT MSG_RECEIPT) "hello"
                       ("PSH" +:+ "abc")) = Ok abc_data)
    by (vm_compute; reflexivity).
  assert (H3 : receipt_for confirms receipt_frame ("PSH" +:+ "abc")).
  { split; [reflexivity|]. split; [reflexivity|].
    eexists. split; [vm_compute; reflexivity|]. split; reflexivity. }
  split; [split; [exact H1|split; [exact H2|exact H3]]|].
  exact (second_registration_wins confirms "u42" "u42"
           (Z.lor MSG_CLIENT MSG_RECEIPT) (Z.lor MSG_CLIENT MSG_RECEIPT)
           "hello" "hello" "abc" 7 8 abc_data abc_data receipt_frame idle
           H1 H2 H2 H3).
Defined.

Lemma heartbeat_turn_witness :
  Pack (queued_frame "0" MSG_HEARTBEAT EmptyString
          ("PSH" +:+ hexlify (fresh_octets calm idle))) = Ok first_beat
  /\ _heartbeat_turn calm idle
     = (Ok tt,
        mkWorld
          (mkGatewayMgr (callback_tbl (self idle)) (gw_fd (self idle))
             (_gw_fd_raw (self idle)) (_send_queue (self idle) ++ [first_beat])
             (mysql_instance (self idle)))
          (buf idle)
          (trace idle ++ [(os_urandom 9, Returns (fresh_octets calm idle))]))
  /\ String.length (hexlify (fresh_octets calm idle)) = 18
  /\ (forall w0,
        _resp_handler calm
          (queued_frame "0" MSG_HEARTBEAT EmptyString
             ("PSH" +:+ hexlify (fresh_octets calm idle))) w0
        = (Ok tt, w0)).
Proof.
  assert (H1 : Pack (queued_frame "0" MSG_HEARTBEAT EmptyString
                       ("PSH" +:+ hexlify (fresh_octets calm idle)))
               = Ok first_beat) by (vm_compute; reflexivity).
  split; [exact H1|].
  exact (heartbeat_turn calm idle first_beat H1).
Defined.

(** Construction against a gateway that cannot be reached raises, with
    nothing queued; construction in the calm environment queues the
    authentication frame, which is what the first send turn writes. *)
Example construction_runs :
  (__init__ unreachable [] offline_mgr).1 = Raise socket_error
  /\ _send_queue (self (__init__ unreachable [] offline_mgr).2) = []
  /\ (exists data f,
        _send_queue (self (__init__ calm [] offline_mgr).2) = [data]
        /\ UnPack data = Ok f
        /\ TYPE f = Z.lor MSG_CLIENT MSG_AUTH
        /\ BODY f = token_foo
        /\ RID f = EmptyString
        /\ List.filter is_write
             (calls (trace (_send_turn calm (__init__ calm [] offline_mgr).2).2))
           = [fd_write data]).
Proof.
  split; [vm_compute; reflexivity|]. split; [vm_compute; reflexivity|].
  eexists _, _. split; [vm_compute; reflexivity|].
  split; [vm_compute; reflexivity|].
  repeat split; vm_compute; reflexivity.
Qed.

(** [send_push] on a manager without a connection, against a gateway
    that cannot be reached: the caller gets [socket.error]. *)
Example send_push_raises :
  (send_push unreachable bundle17 offline_mgr).1 = Raise socket_error
  /\ _send_queue (self (send_push unreachable bundle17 offline_mgr).2) = []
  /\ callback_tbl (self (send_push unreachable bundle17 offline_mgr).2) = ∅
  /\ _gw_fd_raw (self (send_push unreachable bundle17 offline_mgr).2) = Some 0
  /\ gw_fd (self (send_push unreachable bundle17 offline_mgr).2) = None.
Proof. repeat split; vm_compute; reflexivity. Qed.

(** * More on the send loop *)

Lemma ends_at_spec (p : call * outcome -> bool) (h pre post : history)
    (x : call * outcome) :
  ends_at p h = true -> p x = true -> h = pre ++ x :: post -> post = [].
Proof.
  intros He Hx ->. induction pre as [|y pre IH]; cbn [app ends_at] in He.
  - rewrite Hx in He. destruct post; [reflexivity|discriminate He].
  - apply IH. destruct (p y); [|exact He].
    destruct (pre ++ x :: post) eqn:E; [destruct pre; discriminate E|].
    discriminate He.
Qed.

Lemma existsb_false_In {A} (p : A -> bool) (l : list A) (x : A) :
  existsb p l = false -> In x l -> p x = false.
Proof.
  intros He Hin. destruct (p x) eqn:Hp; [|reflexivity].
  assert (Ht : existsb p l = true) by (apply existsb_exists; eauto).
  congruence.
Qed.

Section SendMore.
Context `{ContainerSchema} (env : Env).

Ltac crank :=
  repeat first
    [ progress mstep
    | progress cbn [disconnected obj_true negb orb andb gw_fd _gw_fd_raw self]
    | ask env
    | match goal with
      | |- context [match ?e with socket_error => _ | _ => _ end] =>
          destruct e
      end ].

(** Every way a send turn can go, for how it ends. *)
Lemma send_turn_states (b : bytes) (q : list bytes) (w : World)
    (r : result (option unit)) (w' : World) :
  _send_queue (self w) = b :: q ->
  _send_turn env w = (r, w') ->
  exists tr,
    trace w' = trace w ++ tr
    /\ (callback_tbl (self w') = callback_tbl (self w)
        /\ buf w' = buf w
        /\ mysql_instance (self w') = mysql_instance (self w)
        /\ _send_queue (self w') = q)
    /\ forallb (fun c => is_socket_call c || is_warn c) (calls tr) = true
    /\ count is_warn tr = (if Nat.eqb (failed_writes tr) 2 then 1 else 0)
    /\ ends_at is_fatal tr = true
    /\ match r with
       | Ok _ =>
           r = Ok (Some tt)
           /\ existsb is_fatal tr = false
           /\ (if Nat.eqb (failed_writes tr) 2
               then gw_fd (self w') = None /\ _gw_fd_raw (self w') = None
               else disconnected (self w') = false
                    /\ existsb is_good_write tr = true)
       | Raise e =>
           count is_warn tr = 0
           /\ exists c, last tr = Some (c, Raises e)
                        /\ is_fatal (c, Raises e) = true
       end.
Proof.
  destruct w as [[tbl fd raw queue my] buffer tr0]. cbn [self _send_queue].
  intros ->. unfold _send_turn, _send_item. cbn [_send_attempts].
  unfold connect, gw_fd_write, close_quietly.
  destruct fd as [fd|], raw as [raw|]; crank.
  all: intros [= <- <-].
  all: mstep; grown.
  all: unfold count, failed_writes, calls.
  all: split; [repeat split|].
  all: split; [reflexivity|].
  all: split; [reflexivity|].
  all: split; [reflexivity|].
  all: first [ split; [reflexivity|]; eexists; split; reflexivity
             | repeat split ].
Qed.

(** X18. How a send turn ends.  A warning is logged exactly when two
    writes failed with an I/O error.  A turn that ends normally either
    failed twice, and then both socket attributes are [None], or wrote the
    item, and then the manager is connected and nothing was logged. *)
Theorem send_turn_endings (b : bytes) (q : list bytes) (w : World) :
  _send_queue (self w) = b :: q ->
  exists tr,
    trace (_send_turn env w).2 = trace w ++ tr
    /\ (count is_warn tr = 1 <-> failed_writes tr = 2)
    /\ (count is_warn tr = 0 <-> failed_writes tr <> 2)
    /\ ((_send_turn env w).1 = Ok (Some tt) ->
        (failed_writes tr = 2
         /\ gw_fd (self (_send_turn env w).2) = None
         /\ _gw_fd_raw (self (_send_turn env w).2) = None)
        \/ (failed_writes tr <> 2
            /\ disconnected (self (_send_turn env w).2) = false
            /\ existsb is_good_write tr = true)).
Proof.
  intros Hq. destruct (_send_turn env w) as [r w'] eqn:Hrun.
  destruct (send_turn_states b q w r w' Hq Hrun)
    as (tr & Htr & _ & _ & Hwarn & _ & Hend).
  exists tr. cbn [fst snd]. split; [exact Htr|].
  destruct (Nat.eqb_spec (failed_writes tr) 2) as [Htwo|Hnot];
    rewrite Hwarn.
  - split; [tauto|]. split; [split; [discriminate|tauto]|].
    intros ->. left. destruct Hend as (_ & _ & Hfd & Hraw). auto.
  - split; [split; [discriminate|tauto]|]. split; [tauto|].
    intros ->. right. destruct Hend as (_ & _ & Hconn & Hgood). auto.
Qed.

(** X19. What ends a send turn early.  An outside call that raises,
    other than a write failing with an I/O error or the close after it, is
    the last thing the turn does: no retry, no warning; its exception
    leaves [_send], and the item, already taken from the queue, is lost.
    Conversely a turn raises only the exception of its last call. *)
Theorem send_turn_fatal (b : bytes) (q : list bytes) (w : World) :
  _send_queue (self w) = b :: q ->
  exists tr,
    trace (_send_turn env w).2 = trace w ++ tr
    /\ _send_queue (self (_send_turn env w).2) = q
    /\ (forall pre c o post,
          tr = pre ++ (c, o) :: post ->
          is_fatal (c, o) = true ->
          post = []
          /\ (exists e, o = Raises e /\ (_send_turn env w).1 = Raise e)
          /\ count is_warn tr = 0)
    /\ (forall e, (_send_turn env w).1 = Raise e ->
          exists c, last tr = Some (c, Raises e)).
Proof.
  intros Hq. destruct (_send_turn env w) as [r w'] eqn:Hrun.
  destruct (send_turn_states b q w r w' Hq Hrun)
    as (tr & Htr & (_ & _ & _ & Hqueue) & _ & Hwarn & Hends & Hend).
  exists tr. cbn [fst snd]. split; [exact Htr|]. split; [exact Hqueue|].
  split.
  - intros pre c o post Heq Hfatal.
    pose proof (ends_at_spec _ _ _ _ _ Hends Hfatal Heq) as ->.
    split; [reflexivity|].
    destruct r as [a|e].
    + exfalso. destruct Hend as (_ & Hnone & _).
      assert (Hin : In (c, o) tr) by (rewrite Heq; apply in_elt).
      pose proof (existsb_false_In _ _ _ Hnone Hin). congruence.
    + destruct Hend as (Hzero & c' & Hlast & _).
      rewrite Heq, last_snoc in Hlast. inversion Hlast; subst c' o.
      split; [eauto|exact Hzero].
  - intros e ->. destruct Hend as (_ & c & Hlast & _). eauto.
Qed.

(** X20. What a send turn touches.  It takes the head of the queue (or
    nothing, when the queue is empty: it would block) and never puts
    anything on it; it leaves the callback table and the receive buffer as
    they were; and the only calls it makes are calls on the socket and the
    warning. *)
Theorem send_turn_footprint (w : World) :
  callback_tbl (self (_send_turn env w).2) = callback_tbl (self w)
  /\ buf (_send_turn env w).2 = buf w
  /\ _send_queue (self (_send_turn env w).2) = tail (_send_queue (self w))
  /\ exists tr,
       trace (_send_turn env w).2 = trace w ++ tr
       /\ forallb (fun c => is_socket_call c || is_warn c) (calls tr) = true
       /\ (_send_queue (self w) = [] ->
           tr = [] /\ (_send_turn env w).1 = Ok None).
Proof.
  destruct (_send_queue (self w)) as [|b q] eqn:Hq.
  - unfold _send_turn. mstep. rewrite Hq. mstep.
    repeat split; try assumption.
    exists []. rewrite app_nil_r. repeat split.
  - destruct (_send_turn env w) as [r w'] eqn:Hrun.
    destruct (send_turn_states b q w r w' Hq Hrun)
      as (tr & Htr & (Htbl & Hbuf & _ & Hqueue) & Hcalls & _).
    cbn [fst snd tail]. repeat split; try assumption.
    exists tr. repeat split; try assumption; discriminate.
Qed.

(** One turn on a connected manager whose write returns. *)
Lemma _send_turn_good (b : bytes) (q : list bytes) (w : World) (v : bytes) :
  disconnected (self w) = false ->
  _send_queue (self w) = b :: q ->
  answer env (trace w) (fd_write b) = Returns v ->
  _send_turn env w
  = (Ok (Some tt), record (fd_write b) (Returns v) (set_send_queue q w)).
Proof.
  destruct w as [[tbl fd raw queue my] buffer tr0]. cbn [self _send_queue trace].
  intros Hconn -> Hans. unfold _send_turn, _send_item. cbn [_send_attempts].
  unfold gw_fd_write.
  destruct fd as [fd|], raw as [raw|]; try discriminate Hconn.
  mstep. cbn [disconnected obj_true negb orb gw_fd _gw_fd_raw self]. mstep.
  rewrite Hans. reflexivity.
Qed.

Lemma _send_turn_empty (w : World) :
  _send_queue (self w) = [] -> _send_turn env w = (Ok None, w).
Proof. intros Hq. unfold _send_turn. mstep. rewrite Hq. reflexivity. Qed.

Lemma _send_succ (n : nat) (w : World) :
  _send env (S n) w =
    match _send_turn env w with
    | (Ok (Some _), w') => _send env n w'
    | (Ok None, w') => (Ok tt, w')
    | (Raise e, w') => (Raise e, w')
    end.
Proof.
  cbn [_send]. unfold bind.
  destruct (_send_turn env w) as [[[|]|e] w']; reflexivity.
Qed.

(** X21. First in, first out.  On a connected manager, while writes
    return, [_send] writes the queued frames in the order they were
    queued, each once, until the queue is empty, with no other call, and
    stays connected. *)
Theorem send_fifo (n : nat) (w : World) :
  disconnected (self w) = false ->
  (forall h b, exists v, answer env h (fd_write b) = Returns v) ->
  length (_send_queue (self w)) <= n ->
  (_send env n w).1 = Ok tt
  /\ _send_queue (self (_send env n w).2) = []
  /\ disconnected (self (_send env n w).2) = false
  /\ exists tr,
       trace (_send env n w).2 = trace w ++ tr
       /\ calls tr = map fd_write (_send_queue (self w)).
Proof.
  intros Hconn Hgood. revert w Hconn.
  induction n as [|n IH]; intros w Hconn Hlen.
  - destruct (_send_queue (self w)) as [|b q] eqn:Hq; [|simpl in Hlen; lia].
    cbn. repeat split; try assumption.
    exists []. rewrite app_nil_r. split; reflexivity.
  - rewrite _send_succ.
    destruct (_send_queue (self w)) as [|b q] eqn:Hq.
    + rewrite (_send_turn_empty w Hq). cbn [fst snd].
      repeat split; try assumption.
      exists []. rewrite app_nil_r. split; reflexivity.
    + destruct (Hgood (trace w) b) as [v Hans].
      rewrite (_send_turn_good b q w v Hconn Hq Hans).
      set (w1 := record (fd_write b) (Returns v) (set_send_queue q w)).
      assert (Hconn1 : disconnected (self w1) = false).
      { destruct w as [[] ? ?]. exact Hconn. }
      assert (Hq1 : _send_queue (self w1) = q).
      { destruct w as [[] ? ?]. reflexivity. }
      assert (Hlen1 : length (_send_queue (self w1)) <= n).
      { rewrite Hq1. simpl in Hlen. lia. }
      destruct (IH w1 Hconn1 Hlen1) as (Hr & Hempty & Hc & tr & Htr & Hcalls).
      repeat split; try assumption.
      exists ((fd_write b, Returns v) :: tr). split.
      * rewrite Htr. destruct w as [[] ? ?]. cbn. rewrite <- app_assoc.
        reflexivity.
      * change (calls ((fd_write b, Returns v) :: tr))
          with (fd_write b :: calls tr).
        rewrite Hcalls, Hq1. reflexivity.
Qed.

End SendMore.

Lemma send_turn_endings_witness :
  _send_queue (self loaded) = abc_data :: []
  /\ exists tr,
       trace (_send_turn unwritable loaded).2 = trace loaded ++ tr
       /\ (count is_warn tr = 1 <-> failed_writes tr = 2)
       /\ (count is_warn tr = 0 <-> failed_writes tr <> 2)
       /\ ((_send_turn unwritable loaded).1 = Ok (Some tt) ->
           (failed_writes tr = 2
            /\ gw_fd (self (_send_turn unwritable loaded).2) = None
            /\ _gw_fd_raw (self (_send_turn unwritable loaded).2) = None)
           \/ (failed_writes tr <> 2
               /\ disconnected (self (_send_turn unwritable loaded).2) = false
               /\ existsb is_good_write tr = true)).
Proof.
  assert (H1 : _send_queue (self loaded) = abc_data :: []) by reflexivity.
  split; [exact H1|].
  exact (send_turn_endings unwritable abc_data [] loaded H1).
Defined.

Lemma send_turn_fatal_witness :
  _send_queue (self loaded2) = abc_data :: [first_beat]
  /\ exists tr,
       trace (_send_turn interrupted loaded2).2 = trace loaded2 ++ tr
       /\ _send_queue (self (_send_turn interrupted loaded2).2) = [first_beat]
       /\ (forall pre c o post,
             tr = pre ++ (c, o) :: post ->
             is_fatal (c, o) = true ->
             post = []
             /\ (exists e,
                   o = Raises e
                   /\ (_send_turn interrupted loaded2).1 = Raise e)
             /\ count is_warn tr = 0)
       /\ (forall e, (_send_turn interrupted loaded2).1 = Raise e ->
             exists c, last tr = Some (c, Raises e)).
Proof.
  assert (H1 : _send_queue (self loaded2) = abc_data :: [first_beat])
    by reflexivity.
  split; [exact H1|].
  exact (send_turn_fatal interrupted abc_data [first_beat] loaded2 H1).
Defined.

(** An interrupted write, run: one write, the interrupt leaves the loop,
    the frame is gone from the queue and nothing is logged. *)
Example interrupted_write_run :
  (_send_turn interrupted loaded2).1 = Raise KeyboardInterrupt
  /\ trace (_send_turn interrupted loaded2).2
     = [(fd_write abc_data, Raises KeyboardInterrupt)]
  /\ _send_queue (self (_send_turn interrupted loaded2).2) = [first_beat].
Proof. repeat split; vm_compute; reflexivity. Qed.

Lemma send_fifo_witness :
  (disconnected (self loaded2) = false
   /\ (forall h b, exists v, answer calm h (fd_write b) = Returns v)
   /\ length (_send_queue (self loaded2)) <= 2)
  /\ (_send calm 2 loaded2).1 = Ok tt
  /\ _send_queue (self (_send calm 2 loaded2).2) = []
  /\ disconnected (self (_send calm 2 loaded2).2) = false
  /\ exists tr,
       trace (_send calm 2 loaded2).2 = trace loaded2 ++ tr
       /\ calls tr = map fd_write (_send_queue (self loaded2)).
Proof.
  assert (H1 : disconnected (self loaded2) = false) by reflexivity.
  assert (H2 : forall h b, exists v, answer calm h (fd_write b) = Returns v)
    by (intros h b; exists []; reflexivity).
  assert (H3 : length (_send_queue (self loaded2)) <= 2) by (simpl; lia).
  split; [split; [exact H1|split; [exact H2|exact H3]]|].
  exact (send_fifo calm 2 loaded2 H1 H2 H3).
Defined.

(** * More on the receive loop *)

Section ReceiveMore.
Context `{ContainerSchema} (env : Env).

(** X22. A failed wait ends the receive loop.  When waiting for the
    socket raises [socket.error], the turn breaks out of the loop without
    reading: [_recv] returns normally, for good, with the buffer and the
    manager as they were.  Any other exception from the wait leaves
    [_recv]. *)
Theorem recv_wait_fails (w : World) (e : exn) (n : nat) :
  is_Some (gw_fd (self w)) ->
  answer env (trace w) wait_read = Raises e ->
  _recv_turn env w
  = (match e with socket_error => Ok Break | _ => Raise e end,
     record wait_read (Raises e) w)
  /\ _recv_loop env (S n) w
     = (match e with socket_error => Ok tt | _ => Raise e end,
        record wait_read (Raises e) w)
  /\ buf (_recv_turn env w).2 = buf w
  /\ self (_recv_turn env w).2 = self w.
Proof.
  intros [fd Hfd] Hans.
  assert (Hturn : _recv_turn env w
                  = (match e with socket_error => Ok Break | _ => Raise e end,
                     record wait_read (Raises e) w)).
  { unfold _recv_turn. mstep. rewrite Hfd. mstep. rewrite Hans.
    destruct e; reflexivity. }
  split; [exact Hturn|]. split.
  - cbn [_recv_loop]. unfold bind. rewrite Hturn. destruct e; reflexivity.
  - rewrite Hturn. split; reflexivity.
Qed.

(** X23. A decode error other than [DataNeededError] ends the receive
    loop.  When the accumulated buffer makes [UnPack] raise anything else
    (an oversize length prefix, a payload the schema cannot parse), the
    exception leaves [_recv]; nothing is dispatched and the buffer is not
    reset. *)
Theorem recv_decode_error (w : World) (chunk : bytes) (e : exn) :
  reads env w chunk ->
  UnPack (buf w ++ chunk) = Raise e ->
  (forall value, e <> DataNeededError value) ->
  (_recv_turn env w).1 = Raise e
  /\ buf (_recv_turn env w).2 = buf w ++ chunk
  /\ self (_recv_turn env w).2 = self w
  /\ calls (trace (_recv_turn env w).2) = calls (trace w) ++ [wait_read; fd_read].
Proof.
  intros ([fd Hfd] & v & Hwait & Hread) Hraise Hnot.
  unfold _recv_turn. mstep. rewrite Hfd. mstep. rewrite Hwait. mstep.
  rewrite Hfd. mstep. rewrite Hread. mstep.
  destruct (Z.eqb_spec (len (buf w ++ chunk)) 0) as [Hz|_].
  { exfalso. unfold len in Hz.
    destruct (buf w ++ chunk); [|simpl in Hz; lia].
    destruct UnPack_nil as [value Hnil]. rewrite Hnil in Hraise.
    inversion Hraise. eapply Hnot. eauto. }
  rewrite Hraise.
  destruct e; try (exfalso; eapply Hnot; reflexivity); mstep;
    (split; [reflexivity|]; split; [reflexivity|]; split; [reflexivity|]);
    unfold calls; rewrite <- app_assoc, map_app; reflexivity.
Qed.

(** X24. A frame that arrives in two reads.  When the buffer and two
    successive reads together are exactly one valid encoded frame, and the
    second read is not empty, the first turn dispatches nothing and keeps
    everything read so far; the second turn decodes the frame and
    dispatches it, once, with the buffer emptied. *)
Theorem recv_two_reads (f : Container) (w : World) (c1 c2 : bytes) :
  Pack f = Ok (buf w ++ c1 ++ c2) ->
  c2 <> [] ->
  (len (SerializeToString f) <= MAX_PACKET_LENGTH)%Z ->
  ParseFromString (SerializeToString f) = Ok f ->
  reads env w c1 ->
  reads env (_recv_turn env w).2 c2 ->
  (_recv_turn env w).1 = Ok Continue
  /\ buf (_recv_turn env w).2 = buf w ++ c1
  /\ self (_recv_turn env w).2 = self w
  /\ exists w2,
       buf w2 = [] /\ self w2 = self w
       /\ _recv_turn env (_recv_turn env w).2
          = after_dispatch (_resp_handler env f w2).
Proof.
  intros HPack Hc2 Hmax Hparse Hr1 Hr2.
  assert (Hk : (0 <= len (buf w ++ c1) < len (buf w ++ c1 ++ c2))%Z).
  { rewrite app_assoc, (len_app (buf w ++ c1) c2).
    pose proof (len_nonneg (buf w ++ c1)).
    assert (0 < len c2)%Z; [|lia].
    unfold len. destruct c2; [congruence|simpl; lia]. }
  destruct (UnPack_partial f _ _ HPack Hmax Hk) as [value Hneed].
  assert (Hpre : slice (buf w ++ c1 ++ c2) 0 (len (buf w ++ c1)) = buf w ++ c1).
  { rewrite app_assoc. apply slice_prefix. }
  rewrite Hpre in Hneed.
  destruct (_recv_turn_read env w c1 Hr1) as (w1 & Hb1 & Hs1 & Hturn1).
  rewrite Hb1, Hneed in Hturn1.
  assert (Hrun1 : _recv_turn env w = (Ok Continue, w1)).
  { rewrite Hturn1. destruct (len (buf w ++ c1) =? 0)%Z; reflexivity. }
  rewrite Hrun1 in *. cbn [fst snd] in *.
  split; [reflexivity|]. split; [exact Hb1|]. split; [exact Hs1|].
  destruct (_recv_turn_read env w1 c2 Hr2) as (w2 & Hb2 & Hs2 & Hturn2).
  destruct (UnPack_Pack f Hmax Hparse) as (b & HPack' & HUnPack & _).
  rewrite HPack in HPack'. inversion HPack'; subst b; clear HPack'.
  rewrite Hb2, Hb1, <- app_assoc, HUnPack in Hturn2.
  exists (set_buf [] w2). split; [reflexivity|].
  split; [cbn; congruence|].
  rewrite Hturn2.
  destruct (Z.eqb_spec (len (buf w ++ c1 ++ c2)) 0) as [Hz|_]; [lia|].
  reflexivity.
Qed.

(** A receive turn on a manager without [gw_fd]. *)
Lemma _recv_turn_no_socket (w : World) :
  gw_fd (self w) = None -> _recv_turn env w = (Raise AttributeError, w).
Proof. intros Hfd. unfold _recv_turn. mstep. rewrite Hfd. reflexivity. Qed.

(** X25. Receiving after the send loop gave up.  A receive turn that
    starts while [gw_fd] is [None] raises [AttributeError] without any
    call, and the exception leaves [_recv]; this is the state a send turn
    leaves behind when both of its writes failed with an I/O error. *)
Theorem recv_after_reset (b : bytes) (q : list bytes) (w : World) :
  _send_queue (self w) = b :: q ->
  exists tr,
    trace (_send_turn env w).2 = trace w ++ tr
    /\ (failed_writes tr = 2 ->
        (_send_turn env w).1 = Ok (Some tt)
        /\ _recv_turn env (_send_turn env w).2
           = (Raise AttributeError, (_send_turn env w).2)
        /\ forall n,
             _recv_loop env (S n) (_send_turn env w).2
             = (Raise AttributeError, (_send_turn env w).2)).
Proof.
  intros Hq. destruct (_send_turn env w) as [r w'] eqn:Hrun.
  destruct (send_turn_states env b q w r w' Hq Hrun)
    as (tr & Htr & _ & _ & Hwarn & _ & Hend).
  exists tr. cbn [fst snd]. split; [exact Htr|]. intros Htwo.
  destruct r as [a|e].
  - destruct Hend as (-> & _ & Hif). rewrite Htwo in Hif. cbn in Hif.
    destruct Hif as [Hfd _].
    pose proof (_recv_turn_no_socket w' Hfd) as Hturn.
    split; [reflexivity|]. split; [exact Hturn|].
    intros n. cbn [_recv_loop]. unfold bind. rewrite Hturn. reflexivity.
  - exfalso. destruct Hend as (Hzero & _).
    rewrite Hwarn, Htwo in Hzero. discriminate Hzero.
Qed.

End ReceiveMore.

Lemma recv_wait_fails_witness :
  (is_Some (gw_fd (self idle))
   /\ answer unreadable (trace idle) wait_read = Raises socket_error)
  /\ _recv_turn unreadable idle
     = (Ok Break, record wait_read (Raises socket_error) idle)
  /\ _recv_loop unreadable 3 idle
     = (Ok tt, record wait_read (Raises socket_error) idle)
  /\ buf (_recv_turn unreadable idle).2 = buf idle
  /\ self (_recv_turn unreadable idle).2 = self idle.
Proof.
  assert (H1 : is_Some (gw_fd (self idle))) by (eexists; reflexivity).
  assert (H2 : answer unreadable (trace idle) wait_read = Raises socket_error)
    by reflexivity.
  split; [split; [exact H1|exact H2]|].
  exact (recv_wait_fails unreadable idle socket_error 2 H1 H2).
Defined.

Lemma recv_decode_error_witness :
  (reads (delivers oversize_prefix) idle oversize_prefix
   /\ UnPack (buf idle ++ oversize_prefix) = Raise (MaxLengthError EmptyString)
   /\ (forall value, MaxLengthError EmptyString <> DataNeededError value))
  /\ (_recv_turn (delivers oversize_prefix) idle).1
     = Raise (MaxLengthError EmptyString)
  /\ buf (_recv_turn (delivers oversize_prefix) idle).2
     = buf idle ++ oversize_prefix
  /\ self (_recv_turn (delivers oversize_prefix) idle).2 = self idle
  /\ calls (trace (_recv_turn (delivers oversize_prefix) idle).2)
     = calls (trace idle) ++ [wait_read; fd_read].
Proof.
  assert (H1 : reads (delivers oversize_prefix) idle oversize_prefix).
  { split; [eexists; reflexivity|]. exists []. split; reflexivity. }
  assert (H2 : UnPack (buf idle ++ oversize_prefix)
               = Raise (MaxLengthError EmptyString)) by reflexivity.
  assert (H3 : forall value, MaxLengthError EmptyString <> DataNeededError value)
    by (intros value; discriminate).
  split; [split; [exact H1|split; [exact H2|exact H3]]|].
  exact (recv_decode_error (delivers oversize_prefix) idle oversize_prefix
           (MaxLengthError EmptyString) H1 H2 H3).
Defined.

Lemma recv_two_reads_witness :
  (Pack receipt_frame
   = Ok (buf tracked ++ take 3 receipt_data ++ drop 3 receipt_data)
   /\ drop 3 receipt_data <> []
   /\ (len (SerializeToString receipt_frame) <= MAX_PACKET_LENGTH)%Z
   /\ ParseFromString (SerializeToString receipt_frame) = Ok receipt_frame
   /\ reads piecemeal tracked (take 3 receipt_data)
   /\ reads piecemeal (_recv_turn piecemeal tracked).2 (drop 3 receipt_data))
  /\ (_recv_turn piecemeal tracked).1 = Ok Continue
  /\ buf (_recv_turn piecemeal tracked).2 = buf tracked ++ take 3 receipt_data
  /\ self (_recv_turn piecemeal tracked).2 = self tracked
  /\ exists w2,
       buf w2 = [] /\ self w2 = self tracked
       /\ _recv_turn piecemeal (_recv_turn piecemeal tracked).2
          = after_dispatch (_resp_handler piecemeal receipt_frame w2).
Proof.
  assert (H1 : Pack receipt_frame
               = Ok (buf tracked ++ take 3 receipt_data ++ drop 3 receipt_data))
    by (vm_compute; reflexivity).
  assert (H2 : drop 3 receipt_data <> []) by (vm_compute; discriminate).
  assert (H3 : (len (SerializeToString receipt_frame) <= MAX_PACKET_LENGTH)%Z)
    by (vm_compute; discriminate).
  assert (H4 : ParseFromString (SerializeToString receipt_frame)
               = Ok receipt_frame) by (vm_compute; reflexivity).
  assert (H5 : reads piecemeal tracked (take 3 receipt_data)).
  { split; [eexists; reflexivity|]. exists []. split; reflexivity. }
  assert (H6 : reads piecemeal (_recv_turn piecemeal tracked).2
                 (drop 3 receipt_data)).
  { split; [eexists; vm_compute; reflexivity|]. exists [].
    split; vm_compute; reflexivity. }
  split; [repeat (split; [assumption|]); assumption|].
  exact (@recv_two_reads Wire.schema piecemeal receipt_frame tracked
           (take 3 receipt_data) (drop 3 receipt_data) H1 H2 H3 H4 H5 H6).
Defined.

Lemma recv_after_reset_witness :
  _send_queue (self loaded) = abc_data :: []
  /\ exists tr,
       trace (_send_turn unwritable loaded).2 = trace loaded ++ tr
       /\ (failed_writes tr = 2 ->
           (_send_turn unwritable loaded).1 = Ok (Some tt)
           /\ _recv_turn unwritable (_send_turn unwritable loaded).2
              = (Raise AttributeError, (_send_turn unwritable loaded).2)
           /\ forall n,
                _recv_loop unwritable (S n) (_send_turn unwritable loaded).2
                = (Raise AttributeError, (_send_turn unwritable loaded).2)).
Proof.
  assert (H1 : _send_queue (self loaded) = abc_data :: []) by reflexivity.
  split; [exact H1|].
  exact (recv_after_reset unwritable abc_data [] loaded H1).
Defined.

(** The send loop gives up, then the receive loop takes its turn. *)
Example recv_after_two_failed_writes :
  failed_writes (trace (_send_turn unwritable loaded).2) = 2
  /\ (_recv_loop unwritable 4 (_send_turn unwritable loaded).2).1
     = Raise AttributeError.
Proof. split; vm_compute; reflexivity. Qed.
